(** * Ingestion pipeline of the feature-store client: a shallow embedding

    The development follows the Python sources

      - [hsfs/core/kafka_engine.py]          (module [KafkaEngine]),
      - [hsfs/core/feature_group_engine.py]  (module [FeatureGroupEngine]),
      - [hsfs/engine/python.py]              (module [PythonEngine]),

    function by function.  Python dictionaries are [gmap]s, Python objects
    that are mutated in place are threaded through an explicit state, and
    exceptions are a constructor of the result type.  The Kafka broker, the
    job service and the clock are external: they appear as a record of
    oracles ([broker]) that the embedded code consults. *)

From stdpp Require Import base strings gmap list pretty sorting.
From Stdlib Require Import ZArith Ascii.

Local Open Scope Z_scope.
Local Open Scope string_scope.

(** ** Python values *)

Module Py.

(** The values that occur in rows, in option dictionaries and in the
    arguments of the external services. *)
Inductive pyval : Type :=
| PNone
| PNA                              (* pandas' missing-value marker pd.NA *)
| PBool (b : bool)
| PInt (z : Z)
| PStr (s : string)
| PBytes (bs : string).            (* a bytes object, one character per byte *)

#[export] Instance pyval_eq_dec : EqDecision pyval.
Proof. solve_decision. Defined.

#[export] Instance pyval_inhabited : Inhabited pyval := populate PNone.

(** Truth value of an object, as tested by [if x:] and [not x].  The truth
    value of [pd.NA] is undefined in Python (it raises); no code path of
    the embedding tests one. *)
Definition truthy (v : pyval) : bool :=
  match v with
  | PNone => false
  | PNA => false
  | PBool b => b
  | PInt z => negb (z =? 0)%Z
  | PStr s => negb (String.eqb s "")
  | PBytes bs => negb (String.eqb bs "")
  end.

(** [repr] of a bytes object: printable ASCII as it is, the backslash, the
    quote in use, tab, newline and carriage return escaped, every other byte
    as [\xhh]; double quotes are used when the bytes hold a single quote and
    no double quote. *)
Definition hex_digit (n : N) : ascii :=
  ascii_of_N (if (n <? 10)%N then 48 + n else 87 + n)%N.

Definition byte_repr (quote : ascii) (c : ascii) : string :=
  let n := N_of_ascii c in
  if Ascii.eqb c "\"%char then "\\"
  else if Ascii.eqb c quote then String "\"%char (String quote "")
  else if (n =? 9)%N then "\t"
  else if (n =? 10)%N then "\n"
  else if (n =? 13)%N then "\r"
  else if ((32 <=? n) && (n <? 127))%N then String c ""
  else String "\"%char (String "x"%char
         (String (hex_digit (n / 16)) (String (hex_digit (n mod 16)) ""))).

Fixpoint has_byte (c : ascii) (bs : string) : bool :=
  match bs with
  | EmptyString => false
  | String d bs' => Ascii.eqb c d || has_byte c bs'
  end.

Fixpoint bytes_body (quote : ascii) (bs : string) : string :=
  match bs with
  | EmptyString => ""
  | String c bs' => byte_repr quote c +:+ bytes_body quote bs'
  end.

Definition double_quote : ascii := ascii_of_N 34.

(** The line feed, written [\n] in a string literal of Python. *)
Definition line_feed : string := String (ascii_of_N 10) EmptyString.

Definition bytes_repr (bs : string) : string :=
  let quote : ascii :=
    if has_byte "'"%char bs && negb (has_byte double_quote bs)
    then double_quote else "'"%char in
  String "b"%char (String quote (bytes_body quote bs +:+ String quote "")).

(** [str(v)]. *)
Definition str (v : pyval) : string :=
  match v with
  | PNone => "None"
  | PNA => "<NA>"
  | PBool true => "True"
  | PBool false => "False"
  | PInt z => pretty z
  | PStr s => s
  | PBytes bs => bytes_repr bs
  end.

(** [isinstance(v, str)] and [isinstance(v, int)]; [bool] is a subclass of
    [int]. *)
Definition is_str (v : pyval) : bool :=
  match v with PStr _ => true | _ => false end.

Definition is_int (v : pyval) : bool :=
  match v with PInt _ | PBool _ => true | _ => false end.

(** [d.get(k, default)]. *)
Definition get (d : gmap string pyval) (k : string) (default : pyval) : pyval :=
  match d !! k with
  | Some v => v
  | None => default
  end.

(** [d.pop(k, default)]: the value and the dictionary without the key. *)
Definition pop (d : gmap string pyval) (k : string) (default : pyval)
  : pyval * gmap string pyval :=
  (get d k default, delete k d).

(** [k in d]. *)
Definition contains (d : gmap string pyval) (k : string) : bool :=
  bool_decide (is_Some (d !! k)).

(** [sorted(l)] on a list of strings. *)
Definition str_le (a b : string) : Prop := String.leb a b = true.

#[export] Instance str_le_dec a b : Decision (str_le a b).
Proof. unfold str_le. apply _. Defined.

Definition sorted (l : list string) : list string := merge_sort str_le l.

(** ["".join(l)]. *)
Definition join (l : list string) : string := String.concat "" l.

(** Exceptions. *)
Inductive exn : Type :=
| BufferError (msg : string)
| KafkaError (code : Z)             (* [raise err] on a delivery error *)
| AttributeError (what : string)
| KeyError (key : string)
| UnboundLocalError (name : string)
| ValueError (msg : string)
| TypeError (msg : string)
| DuplicateError (msg : string)
| FeatureStoreException (msg : string)
| DataValidationException (msg : string)
| SchemaMismatchError (unmatched : list string).

#[export] Instance exn_eq_dec : EqDecision exn.
Proof. solve_decision. Defined.

(** A call either returns in a new state, raises in a new state, or is cut
    off because the loop budget of the embedding ran out. *)
Inductive res (S A : Type) : Type :=
| Done (a : A) (s : S)
| Raised (e : exn) (s : S)
| OutOfFuel.
Arguments Done {S A} a s.
Arguments Raised {S A} e s.
Arguments OutOfFuel {S A}.

Definition M (S A : Type) : Type := S → res S A.

Definition ret {S A} (a : A) : M S A := λ s, Done a s.
Definition bind {S A B} (m : M S A) (k : A → M S B) : M S B :=
  λ s, match m s with
       | Done a s' => k a s'
       | Raised e s' => Raised e s'
       | OutOfFuel => OutOfFuel
       end.
Definition raise {S A} (e : exn) : M S A := λ s, Raised e s.
Definition out_of_fuel {S A} : M S A := λ _, OutOfFuel.
Definition gets {S A} (f : S → A) : M S A := λ s, Done (f s) s.
Definition modify {S} (f : S → S) : M S unit := λ s, Done tt (f s).

#[export] Instance M_ret {S} : MRet (M S) := λ A, ret.
#[export] Instance M_bind {S} : MBind (M S) := λ A B k m, bind m k.

(** [try: body  except BufferError: handler]. *)
Definition except_BufferError {S A} (body : M S A) (handler : string → M S A)
  : M S A :=
  λ s, match body s with
       | Raised (BufferError e) s' => handler e s'
       | r => r
       end.

(** [if c: body] with nothing to do otherwise. *)
Definition when {S} (c : bool) (body : M S unit) : M S unit :=
  if c then body else ret tt.

(** [for x in l: body x]. *)
Fixpoint for_each {S A} (l : list A) (body : A → M S unit) : M S unit :=
  match l with
  | [] => ret tt
  | x :: l' => body x;; for_each l' body
  end.

End Py.

Export Py.


(** ** Data model *)

(** [hsfs.feature.Feature]: the attributes the engines read and set. *)
Module Feature.
Record t : Type := mk {
  name : string;
  type : option string;
  primary : bool;
  foreign : bool;
  partition : bool;
  hudi_precombine_key : bool;
  on_demand : bool;
}.

(** [Feature(name, type)] and [Feature(name, type, on_demand=True)]. *)
Definition new (n : string) (ty : option string) (od : bool) : t :=
  mk n ty false false false false od.

#[global] Instance feature_eq_dec : EqDecision t.
Proof. solve_decision. Defined.
End Feature.

Inductive UDFExecutionMode : Type := PANDAS | PYTHON.

Inductive TransformationType : Type := ON_DEMAND | MODEL_DEPENDENT.

(** [hsfs.hopsworks_udf.HopsworksUdf].  [udf] is the row-wise callable
    ([get_udf] in Python mode: the values of the transformation features in,
    the outputs out), [pandas_udf] the vectorised one (columns in, columns
    out). *)
Module HopsworksUdf.
Record t : Type := mk {
  function_name : string;
  transformation_features : list string;
  output_column_names : list string;
  return_types : list string;
  dropped_features : list string;
  get_current_execution_mode : bool → UDFExecutionMode;
  udf : list pyval → list pyval;
  pandas_udf : list (list pyval) → list (list pyval);
}.
End HopsworksUdf.

Module TransformationFunction.
Record t : Type := mk {
  hopsworks_udf : HopsworksUdf.t;
  transformation_type : TransformationType;
}.
End TransformationFunction.

(** [hsfs.core.job.Job]; [default_args] is the entry [defaultArgs] of its
    configuration. *)
Module Job.
Record t : Type := mk {
  name : string;
  default_args : option string;
}.
#[global] Instance job_eq_dec : EqDecision t.
Proof. solve_decision. Defined.
End Job.

(** [hsfs.feature_group.FeatureGroup] and [ExternalFeatureGroup] (flag
    [external]).  [_kafka_producer] says whether the producer and the
    writers of an earlier part of a multi-part insert are cached on the
    object, [_kafka_headers] holds the cached headers. *)
Module FeatureGroup.
Record t : Type := mk {
  _id : option Z;
  name : string;
  feature_store_id : Z;
  project_id : Z;
  subject_id : Z;
  features : list Feature.t;
  primary_key : list string;
  foreign_key : list string;
  partition_key : list string;
  hudi_precombine_key : option string;
  complex_features : list string;
  online_enabled : bool;
  stream : bool;
  embedding_index : bool;
  time_travel_format : option string;
  transformation_functions : list TransformationFunction.t;
  _online_topic_name : string;
  _multi_part_insert : bool;
  _kafka_producer : bool;
  _kafka_headers : list (string * string);
  _deltastreamer_jobconf : option (option (list (string * pyval)) * pyval);
  external : bool;
  materialization_job : Job.t;
}.

Definition set_id (v : option Z) (g : t) : t :=
  mk v (name g) (feature_store_id g) (project_id g) (subject_id g)
     (features g) (primary_key g) (foreign_key g) (partition_key g)
     (hudi_precombine_key g) (complex_features g) (online_enabled g)
     (stream g) (embedding_index g) (time_travel_format g)
     (transformation_functions g) (_online_topic_name g)
     (_multi_part_insert g) (_kafka_producer g) (_kafka_headers g)
     (_deltastreamer_jobconf g) (external g) (materialization_job g).

Definition set_features (v : list Feature.t) (g : t) : t :=
  mk (_id g) (name g) (feature_store_id g) (project_id g) (subject_id g) v
     (primary_key g) (foreign_key g) (partition_key g)
     (hudi_precombine_key g) (complex_features g) (online_enabled g)
     (stream g) (embedding_index g) (time_travel_format g)
     (transformation_functions g) (_online_topic_name g)
     (_multi_part_insert g) (_kafka_producer g) (_kafka_headers g)
     (_deltastreamer_jobconf g) (external g) (materialization_job g).

Definition set_kafka_producer (v : bool) (g : t) : t :=
  mk (_id g) (name g) (feature_store_id g) (project_id g) (subject_id g)
     (features g) (primary_key g) (foreign_key g) (partition_key g)
     (hudi_precombine_key g) (complex_features g) (online_enabled g)
     (stream g) (embedding_index g) (time_travel_format g)
     (transformation_functions g) (_online_topic_name g)
     (_multi_part_insert g) v (_kafka_headers g)
     (_deltastreamer_jobconf g) (external g) (materialization_job g).

Definition set_kafka_headers (v : list (string * string)) (g : t) : t :=
  mk (_id g) (name g) (feature_store_id g) (project_id g) (subject_id g)
     (features g) (primary_key g) (foreign_key g) (partition_key g)
     (hudi_precombine_key g) (complex_features g) (online_enabled g)
     (stream g) (embedding_index g) (time_travel_format g)
     (transformation_functions g) (_online_topic_name g)
     (_multi_part_insert g) (_kafka_producer g) v
     (_deltastreamer_jobconf g) (external g) (materialization_job g).

Definition set_deltastreamer_jobconf (v : option (option (list (string * pyval)) * pyval)) (g : t) : t :=
  mk (_id g) (name g) (feature_store_id g) (project_id g) (subject_id g)
     (features g) (primary_key g) (foreign_key g) (partition_key g)
     (hudi_precombine_key g) (complex_features g) (online_enabled g)
     (stream g) (embedding_index g) (time_travel_format g)
     (transformation_functions g) (_online_topic_name g)
     (_multi_part_insert g) (_kafka_producer g) (_kafka_headers g) v
     (external g) (materialization_job g).

(** [if feature_group._id:] *)
Definition has_id (g : t) : bool :=
  match _id g with
  | Some z => negb (z =? 0)%Z
  | None => false
  end.
End FeatureGroup.

(** A dataframe: its kind, the length of its index and its columns in
    order.  Column names are kept with the columns, as [dataframe.columns]
    has them. *)
Inductive frame_kind : Type := Pandas | Polars.

#[export] Instance frame_kind_eq_dec : EqDecision frame_kind.
Proof. solve_decision. Defined.

Module DataFrame.
Record t : Type := mk {
  kind : frame_kind;
  n_rows : nat;
  cols : list (string * list pyval);
}.

(** [dataframe.columns] *)
Definition columns (df : t) : list string := (cols df).*1.

(** [dataframe[name]] as a column of values. *)
Definition column (df : t) (n : string) : option (list pyval) :=
  (list_find (λ c, c.1 = n) (cols df)) ≫= λ r, Some (r.2.2).

(** The row at position [i] as the dictionary that [itertuples] followed
    by [_asdict] (pandas) or [iter_rows(named=True)] (polars) yields. *)
Definition row (df : t) (i : nat) : gmap string pyval :=
  list_to_map ((λ c : string * list pyval, (c.1, c.2 !!! i)) <$> cols df).

Definition rows (df : t) : list (gmap string pyval) :=
  row df <$> seq 0 (n_rows df).
End DataFrame.

(** ** The world outside the client

    [tqdm] progress bars, the trace of calls that leave the process, and the
    oracles that stand for the broker, the job service and the clock. *)

Record tqdm : Type := Tqdm {
  total : nat;
  n : nat;
  colour : option string;
  closed : bool;
}.

Record partition_metadata : Type := PartitionMetadata {
  pm_id : Z;
  pm_low : Z;
  pm_high : Z;
}.

Inductive event : Type :=
| EvInitProducer
| EvCreateOnlineIngestion (num_entries : nat)
| EvListTopics (timeout : pyval)
| EvProduce (topic key value : string) (headers : list (string * string))
            (accepted : bool)
| EvPoll (timeout : Z)
| EvFlush
| EvPrint (line : string)
| EvWarn (msg : string)
| EvLogInfo (msg : string)
| EvJobRun (job : Job.t) (args : option string) (await_termination : pyval)
| EvJobSchedule (job : Job.t) (cron_expression : string) (start_time : Z)
| EvWaitOnlineIngestion (options : option pyval)
| EvApiSave
| EvDeleteContent
| EvSaveDataframe (operation storage : option string)
| EvIngestionJob (spark_job_configuration : pyval)
| EvUpload.

(** A delivery report as the producer hands it to the callback: the error
    ([None] for a delivered message; its code and [str(err)] otherwise) and
    [str(msg)]. *)
Record delivery_report : Type := DeliveryReport {
  dr_err : option (Z * string);
  dr_msg : string;
}.

Record broker : Type := Broker {
  (** does the k-th call of [producer.produce] find the local queue full
      (the message of the [BufferError] it then raises) *)
  buffer_full : nat → option string;
  (** the delivery reports served by the k-th call of [poll] or [flush] *)
  reports : nat → list delivery_report;
  (** the cluster metadata returned by the k-th [list_topics] *)
  topics : nat → gmap string (list partition_metadata);
  (** [job_api.last_execution(job)]: the identifiers of the executions found *)
  last_execution : list Z;
  (** [datetime.now(timezone.utc)] in seconds since the epoch *)
  now : Z;
  online_ingestion_id : Z;
  (** the job set up by the ingestion endpoint of the feature group API *)
  ingestion_job : Job.t;
  (** the Avro writers built by [get_encoder_func] *)
  feature_writer : string → pyval → string;
  row_writer : gmap string pyval → string;
}.

(** The report of the Great Expectations validation. *)
Record validation_report : Type := ValidationReport {
  report_id : Z;
  ingestion_result : string;
}.

(** A pyarrow type as far as [parse_schema_feature_group] looks at it. *)
Inductive arrow_type : Type :=
| ArrowNull
| ArrowType (tag : string).

(** The collaborators of the engines that are not part of the sources:
    helpers of [hsfs.util], the type conversion of [hsfs.core.type_systems],
    pyarrow, the schema validator, Great Expectations and the REST API. *)
Record services : Type := Services {
  autofix_feature_name : string → string;
  (** [pa.Schema.from_pandas(dataframe)]: names and types of the fields *)
  arrow_schema : DataFrame.t → list (string * arrow_type);
  (** [convert_pandas_dtype_to_offline_type]; [inl] is the message of the
      [ValueError] it raises *)
  convert_pandas_dtype_to_offline_type : arrow_type → string + string;
  (** [util.validate_embedding_feature_type]: the exception it raises *)
  validate_embedding_feature_type :
    bool → list Feature.t → option exn;
  (** [DataFrameValidator().validate_schema] *)
  validate_schema :
    FeatureGroup.t → DataFrame.t → list Feature.t → exn + list Feature.t;
  (** [util.verify_attribute_key_names]: the exception it raises *)
  verify_attribute_key_names : FeatureGroup.t → option exn;
  (** [feature_group._great_expectation_engine.validate] *)
  great_expectation_validate :
    FeatureGroup.t → DataFrame.t → gmap string pyval
    → option validation_report;
  (** [util.get_feature_group_url] *)
  get_feature_group_url : Z → option Z → string;
  (** the feature group as the backend returns it from [save] *)
  api_save : FeatureGroup.t → FeatureGroup.t;
  (** [hudi_engine.HudiEngine.HUDI_BULK_INSERT] *)
  HUDI_BULK_INSERT : string;
}.

Record world : Type := World {
  feature_group : FeatureGroup.t;
  (** the caller's dictionary of write options; [offline_write_options]
      and [online_write_options] are this same object *)
  write_options : gmap string pyval;
  attempts : nat;
  polls : nat;
  fetches : nat;
  progress_bar : option tqdm;
  trace : list event;
}.

Definition set_feature_group (v : FeatureGroup.t) (w : world) : world :=
  World v (write_options w) (attempts w) (polls w) (fetches w)
        (progress_bar w) (trace w).
Definition set_write_options (v : gmap string pyval) (w : world) : world :=
  World (feature_group w) v (attempts w) (polls w) (fetches w)
        (progress_bar w) (trace w).
Definition set_attempts (v : nat) (w : world) : world :=
  World (feature_group w) (write_options w) v (polls w) (fetches w)
        (progress_bar w) (trace w).
Definition set_polls (v : nat) (w : world) : world :=
  World (feature_group w) (write_options w) (attempts w) v (fetches w)
        (progress_bar w) (trace w).
Definition set_fetches (v : nat) (w : world) : world :=
  World (feature_group w) (write_options w) (attempts w) (polls w) v
        (progress_bar w) (trace w).
Definition set_progress_bar (v : option tqdm) (w : world) : world :=
  World (feature_group w) (write_options w) (attempts w) (polls w) (fetches w)
        v (trace w).
Definition emit (e : event) (w : world) : world :=
  World (feature_group w) (write_options w) (attempts w) (polls w) (fetches w)
        (progress_bar w) (trace w ++ [e])%list.

(** One event appended to the trace. *)
Definition log (e : event) : M world unit := modify (emit e).

(** ** hsfs/core/kafka_engine.py *)

Module KafkaEngine.

(** [confluent_kafka.KafkaError.TOPIC_AUTHORIZATION_FAILED] and
    [KafkaError._MSG_TIMED_OUT], the codes of librdkafka. *)
Definition TOPIC_AUTHORIZATION_FAILED : Z := 29.
Definition _MSG_TIMED_OUT : Z := -192.

Section with_broker.
Variable B : broker.

(** *** The producer of confluent_kafka

    [produce] queues a message or raises [BufferError]; [poll] and
    [flush] serve delivery reports by calling the callback that was
    handed to [produce], and an exception of the callback leaves them. *)
Definition produce (topic key value : string)
    (headers : list (string * string)) : M world unit :=
  λ w,
    let k := attempts w in
    let full := buffer_full B k in
    let w' := emit (EvProduce topic key value headers
                      (bool_decide (full = None)))
                   (set_attempts (S k) w) in
    match full with
    | Some e => Raised (BufferError e) w'
    | None => Done tt w'
    end.

Definition serve (callback : option (Z * string) → string → M world unit)
    (rs : list delivery_report) : M world unit :=
  for_each rs (λ r, callback (dr_err r) (dr_msg r)).

Definition poll (callback : option (Z * string) → string → M world unit)
    (timeout : Z) : M world unit :=
  λ w,
    let k := polls w in
    serve callback (reports B k) (emit (EvPoll timeout) (set_polls (S k) w)).

Definition flush (callback : option (Z * string) → string → M world unit)
    : M world unit :=
  λ w,
    let k := polls w in
    serve callback (reports B k) (emit EvFlush (set_polls (S k) w)).

(** *** [get_headers] *)
Definition get_headers (fg : FeatureGroup.t) (num_entries : option nat)
    : M world (list (string * string)) :=
  let headers :=
    [("projectId", pretty (FeatureGroup.project_id fg));
     ("featureGroupId",
      match FeatureGroup._id fg with
      | Some i => pretty i
      | None => "None"
      end);
     ("subjectId", pretty (FeatureGroup.subject_id fg))] in
  if FeatureGroup.online_enabled fg then
    log (EvCreateOnlineIngestion (default 0%nat num_entries));;
    mret (headers ++ [("onlineIngestionId", pretty (online_ingestion_id B))])%list
  else mret headers.

(** *** [get_writer_function] *)
Definition get_writer_function (fg : FeatureGroup.t)
    : list (string * (pyval → string)) * (gmap string pyval → string) :=
  ((λ f, (f, feature_writer B f)) <$> FeatureGroup.complex_features fg,
   row_writer B).

(** *** [_init_kafka_resources] and its caching wrapper
    [init_kafka_resources]

    The producer is the one of the broker [B] and the writers are
    functions of the feature group, so that only the headers have to be
    kept in the cache. *)
Definition _init_kafka_resources (fg : FeatureGroup.t)
    (num_entries : option nat)
    : M world (list (string * string)
               * list (string * (pyval → string))
               * (gmap string pyval → string)) :=
  log EvInitProducer;;
  headers ← get_headers fg num_entries;
  let '(feature_writers, writer) := get_writer_function fg in
  mret (headers, feature_writers, writer).

Definition init_kafka_resources (num_entries : option nat)
    : M world (list (string * string)
               * list (string * (pyval → string))
               * (gmap string pyval → string)) :=
  fg ← gets feature_group;
  if FeatureGroup._multi_part_insert fg && FeatureGroup._kafka_producer fg
  then
    let '(feature_writers, writer) := get_writer_function fg in
    mret (FeatureGroup._kafka_headers fg, feature_writers, writer)
  else
    r ← _init_kafka_resources fg num_entries;
    when (FeatureGroup._multi_part_insert fg)
      (modify (λ w, set_feature_group
                      (FeatureGroup.set_kafka_headers r.1.1
                         (FeatureGroup.set_kafka_producer true
                            (feature_group w))) w));;
    mret r.

(** *** [kafka_get_offsets] *)
Definition offsets_of (high : bool) (partitions : list partition_metadata)
    : string :=
  fold_left
    (λ offsets pm,
       offsets +:+ "," +:+ pretty (pm_id pm) +:+ ":"
         +:+ pretty (if high then pm_high pm else pm_low pm))
    partitions "".

Definition kafka_get_offsets (topic_name : string) (feature_store_id : Z)
    (offline_write_options : gmap string pyval) (high : bool)
    : M world string :=
  λ w,
    let k := fetches w in
    let w' := emit (EvListTopics
                      (get offline_write_options "kafka_timeout" (PInt 6)))
                   (set_fetches (S k) w) in
    match topics B k !! topic_name with
    | Some partitions => Done (topic_name +:+ offsets_of high partitions) w'
    | None => Done "" w'
    end.

(** *** [kafka_produce] *)
Fixpoint kafka_produce (fuel : nat) (key encoded_row topic_name : string)
    (headers : list (string * string))
    (acked : option (Z * string) → string → M world unit)
    (debug_kafka : pyval) : M world unit :=
  match fuel with
  | O => out_of_fuel
  | S fuel' =>
      except_BufferError
        (produce topic_name key encoded_row headers;;
         poll acked 0)
        (λ e,
           when (truthy debug_kafka) (log (EvPrint ("Caught: " +:+ e)));;
           poll acked 1;;
           kafka_produce fuel' key encoded_row topic_name headers acked
             debug_kafka)
  end.

(** *** [encode_complex_features] and [encode_row]

    Both change the row in place; the changed row is returned next to
    the encoding. *)
Fixpoint encode_complex_features
    (feature_writers : list (string * (pyval → string)))
    (row : gmap string pyval) : exn + gmap string pyval :=
  match feature_writers with
  | [] => inr row
  | (feature_name, writer) :: rest =>
      match row !! feature_name with
      | Some v =>
          encode_complex_features rest
            (<[feature_name := PBytes (writer v)]> row)
      | None => inl (KeyError feature_name)
      end
  end.

(** The conversions at the head of [encode_row]; of the values of the
    model only [pd.NA] is touched (numpy arrays and timestamps are not
    among them). *)
Definition normalize (v : pyval) : pyval :=
  match v with
  | PNA => PNone
  | _ => v
  end.

Definition encode_row (complex_feature_writers : list (string * (pyval → string)))
    (writer : gmap string pyval → string) (row : gmap string pyval)
    : exn + (string * gmap string pyval) :=
  match encode_complex_features complex_feature_writers (normalize <$> row) with
  | inl e => inl e
  | inr row' => inr (writer row', row')
  end.

(** *** [build_ack_callback_and_optional_progress_bar] *)
Definition bar_set_colour (c : string) : M world unit :=
  λ w, match progress_bar w with
       | Some b =>
           Done tt (set_progress_bar
                      (Some (Tqdm (total b) (n b) (Some c) (closed b))) w)
       | None =>
           Raised (AttributeError "'NoneType' object has no attribute 'colour'") w
       end.

Definition bar_update : M world unit :=
  λ w, match progress_bar w with
       | Some b =>
           Done tt (set_progress_bar
                      (Some (Tqdm (total b) (S (n b)) (colour b) (closed b))) w)
       | None =>
           Raised (AttributeError "'NoneType' object has no attribute 'update'") w
       end.

Definition bar_close : M world unit :=
  λ w, match progress_bar w with
       | Some b =>
           Done tt (set_progress_bar
                      (Some (Tqdm (total b) (n b) (colour b) true)) w)
       | None =>
           Raised (AttributeError "'NoneType' object has no attribute 'close'") w
       end.

Definition acked (is_multi_part_insert : bool)
    (err : option (Z * string)) (msg : string) : M world unit :=
  match err with
  | Some (code, err_str) =>
      offline_write_options ← gets write_options;
      when (truthy (get offline_write_options "debug_kafka" (PBool false)))
        (log (EvPrint ("Failed to deliver message: " +:+ msg +:+ ": "
                         +:+ err_str)));;
      when (bool_decide
              (code ∈ [TOPIC_AUTHORIZATION_FAILED; _MSG_TIMED_OUT]))
        (bar_set_colour "RED";;
         raise (KafkaError code))   (* Stop producing and show error *)
  | None => mret tt
  end;;
  (* update progress bar for each msg *)
  when (negb is_multi_part_insert) bar_update.

Definition build_ack_callback_and_optional_progress_bar (n_rows : nat)
    (is_multi_part_insert : bool)
    : M world (option (Z * string) → string → M world unit) :=
  modify (set_progress_bar
            (if negb is_multi_part_insert
             then Some (Tqdm n_rows 0 None false)
             else None));;
  mret (acked is_multi_part_insert).

End with_broker.

End KafkaEngine.

(** ** hsfs/engine/python.py: publication to the online topic *)

Module PythonEngine.

Section with_broker.
Variable B : broker.

(** *** [_start_offline_materialization] *)
Definition _start_offline_materialization
    (offline_write_options : option (gmap string pyval)) : pyval :=
  match offline_write_options with
  | Some options =>
      if contains options "start_offline_materialization" then
        get options "start_offline_materialization" PNone
      else if contains options "start_offline_backfill" then
        get options "start_offline_backfill" PNone
      else PBool true
  | None => PBool true
  end.

(** *** [_write_dataframe_kafka]

    The feature group and the write options are the objects of the world.
    The function is cut in two at the flush: [publish] is its first part,
    [materialize] the second. *)

(** [[str(row[pk]) for pk in sorted(feature_group.primary_key)]] *)
Fixpoint key_parts (pks : list string) (row : gmap string pyval)
    : exn + list string :=
  match pks with
  | [] => inr []
  | pk :: pks' =>
      match row !! pk with
      | Some v =>
          match key_parts pks' row with
          | inr parts => inr (str v :: parts)
          | inl e => inl e
          end
      | None => inl (KeyError pk)
      end
  end.

Definition assemble_key (primary_key : list string)
    (row : gmap string pyval) : exn + string :=
  match key_parts (sorted primary_key) row with
  | inr parts => inr (join parts)
  | inl e => inl e
  end.

(** The body of the loop over the rows. *)
Definition publish_row (fuel : nat) (fg : FeatureGroup.t)
    (headers : list (string * string))
    (feature_writers : list (string * (pyval → string)))
    (writer : gmap string pyval → string)
    (acked : option (Z * string) → string → M world unit)
    (row : gmap string pyval) : M world unit :=
  match KafkaEngine.encode_row feature_writers writer row with
  | inl e => raise e
  | inr (encoded_row, row) =>
      (* assemble key *)
      match assemble_key (FeatureGroup.primary_key fg) row with
      | inl e => raise e
      | inr key =>
          offline_write_options ← gets write_options;
          KafkaEngine.kafka_produce B fuel key encoded_row
            (FeatureGroup._online_topic_name fg) headers acked
            (get offline_write_options "debug_kafka" (PBool false))
      end
  end.

(** [f" -initialCheckPointString {initial_check_point}" if
    initial_check_point else ""] appended to the default arguments. *)
Definition job_args (job : Job.t) (initial_check_point : string) : string :=
  default "" (Job.default_args job)
    +:+ (if negb (String.eqb initial_check_point "")
         then " -initialCheckPointString " +:+ initial_check_point
         else "").

(** [f"{now.second} {now.minute} {now.hour}/{every} ? * * *"] *)
Definition cron_every (now : Z) (every : pyval) : string :=
  pretty (now `mod` 60) +:+ " " +:+ pretty ((now `div` 60) `mod` 60)
    +:+ " " +:+ pretty ((now `div` 3600) `mod` 24) +:+ "/" +:+ str every
    +:+ " ? * * *".

(** The part after the loop: start of the materialization job. *)
Definition materialize (fg : FeatureGroup.t) (initial_check_point : string)
    : M world (option Job.t) :=
  (* start materialization job if not an external feature group,
     otherwise return None *)
  if FeatureGroup.external fg then mret None else
  (* if topic didn't exist, always run the materialization job to reset
     the offsets except if it's a multi insert *)
  (if String.eqb initial_check_point ""
      && negb (FeatureGroup._multi_part_insert fg)
   then
     offline_write_options ← gets write_options;
     when (truthy (_start_offline_materialization (Some offline_write_options)))
       (log (EvWarn "This is the first ingestion after an upgrade or backup/restore, running materialization job even though `start_offline_materialization` was set to `False`."));;
     (* set the initial_check_point to the lowest offset *)
     initial_check_point ←
       KafkaEngine.kafka_get_offsets B (FeatureGroup._online_topic_name fg)
         (FeatureGroup.feature_store_id fg) offline_write_options false;
     let now := now B in
     log (EvJobRun (FeatureGroup.materialization_job fg)
            (Some (job_args (FeatureGroup.materialization_job fg)
                     initial_check_point))
            (get offline_write_options "wait_for_job" (PBool false)));;
     let '(offline_backfill_every_hr, popped) :=
       pop offline_write_options "offline_backfill_every_hr" PNone in
     modify (set_write_options popped);;
     if truthy offline_backfill_every_hr then
       cron_expression ←
         (if is_str offline_backfill_every_hr
          then mret (str offline_backfill_every_hr)
          else if is_int offline_backfill_every_hr
          then mret (cron_every now offline_backfill_every_hr)
          else raise (UnboundLocalError "cron_expression"));
       log (EvJobSchedule (FeatureGroup.materialization_job fg)
              cron_expression
              (* added 2 seconds after the current time to avoid
                 retriggering the job directly *)
              (now + 2))
     else
       log (EvLogInfo "Materialisation job was not scheduled.")
   else
     offline_write_options ← gets write_options;
     if truthy (_start_offline_materialization (Some offline_write_options))
     then
       let initial_check_point :=
         if negb (truthy (get offline_write_options "skip_offsets"
                            (PBool false)))
            && bool_decide (last_execution B ≠ [])
         then
           (* don't provide the current offsets (read from where the job
              last left off) *)
           ""
         else initial_check_point in
       (* provide the initial_check_point as it will reduce the read
          amplification of materialization job *)
       log (EvJobRun (FeatureGroup.materialization_job fg)
              (Some (job_args (FeatureGroup.materialization_job fg)
                       initial_check_point))
              (get offline_write_options "wait_for_job" (PBool false)))
     else mret tt);;
  (* wait for online ingestion *)
  offline_write_options ← gets write_options;
  when (FeatureGroup.online_enabled fg
        && truthy (get offline_write_options "wait_for_online_ingestion"
                     (PBool false)))
    (log (EvWaitOnlineIngestion
            (offline_write_options !! "online_ingestion_options")));;
  mret (Some (FeatureGroup.materialization_job fg)).

(** Everything up to and including the flush. *)
Definition publish (fuel : nat) (dataframe : DataFrame.t) : M world string :=
  let initial_check_point := "" in
  '(headers, feature_writers, writer) ←
    KafkaEngine.init_kafka_resources B (Some (DataFrame.n_rows dataframe));
  fg ← gets feature_group;
  offline_write_options ← gets write_options;
  initial_check_point ←
    (if negb (FeatureGroup._multi_part_insert fg) then
       (* set initial_check_point to the current offset *)
       KafkaEngine.kafka_get_offsets B (FeatureGroup._online_topic_name fg)
         (FeatureGroup.feature_store_id fg) offline_write_options true
     else mret initial_check_point);
  acked ← KafkaEngine.build_ack_callback_and_optional_progress_bar
             (DataFrame.n_rows dataframe)
             (FeatureGroup._multi_part_insert fg);
  (* loop over rows *)
  for_each (DataFrame.rows dataframe)
    (publish_row fuel fg headers feature_writers writer acked);;
  (* make sure producer blocks and everything is delivered *)
  when (negb (FeatureGroup._multi_part_insert fg))
    (KafkaEngine.flush B acked;;
     KafkaEngine.bar_close);;
  mret initial_check_point.

Definition _write_dataframe_kafka (fuel : nat) (dataframe : DataFrame.t)
    : M world (option Job.t) :=
  initial_check_point ← publish fuel dataframe;
  fg ← gets feature_group;
  materialize fg initial_check_point.

End with_broker.

End PythonEngine.

(** ** hsfs/engine/python.py: schema, transformations, [save_dataframe] *)

Module PythonEngineFrames.

(** *** Columns of a pandas dataframe *)

(** [dataframe[name] = values]: an existing column is overwritten where it
    stands, a new one is added at the end. *)
Fixpoint set_column (name : string) (values : list pyval)
    (cols : list (string * list pyval)) : list (string * list pyval) :=
  match cols with
  | [] => [(name, values)]
  | (n, v) :: cols' =>
      if String.eqb n name then (n, values) :: cols'
      else (n, v) :: set_column name values cols'
  end.

(** [dataframe[names] = frame]: the columns of [frame] are assigned to the
    names one after the other; the numbers of names and columns must
    agree. *)
Fixpoint set_columns (names : list string) (values : list (list pyval))
    (cols : list (string * list pyval))
    : exn + list (string * list pyval) :=
  match names, values with
  | [], [] => inr cols
  | name :: names', v :: values' =>
      set_columns names' values' (set_column name v cols)
  | _, _ => inl (ValueError "Columns must be same length as key")
  end.

(** [cols.pop(cols.index(name))] and [cols.append] of what was popped,
    followed by [dataframe[cols]]: the first column called [name] goes to
    the end. *)
Fixpoint pop_column (name : string) (cols : list (string * list pyval))
    : option ((string * list pyval) * list (string * list pyval)) :=
  match cols with
  | [] => None
  | (n, v) :: cols' =>
      if String.eqb n name then Some ((n, v), cols')
      else
        match pop_column name cols' with
        | Some (c, rest) => Some (c, (n, v) :: rest)
        | None => None
        end
  end.

Definition move_to_end (name : string) (cols : list (string * list pyval))
    : list (string * list pyval) :=
  match pop_column name cols with
  | Some (c, rest) => rest ++ [c]
  | None => cols
  end.

Definition with_cols (df : DataFrame.t) (cols : list (string * list pyval))
    : DataFrame.t :=
  DataFrame.mk (DataFrame.kind df) (DataFrame.n_rows df) cols.

(** [[dataframe[feature] for feature in features]]: [KeyError] on a name
    that is no column. *)
Fixpoint select (df : DataFrame.t) (features : list string)
    : exn + list (list pyval) :=
  match features with
  | [] => inr []
  | f :: features' =>
      match DataFrame.column df f with
      | Some v =>
          match select df features' with
          | inr vs => inr (v :: vs)
          | inl e => inl e
          end
      | None => inl (KeyError f)
      end
  end.

(** [dataframe.apply(lambda x: udf( *x[features]), axis=1,
    result_type="expand")]: the outputs of the udf on every row, as
    [width] columns. *)
Definition apply_rows (udf : list pyval → list pyval)
    (inputs : list (list pyval)) (n_rows width : nat) : list (list pyval) :=
  (λ j, (λ i, udf ((λ c, c !!! i) <$> inputs) !!! j) <$> seq 0 n_rows)
    <$> seq 0 width.

(** *** [_apply_python_udf] *)
Definition _apply_python_udf (hopsworks_udf : HopsworksUdf.t)
    (dataframe : DataFrame.t) : exn + DataFrame.t :=
  let udf := HopsworksUdf.udf hopsworks_udf in
  let names := HopsworksUdf.output_column_names hopsworks_udf in
  match select dataframe (HopsworksUdf.transformation_features hopsworks_udf)
  with
  | inl e => inl e
  | inr inputs =>
      match DataFrame.kind dataframe with
      | Pandas =>
          if bool_decide (1 < length (HopsworksUdf.return_types hopsworks_udf))%nat
          then
            match set_columns names
                    (apply_rows udf inputs (DataFrame.n_rows dataframe)
                       (length (HopsworksUdf.return_types hopsworks_udf)))
                    (DataFrame.cols dataframe) with
            | inl e => inl e
            | inr cols => inr (with_cols dataframe cols)
            end
          else
            match names with
            | [] => inl (ValueError "list index out of range")
            | name0 :: _ =>
                let cols :=
                  set_column name0
                    (default [] (head (apply_rows udf inputs
                                         (DataFrame.n_rows dataframe) 1)))
                    (DataFrame.cols dataframe) in
                if bool_decide (name0 ∈ cols.*1) then
                  (* Overwriting features so reordering dataframe to move
                     overwritten column to the end of the dataframe *)
                  inr (with_cols dataframe (move_to_end name0 cols))
                else inr (with_cols dataframe cols)
            end
      | Polars =>
          (* [map_rows] followed by [with_columns]: a column that exists
             is replaced where it stands *)
          match set_columns names
                  (apply_rows udf inputs (DataFrame.n_rows dataframe)
                     (length names))
                  (DataFrame.cols dataframe) with
          | inl e => inl e
          | inr cols => inr (with_cols dataframe cols)
          end
      end
  end.

(** *** [_apply_pandas_udf] *)
Definition _apply_pandas_udf (hopsworks_udf : HopsworksUdf.t)
    (dataframe : DataFrame.t) : exn + DataFrame.t :=
  let names := HopsworksUdf.output_column_names hopsworks_udf in
  match select dataframe (HopsworksUdf.transformation_features hopsworks_udf)
  with
  | inl e => inl e
  | inr inputs =>
      let outputs := HopsworksUdf.pandas_udf hopsworks_udf inputs in
      if bool_decide (1 < length (HopsworksUdf.return_types hopsworks_udf))%nat
      then
        match set_columns names outputs (DataFrame.cols dataframe) with
        | inl e => inl e
        | inr cols => inr (with_cols dataframe cols)
        end
      else
        match names with
        | [] => inl (ValueError "list index out of range")
        | name0 :: _ =>
            let cols :=
              set_column name0 (default [] (head outputs))
                (DataFrame.cols dataframe) in
            if bool_decide (name0 ∈ cols.*1) then
              (* Overwriting features also reordering dataframe to move
                 overwritten column to the end of the dataframe *)
              inr (with_cols dataframe (move_to_end name0 cols))
            else inr (with_cols dataframe cols)
        end
  end.

(** *** [_apply_transformation_function] *)

(** [set(transformation_features) - set(dataset.columns)], listed in the
    order of the transformation features. *)
Definition missing_features (hopsworks_udf : HopsworksUdf.t)
    (dataset : DataFrame.t) : list string :=
  remove_dups
    (filter (λ f, f ∉ DataFrame.columns dataset)
       (HopsworksUdf.transformation_features hopsworks_udf)).

Definition missing_message (tf : TransformationFunction.t)
    (missing : list string) : string :=
  let hopsworks_udf := TransformationFunction.hopsworks_udf tf in
  match TransformationFunction.transformation_type tf with
  | ON_DEMAND =>
      "The following feature(s): `" +:+ String.concat "`, " missing
        +:+ "`, specified in the on-demand transformation function '"
        +:+ HopsworksUdf.function_name hopsworks_udf
        +:+ "' are not present in the dataframe being inserted into the feature group. "
        +:+ "Please verify that the correct feature names are used in the transformation function and that these features exist in the dataframe being inserted."
  | MODEL_DEPENDENT =>
      "The following feature(s): `" +:+ String.concat "`, " missing
        +:+ "`, specified in the model-dependent transformation function '"
        +:+ HopsworksUdf.function_name hopsworks_udf
        +:+ "' are not present in the feature view. Please verify that the correct features are specified in the transformation function."
  end.

(** The loop over the transformation functions; [dropped_features] is the
    set collected so far. *)
Fixpoint apply_each (tfs : list TransformationFunction.t)
    (online_inference : bool) (dataset : DataFrame.t)
    (dropped_features : list string) : exn + (DataFrame.t * list string) :=
  match tfs with
  | [] => inr (dataset, dropped_features)
  | tf :: tfs' =>
      let hopsworks_udf := TransformationFunction.hopsworks_udf tf in
      match missing_features hopsworks_udf dataset with
      | (_ :: _) as missing =>
          inl (FeatureStoreException (missing_message tf missing))
      | [] =>
          let dropped_features :=
            match HopsworksUdf.dropped_features hopsworks_udf with
            | [] => dropped_features
            | d => list_union dropped_features d
            end in
          match
            match HopsworksUdf.get_current_execution_mode hopsworks_udf
                    online_inference with
            | PANDAS => _apply_pandas_udf hopsworks_udf dataset
            | PYTHON => _apply_python_udf hopsworks_udf dataset
            end
          with
          | inl e => inl e
          | inr dataset => apply_each tfs' online_inference dataset
                             dropped_features
          end
      end
  end.

(** [dataset.drop(labels, axis=1)]: [KeyError] on a label that is no
    column. *)
Definition drop (labels : list string) (dataset : DataFrame.t)
    : exn + DataFrame.t :=
  match filter (λ l, l ∉ DataFrame.columns dataset) labels with
  | (_ :: _) as absent => inl (KeyError (String.concat ", " absent))
  | [] =>
      inr (with_cols dataset
             (filter (λ c, c.1 ∉ labels) (DataFrame.cols dataset)))
  end.

Definition _apply_transformation_function
    (transformation_functions : list TransformationFunction.t)
    (dataset : DataFrame.t) (online_inference : bool)
    : exn + DataFrame.t :=
  (* a polars dataframe is converted to pandas first *)
  let dataset := DataFrame.mk Pandas (DataFrame.n_rows dataset)
                   (DataFrame.cols dataset) in
  match apply_each transformation_functions online_inference dataset [] with
  | inl e => inl e
  | inr (dataset, dropped_features) => drop dropped_features dataset
  end.

Section with_services.
Variable S : services.

(** *** [parse_schema_feature_group] *)
Fixpoint parse_fields (feature_type_map : gmap string (option string))
    (fields : list (string * arrow_type)) : exn + list Feature.t :=
  match fields with
  | [] => inr []
  | (feat_name, pd_type) :: fields' =>
      let name := autofix_feature_name S feat_name in
      let declared := default None (feature_type_map !! name) in
      match
        match pd_type, declared with
        | ArrowNull, Some ty =>
            if negb (String.eqb ty "") then inr ty
            else convert_pandas_dtype_to_offline_type S pd_type
        | _, _ => convert_pandas_dtype_to_offline_type S pd_type
        end
      with
      | inl e =>
          inl (FeatureStoreException
                 ("Feature '" +:+ name +:+ "': " +:+ e))
      | inr converted_type =>
          match parse_fields feature_type_map fields' with
          | inl e => inl e
          | inr features =>
              inr (Feature.new name (Some converted_type) false :: features)
          end
      end
  end.

Definition parse_schema_feature_group (dataframe : DataFrame.t)
    (time_travel_format : option string)
    (features : option (list Feature.t)) : exn + list Feature.t :=
  let feature_type_map : gmap string (option string) :=
    match features with
    | Some ((_ :: _) as fs) =>
        fold_left (λ m f, <[Feature.name f := Feature.type f]> m) fs ∅
    | _ => ∅
    end in
  parse_fields feature_type_map (arrow_schema S dataframe).

End with_services.

End PythonEngineFrames.

(** ** hsfs/engine/python.py: [save_dataframe] *)

Module PythonEngineSave.
Import PythonEngine.

Section with_broker.
Variable B : broker.

(** *** [_get_app_options] and [legacy_save_dataframe] *)
Definition legacy_save_dataframe : M world (option Job.t) :=
  (* App configuration: [_get_app_options] takes the entry [spark] out of
     the write options *)
  offline_write_options ← gets write_options;
  let '(spark_job_configuration, popped) :=
    if bool_decide (offline_write_options = ∅) then (PNone, offline_write_options)
    else pop offline_write_options "spark" PNone in
  modify (set_write_options popped);;
  (* Setup job for ingestion *)
  log (EvPrint "Configuring ingestion job...");;
  log (EvIngestionJob spark_job_configuration);;
  (* Upload dataframe into Hopsworks *)
  log (EvPrint "Uploading Pandas dataframe...");;
  log EvUpload;;
  (* run job *)
  offline_write_options ← gets write_options;
  log (EvJobRun (ingestion_job B) None
         (get offline_write_options "wait_for_job" (PBool true)));;
  mret (Some (ingestion_job B)).

(** *** [save_dataframe] *)
Definition save_dataframe (fuel : nat) (dataframe : DataFrame.t)
    (operation : option string) (online_enabled : bool)
    (storage : option string) : M world (option Job.t) :=
  (* the call itself is recorded, so that a trace tells whether the
     engine was entered *)
  log (EvSaveDataframe operation storage);;
  fg ← gets feature_group;
  if FeatureGroup.external fg && FeatureGroup.online_enabled fg
  then _write_dataframe_kafka B fuel dataframe
  else if FeatureGroup.external fg
  then
    (* [feature_group.stream] is evaluated, and an external feature group
       has no attribute of that name *)
    raise (AttributeError
             "'ExternalFeatureGroup' object has no attribute 'stream'")
  else if FeatureGroup.stream fg
  then _write_dataframe_kafka B fuel dataframe
  else
    (* for backwards compatibility *)
    legacy_save_dataframe.

End with_broker.

End PythonEngineSave.

(** ** hsfs/core/feature_group_engine.py *)

Module FeatureGroupEngine.
Import PythonEngineFrames PythonEngineSave.

(** *** [_update_feature_group_schema_on_demand_transformations] *)
Definition _update_feature_group_schema_on_demand_transformations
    (fg : FeatureGroup.t) (features : list Feature.t)
    : list Feature.t :=
  match FeatureGroup.transformation_functions fg with
  | [] => features
  | (_ :: _) as transformation_functions =>
      let '(transformed_features, dropped_features) :=
        fold_left
          (λ '(transformed_features, dropped_features) tf,
             let hopsworks_udf := TransformationFunction.hopsworks_udf tf in
             ((transformed_features
               ++ ((λ '(output_column_name, return_type),
                      Feature.new output_column_name (Some return_type) true)
                     <$> zip (HopsworksUdf.output_column_names hopsworks_udf)
                           (HopsworksUdf.return_types hopsworks_udf)))%list,
              match HopsworksUdf.dropped_features hopsworks_udf with
              | [] => dropped_features
              | d => (dropped_features ++ d)%list
              end))
          transformation_functions ([], []) in
      let updated_schema :=
        fold_left
          (λ updated_schema feat,
             if bool_decide (Feature.name feat ∉ dropped_features)
             then (updated_schema ++ [feat])%list
             else updated_schema)
          features [] in
      (updated_schema ++ transformed_features)%list
  end.

(** *** [_verify_schema_compatibility] *)

(** Modelled from the spec: [_verify_schema_compatibility] is a method of
    [FeatureGroupBaseEngine] in [hsfs/core/feature_group_base_engine.py],
    which is not among the sources.  Section 4.1 of the specification:
    "fails with SchemaMismatchError naming every feature present in one list
    but not matched (by name, and by type if types are provided) in the
    other". *)
Definition matched (a b : Feature.t) : bool :=
  String.eqb (Feature.name a) (Feature.name b)
  && match Feature.type a, Feature.type b with
     | Some ta, Some tb => String.eqb ta tb
     | _, _ => true
     end.

Definition unmatched (present other : list Feature.t) : list string :=
  Feature.name <$> filter (λ a, existsb (matched a) other = false) present.

Definition _verify_schema_compatibility
    (feature_group_features dataframe_features : list Feature.t)
    : M world unit :=
  match (unmatched feature_group_features dataframe_features
         ++ unmatched dataframe_features feature_group_features)%list with
  | [] => mret tt
  | (_ :: _) as names => raise (SchemaMismatchError names)
  end.

Section with_services.
Variable S : services.
Variable B : broker.

(** Calls of collaborators that either give a value or raise. *)
Definition call {A} (r : exn + A) : M world A :=
  match r with
  | inl e => raise e
  | inr a => mret a
  end.

Definition check (r : option exn) : M world unit :=
  match r with
  | Some e => raise e
  | None => mret tt
  end.

(** *** [save_feature_group_metadata] *)
Definition set_key_flags (fg : FeatureGroup.t) (feat : Feature.t)
    : Feature.t :=
  Feature.mk (Feature.name feat) (Feature.type feat)
    (if bool_decide (Feature.name feat ∈ FeatureGroup.primary_key fg)
     then true else Feature.primary feat)
    (if bool_decide (Feature.name feat ∈ FeatureGroup.foreign_key fg)
     then true else Feature.foreign feat)
    (if bool_decide (Feature.name feat ∈ FeatureGroup.partition_key fg)
     then true else Feature.partition feat)
    (if bool_decide (FeatureGroup.hudi_precombine_key fg
                     = Some (Feature.name feat))
     then true else Feature.hudi_precombine_key feat)
    (Feature.on_demand feat).

Definition save_feature_group_metadata
    (dataframe_features : list Feature.t) : M world unit :=
  (* this means FG doesn't exist and should create the new one *)
  fg ← gets feature_group;
  match FeatureGroup.features fg with
  | [] =>
      (* User didn't provide a schema; extract it from the dataframe *)
      modify (λ w, set_feature_group
                     (FeatureGroup.set_features dataframe_features
                        (feature_group w)) w)
  | _ :: _ =>
      match dataframe_features with
      | _ :: _ =>
          (* User provided a schema; check if it is compatible with
             dataframe. *)
          _verify_schema_compatibility
            (FeatureGroup.features fg) dataframe_features
      | [] => mret tt
      end
  end;;
  (* set primary, foreign and partition key columns *)
  fg ← gets feature_group;
  check (verify_attribute_key_names S fg);;
  modify (λ w, set_feature_group
                 (FeatureGroup.set_features
                    (set_key_flags (feature_group w)
                       <$> FeatureGroup.features (feature_group w))
                    (feature_group w)) w);;
  fg ← gets feature_group;
  when (FeatureGroup.stream fg)
    (options ← gets write_options;
     let '(_spark_options, popped) := pop options "spark" PNone in
     modify (set_write_options popped);;
     let _write_options :=
       if bool_decide (popped = ∅) then None
       else Some (filter (λ kv, kv.1 ≠ "kafka_producer_config")
                    (map_to_list popped)) in
     modify (λ w, set_feature_group
                    (FeatureGroup.set_deltastreamer_jobconf
                       (Some (_write_options, _spark_options))
                       (feature_group w)) w));;
  log EvApiSave;;
  modify (λ w, set_feature_group (api_save S (feature_group w)) w);;
  fg ← gets feature_group;
  log (EvPrint ("Feature Group created successfully, explore it at "
                  +:+ line_feed
                  +:+ get_feature_group_url S
                        (FeatureGroup.feature_store_id fg)
                        (FeatureGroup._id fg))).

(** The test [feature_group.online_enabled and not
    feature_group.embedding_index and
    validation_options.get("online_schema_validation", True)];
    [validation_options] may be [None]. *)
Definition online_schema_validation (fg : FeatureGroup.t)
    (validation_options : option (gmap string pyval)) : M world bool :=
  if FeatureGroup.online_enabled fg
     && negb (FeatureGroup.embedding_index fg)
  then
    match validation_options with
    | Some options =>
        mret (truthy (get options "online_schema_validation" (PBool true)))
    | None =>
        raise (AttributeError "'NoneType' object has no attribute 'get'")
    end
  else mret false.

(** [ge_report is not None and ge_report.ingestion_result ==
    "REJECTED"] *)
Definition rejected (ge_report : option validation_report) : bool :=
  match ge_report with
  | Some report => String.eqb (ingestion_result report) "REJECTED"
  | None => false
  end.

(** *** [save]

    [feature_group] and [write_options] are the objects of the world. *)

(** The statements of [save] before the metadata is saved: schema of the
    dataframe, on-demand transformations, validation of the schema.  They
    read the world and leave it as it is, a warning apart. *)
Definition save_inputs (fg : FeatureGroup.t)
    (feature_dataframe : DataFrame.t)
    (validation_options : option (gmap string pyval))
    : M world (DataFrame.t * list Feature.t) :=
  dataframe_features ←
    call (parse_schema_feature_group S feature_dataframe
            (FeatureGroup.time_travel_format fg) None);
  let dataframe_features :=
    _update_feature_group_schema_on_demand_transformations fg
      dataframe_features in
  (* Currently on-demand transformation functions not supported in
     external feature groups. *)
  feature_dataframe ←
    match FeatureGroup.transformation_functions fg with
    | (_ :: _) as tfs =>
        if negb (FeatureGroup.external fg) then
          call (_apply_transformation_function tfs feature_dataframe false)
        else
          log (EvWarn "On-Demand features were not created because On-Demand Transformations are not supported for External Feature Groups.");;
          mret feature_dataframe
    | [] => mret feature_dataframe
    end;
  check (validate_embedding_feature_type S
           (FeatureGroup.embedding_index fg) dataframe_features);;
  validate ← online_schema_validation fg validation_options;
  dataframe_features ←
    (if validate : bool then
       (* validate df schema *)
       call (validate_schema S fg feature_dataframe dataframe_features)
     else mret dataframe_features);
  mret (feature_dataframe, dataframe_features).

Definition save (fuel : nat) (feature_dataframe : DataFrame.t)
    (validation_options : option (gmap string pyval))
    : M world (option Job.t * option validation_report) :=
  fg ← gets feature_group;
  '(feature_dataframe, dataframe_features) ←
    save_inputs fg feature_dataframe validation_options;
  save_feature_group_metadata dataframe_features;;
  (* ge validation on python and non stream feature groups on spark *)
  fg ← gets feature_group;
  let ge_report :=
    great_expectation_validate S fg feature_dataframe
      (default ∅ validation_options) in
  if rejected ge_report then mret (None, ge_report)
  else
    job ← save_dataframe B fuel feature_dataframe
            (if bool_decide
                  (FeatureGroup.time_travel_format fg
                     ∈ [Some "HUDI"; Some "DELTA"])
             then Some (HUDI_BULK_INSERT S) else None)
            (FeatureGroup.online_enabled fg) None;
    mret (job, ge_report).

(** *** [insert]

    [feature_group] and [write_options] are the objects of the world; the
    transformation context only reaches the udfs, which are functions of
    their inputs here. *)

(** The statements of [insert] before the schema is registered or
    verified; they read the world and leave it as it is. *)
Definition insert_inputs (fg : FeatureGroup.t)
    (feature_dataframe : DataFrame.t)
    (validation_options : option (gmap string pyval)) (transform : bool)
    : M world (DataFrame.t * list Feature.t) :=
  dataframe_features ←
    call (parse_schema_feature_group S feature_dataframe
            (FeatureGroup.time_travel_format fg)
            (Some (FeatureGroup.features fg)));
  (* Currently on-demand transformation functions not supported in
     external feature groups. *)
  '(feature_dataframe, dataframe_features) ←
    (if negb (FeatureGroup.external fg)
        && bool_decide (FeatureGroup.transformation_functions fg ≠ [])
        && transform
     then
       feature_dataframe ←
         call (_apply_transformation_function
                 (FeatureGroup.transformation_functions fg)
                 feature_dataframe false);
       mret (feature_dataframe,
             _update_feature_group_schema_on_demand_transformations
               fg dataframe_features)
     else mret (feature_dataframe, dataframe_features));
  check (validate_embedding_feature_type S
           (FeatureGroup.embedding_index fg) dataframe_features);;
  validate ← online_schema_validation fg validation_options;
  dataframe_features ←
    (if validate : bool then
       (* validate df schema *)
       call (validate_schema S fg feature_dataframe dataframe_features)
     else mret dataframe_features);
  mret (feature_dataframe, dataframe_features).

Definition insert (fuel : nat) (feature_dataframe : DataFrame.t)
    (overwrite : bool) (operation : option string)
    (storage : option string)
    (validation_options : option (gmap string pyval))
    (transform : bool)
    : M world (option Job.t * option validation_report) :=
  fg ← gets feature_group;
  '(feature_dataframe, dataframe_features) ←
    insert_inputs fg feature_dataframe validation_options transform;
  (if negb (FeatureGroup.has_id fg) then
     (* only save metadata if feature group does not exist *)
     save_feature_group_metadata dataframe_features
   else
     (* else, just verify that feature group schema matches user-provided
        dataframe *)
     _verify_schema_compatibility (FeatureGroup.features fg)
       dataframe_features);;
  (* ge validation on python and non stream feature groups on spark *)
  fg ← gets feature_group;
  let ge_report :=
    great_expectation_validate S fg feature_dataframe
      (default ∅ validation_options) in
  (if rejected ge_report then
     let feature_group_url :=
       get_feature_group_url S (FeatureGroup.feature_store_id fg)
         (FeatureGroup._id fg) in
     raise (DataValidationException
              ("Data validation failed while validation ingestion policy set to strict, "
                 +:+ "insertion to " +:+ FeatureGroup.name fg
                 +:+ " was aborted." +:+ line_feed
                 +:+ "You can check a summary or download your report at "
                 +:+ feature_group_url +:+ "."))
   else mret tt);;
  (if negb (FeatureGroup.online_enabled fg)
      && bool_decide (storage = Some "online")
   then
     raise (FeatureStoreException
              "Online storage is not enabled for this feature group.")
   else mret tt);;
  when overwrite (log EvDeleteContent);;
  job ← save_dataframe B fuel feature_dataframe
          (if overwrite then Some "bulk_insert" else operation)
          (FeatureGroup.online_enabled fg) storage;
  mret (job, ge_report).

End with_services.

End FeatureGroupEngine.

(** ** hsfs/engine/python.py: [convert_to_default_dataframe]

    Here the identity of the dataframe objects matters: a dataframe is an
    object of a store and its columns refer to arrays of the store, so that
    a shallow copy shares the arrays of the original. *)

Module DataFrameObjects.

Inductive dtype : Type :=
| DatetimeTZDtype (tz : string)     (* pandas, timestamps with a time zone *)
| PlDatetime (tz : option string)   (* polars *)
| OtherDtype (tag : string).

Record series : Type := Series {
  s_dtype : dtype;
  s_values : list pyval;
}.

Record frame : Type := Frame {
  f_kind : frame_kind;
  (** the column names with the array each column refers to *)
  f_columns : list (string * nat);
}.

Record store : Type := Store {
  frames : gmap nat frame;
  arrays : gmap nat series;
  warnings : list string;
}.

(** What [convert_to_default_dataframe] may be called with. *)
Inductive argument : Type :=
| ADataFrame (obj : nat)
| AStr (s : string)
| AOther (type_name : string).

Definition new_frame (f : frame) : M store nat :=
  λ st,
    let obj := fresh (dom (frames st)) in
    Done obj (Store (<[obj := f]> (frames st)) (arrays st) (warnings st)).

Definition new_array (a : series) : M store nat :=
  λ st,
    let ref := fresh (dom (arrays st)) in
    Done ref (Store (frames st) (<[ref := a]> (arrays st)) (warnings st)).

Definition get_frame (obj : nat) : M store frame :=
  λ st, match frames st !! obj with
        | Some f => Done f st
        | None => Raised (KeyError "no such object") st
        end.

Definition put_frame (obj : nat) (f : frame) : M store unit :=
  λ st, Done tt (Store (<[obj := f]> (frames st)) (arrays st) (warnings st)).

Definition get_array (ref : nat) : M store series :=
  λ st, match arrays st !! ref with
        | Some a => Done a st
        | None => Raised (KeyError "no such array") st
        end.

Definition warn (msg : string) : M store unit :=
  λ st, Done tt (Store (frames st) (arrays st) (warnings st ++ [msg])%list).

(** [any(re.finditer("[A-Z]", col))] and [" " in col] *)
Definition is_upper (c : ascii) : bool :=
  let n := N_of_ascii c in ((65 <=? n) && (n <=? 90))%N.

Fixpoint has_char (p : ascii → bool) (s : string) : bool :=
  match s with
  | EmptyString => false
  | String c s' => p c || has_char p s'
  end.

(** [repr] of a list of names, as [format] prints it in the warnings. *)
Definition names_repr (names : list string) : string :=
  "[" +:+ String.concat ", " ((λ n, "'" +:+ n +:+ "'") <$> names) +:+ "]".

Section with_helpers.
(** [util.autofix_feature_name] and the two time-zone conversions of
    pandas and polars. *)
Variable autofix_feature_name : string → string.
Variable tz_convert_none : series → series.
Variable replace_time_zone_none : series → series.

(** [dataframe.copy(deep=False)] and [dataframe.clone()]: a new object
    with the same columns, which refer to the same arrays. *)
Definition shallow_copy (obj : nat) : M store nat :=
  f ← get_frame obj;
  new_frame f.

(** [dataframe.columns = names]; polars refuses duplicate names. *)
Definition set_column_names (obj : nat) (names : list string)
    : M store unit :=
  f ← get_frame obj;
  if bool_decide (f_kind f = Polars ∧ ¬ NoDup names)
  then raise (DuplicateError "column names must be unique")
  else put_frame obj (Frame (f_kind f) (zip names (f_columns f).*2)).

(** [dataframe[col]] of a frame as far as its [dtype] is asked for: with
    several columns of that name pandas hands out a dataframe, which has
    no [dtype]. *)
Definition column_ref (obj : nat) (col : string) : M store nat :=
  f ← get_frame obj;
  match filter (λ c, c.1 = col) (f_columns f) with
  | [c] => mret c.2
  | [] => raise (KeyError col)
  | _ :: _ :: _ =>
      raise (AttributeError "'DataFrame' object has no attribute 'dtype'")
  end.

(** The columns called [col] refer to [ref] from now on. *)
Definition rebind (col : string) (ref : nat) (f : frame) : frame :=
  Frame (f_kind f)
    ((λ c : string * nat, if String.eqb c.1 col then (c.1, ref) else c)
       <$> f_columns f).

(** The body of the loop over the columns; [dataframe_copy] is the object
    the variable of that name refers to, the result its new referent. *)
Definition normalize_column (dataframe_copy : nat) (col : string)
    : M store nat :=
  ref ← column_ref dataframe_copy col;
  a ← get_array ref;
  f ← get_frame dataframe_copy;
  match s_dtype a with
  | DatetimeTZDtype _ =>
      (* dataframe_copy[col] = dataframe_copy[col].dt.tz_convert(None) *)
      ref' ← new_array (tz_convert_none a);
      put_frame dataframe_copy (rebind col ref' f);;
      mret dataframe_copy
  | PlDatetime _ =>
      match f_kind f with
      | Polars =>
          (* dataframe_copy = dataframe_copy.with_columns(
               pl.col(col).dt.replace_time_zone(None)) *)
          ref' ← new_array (replace_time_zone_none a);
          new_frame (rebind col ref' f)
      | Pandas =>
          raise (AttributeError
                   "'DataFrame' object has no attribute 'with_columns'")
      end
  | OtherDtype _ => mret dataframe_copy
  end.

Fixpoint normalize_columns (dataframe_copy : nat) (cols : list string)
    : M store nat :=
  match cols with
  | [] => mret dataframe_copy
  | col :: cols' =>
      dataframe_copy ← normalize_column dataframe_copy col;
      normalize_columns dataframe_copy cols'
  end.

Definition convert_to_default_dataframe (dataframe : argument)
    : M store (option nat) :=
  match dataframe with
  | ADataFrame obj =>
      f ← get_frame obj;
      let columns := (f_columns f).*1 in
      let upper_case_features :=
        filter (λ col, has_char is_upper col = true) columns in
      let space_features :=
        filter (λ col, has_char (Ascii.eqb " ") col = true) columns in
      (* make shallow copy so the original df does not get changed
         this is always needed to keep the user df unchanged *)
      dataframe_copy ← shallow_copy obj;
      when (bool_decide (0 < length upper_case_features)%nat)
        (warn ("The ingested dataframe contains upper case letters in feature names: `"
                 +:+ names_repr upper_case_features
                 +:+ "`. Feature names are sanitized to lower case in the feature store."));;
      when (bool_decide (0 < length space_features)%nat)
        (warn ("The ingested dataframe contains feature names with spaces: `"
                 +:+ names_repr space_features
                 +:+ "`. Feature names are sanitized to use underscore '_' in the feature store."));;
      f' ← get_frame dataframe_copy;
      set_column_names dataframe_copy
        (autofix_feature_name <$> (f_columns f').*1);;
      (* convert timestamps with timezone to UTC *)
      f' ← get_frame dataframe_copy;
      dataframe_copy ← normalize_columns dataframe_copy (f_columns f').*1;
      mret (Some dataframe_copy)
  | AStr "spine" => mret None
  | _ =>
      raise (TypeError
               ("The provided dataframe type is not recognized. Supported types are: pandas dataframe, polars dataframe. "
                  +:+ "The provided dataframe has type: "
                  +:+ match dataframe with
                      | AOther type_name => type_name
                      | _ => "<class 'str'>"
                      end))
  end.

End with_helpers.

End DataFrameObjects.

(** ** Vocabulary of the statements *)

Module Props.
Import KafkaEngine PythonEngine.

(** The delivery errors on which the callback stops the publication. *)
Definition fatal (code : Z) : Prop :=
  code = TOPIC_AUTHORIZATION_FAILED ∨ code = _MSG_TIMED_OUT.

#[export] Instance fatal_dec code : Decision (fatal code).
Proof. unfold fatal. apply _. Defined.

(** The progress bar exists exactly when the insert is not multi-part, as
    [build_ack_callback_and_optional_progress_bar] leaves it. *)
Definition bar_matches (is_multi_part_insert : bool) (w : world) : Prop :=
  is_Some (progress_bar w) ↔ is_multi_part_insert = false.

(** The progress count of the bar, 0 without a bar. *)
Definition bar_count (w : world) : nat :=
  match progress_bar w with
  | Some b => n b
  | None => 0
  end.

(** A delivery report whose error is one of the fatal ones. *)
Definition fatal_report (r : delivery_report) : Prop :=
  match dr_err r with
  | Some (code, _) => fatal code
  | None => False
  end.

(** Number of produce attempts in a trace, and of polls with a given
    timeout. *)
Definition is_produce (e : event) : bool :=
  match e with EvProduce _ _ _ _ _ => true | _ => false end.

Definition is_poll (timeout : Z) (e : event) : bool :=
  match e with EvPoll t => bool_decide (t = timeout) | _ => false end.

Definition is_print (e : event) : bool :=
  match e with EvPrint _ => true | _ => false end.

Definition count_events (p : event → bool) (l : list event) : nat :=
  length (filter (λ e, p e = true) l).

(** The queue of the producer frees up within [fuel] attempts, whenever
    the attempts start. *)
Definition frees_up (B : broker) (fuel : nat) : Prop :=
  ∀ a, ∃ N, (N < fuel)%nat
    ∧ (∀ k, (k < N)%nat → is_Some (buffer_full B (a + k)))
    ∧ buffer_full B (a + N) = None.

(** No poll or flush serves a fatal delivery report. *)
Definition no_fatal_report (B : broker) : Prop :=
  ∀ p, Forall (λ r, ¬ fatal_report r) (reports B p).

(** A row that holds the complex features and the primary keys of the
    feature group. *)
Definition publishable (B : broker) (fg : FeatureGroup.t)
    (row : gmap string pyval) : Prop :=
  ∃ encoded_row row' key,
    encode_row (get_writer_function B fg).1 (get_writer_function B fg).2 row
      = inr (encoded_row, row')
    ∧ assemble_key (FeatureGroup.primary_key fg) row' = inr key.

(** What a call leaves untouched when it only prints and moves the
    progress bar. *)
Definition same_session (is_multi_part_insert : bool) (w w' : world) : Prop :=
  attempts w' = attempts w ∧ polls w' = polls w ∧ fetches w' = fetches w
  ∧ feature_group w' = feature_group w
  ∧ write_options w' = write_options w
  ∧ bar_matches is_multi_part_insert w'.

(** The events a call adds to the trace all satisfy [P], whether the call
    returns or raises. *)
Definition extends {A} (P : event → Prop) (w : world) (r : res world A)
  : Prop :=
  match r with
  | Done _ w' | Raised _ w' =>
      ∃ evs, trace w' = (trace w ++ evs)%list ∧ Forall P evs
  | OutOfFuel => True
  end.

(** The feature group without the producer cache of a multi-part insert. *)
Definition without_cache (g : FeatureGroup.t) : FeatureGroup.t :=
  FeatureGroup.set_kafka_headers [] (FeatureGroup.set_kafka_producer false g).

(** The feature group (its cache apart) and the write options are the same
    in both worlds. *)
Definition same_inputs (w w' : world) : Prop :=
  without_cache (feature_group w') = without_cache (feature_group w)
  ∧ write_options w' = write_options w.

(** A call that returns or raises ends in a world related to the one it
    started in. *)
Definition stable {A} (R : relation world) (w : world) (r : res world A)
  : Prop :=
  match r with
  | Done _ w' | Raised _ w' => R w w'
  | OutOfFuel => True
  end.

(** The checkpoint that [kafka_get_offsets] computes from the metadata of
    the fetch number [k]: the high or the low watermarks of the topic, the
    empty string when the topic does not exist. *)
Definition watermarks (B : broker) (topic_name : string) (high : bool)
    (k : nat) : string :=
  match topics B k !! topic_name with
  | Some partitions => topic_name +:+ offsets_of high partitions
  | None => ""
  end.

(** The events after the run of the materialization job: the wait for the
    online ingestion, when asked for. *)
Definition wait_events (fg : FeatureGroup.t) (options : gmap string pyval)
  : list event :=
  if FeatureGroup.online_enabled fg
     && truthy (get options "wait_for_online_ingestion" (PBool false))
  then [EvWaitOnlineIngestion (options !! "online_ingestion_options")]
  else [].

(** The backfill interval of the write options, [None] when the key is
    absent. *)
Definition backfill_every (options : gmap string pyval) : pyval :=
  get options "offline_backfill_every_hr" PNone.

(** The cron expression registered for a backfill interval. *)
Definition backfill_cron (B : broker) (every : pyval) : string :=
  match every with
  | PStr s => s
  | _ =>
      pretty (now B `mod` 60) +:+ " " +:+ pretty ((now B `div` 60) `mod` 60)
        +:+ " " +:+ pretty ((now B `div` 3600) `mod` 24) +:+ "/"
        +:+ str every +:+ " ? * * *"
  end.

(** The arguments of a run that resumes at [checkpoint], and of a run
    without offsets. *)
Definition args_with (job : Job.t) (checkpoint : string) : string :=
  default "" (Job.default_args job) +:+ " -initialCheckPointString "
    +:+ checkpoint.

Definition args_without (job : Job.t) : string :=
  default "" (Job.default_args job) +:+ "".

Definition is_job_run (e : event) : bool :=
  match e with EvJobRun _ _ _ => true | _ => false end.

(** The key of a message, read off the primary-key names and the row as it
    is when the key is assembled: the values of the primary-key columns,
    taken in sorted order of the names, written with [str] and glued. *)
Definition key_of (primary_key : list string) (row : gmap string pyval)
    (key : string) : Prop :=
  ∃ names values,
    names ≡ₚ primary_key
    ∧ Sorted str_le names
    ∧ Forall2 (λ name v, row !! name = Some v) names values
    ∧ key = String.concat "" (str <$> values).

(** The message of a produce event belongs to a row of the dataframe. *)
Definition produced_from (B : broker) (fg : FeatureGroup.t)
    (dataframe : DataFrame.t) (e : event) : Prop :=
  match e with
  | EvProduce topic key value _ _ =>
      ∃ row row',
        row ∈ DataFrame.rows dataframe
        ∧ encode_row (get_writer_function B fg).1 (get_writer_function B fg).2
            row = inr (value, row')
        ∧ topic = FeatureGroup._online_topic_name fg
        ∧ key_of (FeatureGroup.primary_key fg) row' key
        ∧ (key = "" ↔
           ∀ name, name ∈ FeatureGroup.primary_key fg →
                   row' !! name = Some (PStr ""))
  | _ => True
  end.

(** Two feature lists are compatible when every feature of either is
    matched, by name and by type where both give one, in the other. *)
Definition compatible (existing incoming : list Feature.t) : Prop :=
  (∀ f, f ∈ existing →
        ∃ g, g ∈ incoming ∧ FeatureGroupEngine.matched f g = true)
  ∧ (∀ g, g ∈ incoming →
          ∃ f, f ∈ existing ∧ FeatureGroupEngine.matched g f = true).

(** [name] is the name of a feature of [present] that no feature of
    [other] matches. *)
Definition names_unmatched (present other : list Feature.t) (name : string)
  : Prop :=
  ∃ f, f ∈ present ∧ Feature.name f = name
       ∧ ∀ g, g ∈ other → FeatureGroupEngine.matched f g = false.

(** The event that records a call of [save_dataframe]. *)
Definition is_save_dataframe (e : event) : bool :=
  match e with EvSaveDataframe _ _ => true | _ => false end.

End Props.

(** The reconciliation of the schema with the on-demand transformations, in
    the words of section 4.1 of the specification: "for each transformation
    binding, appends one synthetic on-demand Feature per declared output
    column (type taken from the binding), and removes any feature whose
    name is in the union of all bindings' dropped-feature sets.  Order of
    appended features follows binding declaration order; dropped-feature
    removal happens before appends." *)
Module Reconcile.

Definition dropped_union (bindings : list TransformationFunction.t)
  : list string :=
  bindings ≫= λ tf,
    HopsworksUdf.dropped_features (TransformationFunction.hopsworks_udf tf).

Definition synthetic_features (tf : TransformationFunction.t)
  : list Feature.t :=
  let u := TransformationFunction.hopsworks_udf tf in
  zip_with (λ output_column return_type,
              Feature.new output_column (Some return_type) true)
    (HopsworksUdf.output_column_names u) (HopsworksUdf.return_types u).

Definition surviving (bindings : list TransformationFunction.t)
    (features : list Feature.t) : list Feature.t :=
  filter (λ f, Feature.name f ∉ dropped_union bindings) features.

Definition reconcileOnDemand (bindings : list TransformationFunction.t)
    (features : list Feature.t) : list Feature.t :=
  (surviving bindings features ++ (bindings ≫= synthetic_features))%list.

End Reconcile.

(** Vocabulary for the store of dataframe objects. *)
Module StoreProps.
Import DataFrameObjects.

(** A triple for the commands on the store: from a store that satisfies
    [pre] the command returns in a store that satisfies [post] or raises in
    one that satisfies [epost]. *)
Definition hoare {A} (pre : store → Prop) (m : M store A)
    (post : A → store → Prop) (epost : store → Prop) : Prop :=
  ∀ st, pre st →
        match m st with
        | Done a st' => post a st'
        | Raised _ st' => epost st'
        | OutOfFuel => False
        end.

(** Every object and every array of [st0] is in [st] as it was. *)
Definition keeps (st0 st : store) : Prop :=
  (∀ obj f, frames st0 !! obj = Some f → frames st !! obj = Some f)
  ∧ (∀ ref a, arrays st0 !! ref = Some a → arrays st !! ref = Some a).

(** [obj] is no object of [st0]. *)
Definition fresh_object (st0 : store) (obj : nat) : Prop :=
  frames st0 !! obj = None.

(** The frame is made of arrays of the store, of a kind that fits the
    library of the frame. *)
Definition column_ready (st : store) (k : frame_kind) (ref : nat) : Prop :=
  ∃ a, arrays st !! ref = Some a
       ∧ (k = Pandas → ∀ tz, s_dtype a ≠ PlDatetime tz).

Definition well_formed (st : store) (f : frame) : Prop :=
  ∀ c, c ∈ f_columns f → column_ready st (f_kind f) c.2.

(** The object [obj] is a frame of kind [k] whose columns are called
    [names]. *)
Definition shaped (names : list string) (k : frame_kind) (obj : nat)
    (st : store) : Prop :=
  ∃ f, frames st !! obj = Some f ∧ (f_columns f).*1 = names ∧ f_kind f = k.

(** The frame [obj] has kind [k] and the column names [names], and its
    columns called by one of [cols] are made of arrays of the store that fit
    the kind. *)
Definition ready (cols names : list string) (k : frame_kind) (obj : nat)
    (st : store) : Prop :=
  ∃ f, frames st !! obj = Some f
       ∧ f_kind f = k
       ∧ (f_columns f).*1 = names
       ∧ ∀ col ref, col ∈ cols → (col, ref) ∈ f_columns f →
                    column_ready st k ref.

(** What the loop over the columns makes of an array: timestamps with a
    time zone are converted, every other array is left as it is. *)
Definition normalized (tz_convert_none replace_time_zone_none : series → series)
    (a : series) : series :=
  match s_dtype a with
  | DatetimeTZDtype _ => tz_convert_none a
  | PlDatetime _ => replace_time_zone_none a
  | OtherDtype _ => a
  end.

(** The column [c'] of a store [st'] is the column [c] of the store [st]
    under its sanitized name and with its normalized array: the array of
    [c] itself where nothing is to convert, else an array that [st] does
    not have. *)
Definition column_of (autofix_feature_name : string → string)
    (tz_convert_none replace_time_zone_none : series → series)
    (st st' : store) (c c' : string * nat) : Prop :=
  c'.1 = autofix_feature_name c.1
  ∧ ∃ a, arrays st !! c.2 = Some a
         ∧ arrays st' !! c'.2
           = Some (normalized tz_convert_none replace_time_zone_none a)
         ∧ match s_dtype a with
           | OtherDtype _ => c'.2 = c.2
           | _ => arrays st !! c'.2 = None
           end.

(** The object [copy] of [st'] is the frame [f] of [st], sanitized and
    normalized column by column. *)
Definition converted (autofix_feature_name : string → string)
    (tz_convert_none replace_time_zone_none : series → series)
    (st : store) (f : frame) (copy : nat) (st' : store) : Prop :=
  ∃ f', frames st' !! copy = Some f'
        ∧ f_kind f' = f_kind f
        ∧ Forall2 (column_of autofix_feature_name tz_convert_none
                     replace_time_zone_none st st')
            (f_columns f) (f_columns f').

(** The state of the loop over the columns when the columns called by one
    of [cols] are still to be visited: these are the columns of [f] under
    their sanitized names, the others are converted; every array of [st] is
    kept. *)
Definition converting (autofix_feature_name : string → string)
    (tz_convert_none replace_time_zone_none : series → series)
    (st : store) (f : frame) (cols : list string) (copy : nat)
    (st' : store) : Prop :=
  ∃ f', frames st' !! copy = Some f'
        ∧ f_kind f' = f_kind f
        ∧ (∀ ref a, arrays st !! ref = Some a → arrays st' !! ref = Some a)
        ∧ Forall2
            (λ c c', if decide (c'.1 ∈ cols)
                     then c'.1 = autofix_feature_name c.1 ∧ c'.2 = c.2
                     else column_of autofix_feature_name tz_convert_none
                            replace_time_zone_none st st' c c')
            (f_columns f) (f_columns f').

End StoreProps.

(** The sentences of the specification that the code does not bear out,
    as they are written. *)
Module AsStated.
Import KafkaEngine PythonEngine FeatureGroupEngine Props Reconcile.

(** Section 4.5: on a topic that existed, the job resumes at the checkpoint
    taken before publishing, "unless this is the very first execution of
    that job ever, in which case offsets are intentionally omitted". *)
Definition resumes_unless_first_run (B : broker) (fuel : nat)
    (dataframe : DataFrame.t) (w : world) : Prop :=
  let fg := feature_group w in
  let options := write_options w in
  let job := FeatureGroup.materialization_job fg in
  ∀ cp w1,
    publish B fuel dataframe w = Done cp w1 →
    cp ≠ "" →
    truthy (_start_offline_materialization (Some options)) = true →
    ∃ w2,
      _write_dataframe_kafka B fuel dataframe w = Done (Some job) w2
      ∧ trace w2
        = (trace w1
           ++ EvJobRun job
                (Some (if bool_decide (last_execution B = [])
                       then args_without job else args_with job cp))
                (get options "wait_for_job" (PBool false))
           :: wait_events fg options)%list.

(** Section 8: with "N consecutive buffer-full responses followed by
    success, publish succeeds after exactly N+1 attempts and never
    raises". *)
Definition succeeds_after_retries (B : broker) (is_multi_part_insert : bool)
    (N fuel : nat) (key encoded_row topic_name : string)
    (headers : list (string * string)) (debug_kafka : pyval) (w : world)
  : Prop :=
  bar_matches is_multi_part_insert w →
  (∀ k, (k < N)%nat → is_Some (buffer_full B (attempts w + k))) →
  buffer_full B (attempts w + N) = None →
  (N < fuel)%nat →
  ∃ w' new_events,
    kafka_produce B fuel key encoded_row topic_name headers
      (acked is_multi_part_insert) debug_kafka w = Done tt w'
    ∧ trace w' = (trace w ++ new_events)%list
    ∧ attempts w' = (attempts w + (N + 1))%nat
    ∧ count_events is_produce new_events = (N + 1)%nat
    ∧ count_events (is_poll 1) new_events = N
    ∧ count_events (is_poll 0) new_events = 1%nat.

(** Section 3: "dropped features never appear in the materialized
    schema". *)
Definition no_dropped_name (fg : FeatureGroup.t) (features : list Feature.t)
  : Prop :=
  ∀ f,
    f ∈ _update_feature_group_schema_on_demand_transformations fg features →
    Feature.name f ∉ dropped_union (FeatureGroup.transformation_functions fg).

(** Section 3: "every published row's key is non-empty when primary keys
    are declared". *)
Definition keys_not_empty (B : broker) (fuel : nat)
    (dataframe : DataFrame.t) (w : world) : Prop :=
  FeatureGroup.primary_key (feature_group w) ≠ [] →
  extends (λ e, match e with
                | EvProduce _ key _ _ _ => key ≠ ""
                | _ => True
                end)
    w (_write_dataframe_kafka B fuel dataframe w).

End AsStated.

(** ** Concrete feature groups, brokers and dataframes *)

Module Examples.
Import KafkaEngine PythonEngine PythonEngineFrames FeatureGroupEngine
  DataFrameObjects.

Definition job : Job.t :=
  Job.mk "fg_1_offline_fg_materialization"
    (Some "-op offline_fg_materialization").

Definition features : list Feature.t :=
  [Feature.new "id" (Some "bigint") false;
   Feature.new "name" (Some "string") false].

(** A stream feature group with the primary key [id]. *)
Definition fg (id : option Z) (multi_part_insert external : bool)
    (declared : list Feature.t) (tfs : list TransformationFunction.t)
  : FeatureGroup.t :=
  FeatureGroup.mk id "fg" 67 119 11 declared ["id"] [] [] None [] true true
    false (Some "HUDI") tfs "119_7_fg_1_onlinefs" multi_part_insert false []
    None external job.

Definition one_partition (low high : Z) : gmap string (list partition_metadata) :=
  {[ "119_7_fg_1_onlinefs" := [PartitionMetadata 0 low high] ]}.

(** A broker whose queue is full on the first [n_full] produce attempts,
    that serves no delivery report, and whose topic exists from the fetch
    number [created] on. *)
Definition broker_of (n_full created : nat) (executions : list Z) : broker :=
  Broker
    (λ k, if (k <? n_full)%nat then Some "Local: Queue full" else None)
    (λ _, [])
    (λ k, if (k <? created)%nat then ∅ else one_partition 0 5)
    executions
    1700000000
    3
    (Job.mk "ingestion" None)
    (λ _ _, "")
    (λ row, "row").

(** A broker whose first poll serves the report of a delivery and then
    the report of a message that timed out. *)
Definition timing_out_broker : broker :=
  Broker
    (λ _, None)
    (λ k, match k with
          | O => [DeliveryReport None "0";
                  DeliveryReport (Some (_MSG_TIMED_OUT, "timed out")) "1"]
          | S _ => []
          end)
    (λ _, one_partition 0 5)
    []
    1700000000
    3
    (Job.mk "ingestion" None)
    (λ _ _, "")
    (λ row, "row").

Definition world_of (g : FeatureGroup.t) (options : gmap string pyval)
  : world :=
  World g options 0 0 0 None [].

(** Three rows with the primary-key values 1, 2 and 3. *)
Definition three_rows : DataFrame.t :=
  DataFrame.mk Pandas 3
    [("id", [PInt 1; PInt 2; PInt 3]);
     ("name", [PStr "a"; PStr "b"; PStr "c"])].

(** One row whose primary-key value is the empty string. *)
Definition empty_key_row : DataFrame.t :=
  DataFrame.mk Pandas 1 [("id", [PStr ""]); ("name", [PStr "a"])].

(** A transformation function that overwrites the feature [x] and lists it
    among its dropped features. *)
Definition plus_one (inputs : list pyval) : list pyval :=
  match inputs with
  | [PInt z] => [PInt (z + 1)]
  | _ => [PNone]
  end.

Definition overwrite_x : TransformationFunction.t :=
  TransformationFunction.mk
    (HopsworksUdf.mk "plus_one" ["x"] ["x"] ["bigint"] ["x"]
       (λ _, PYTHON) plus_one (λ cols, cols))
    ON_DEMAND.

(** A transformation function with two outputs, [z] and the existing
    column [x]. *)
Definition two_outputs (inputs : list pyval) : list pyval :=
  match inputs with
  | [PInt z] => [PInt (z + 1); PInt (z + 2)]
  | _ => [PNone; PNone]
  end.

Definition two_columns (cols : list (list pyval)) : list (list pyval) :=
  match cols with
  | [c] => [(λ v, match v with PInt z => PInt (z + 1) | _ => PNone end) <$> c;
            (λ v, match v with PInt z => PInt (z + 2) | _ => PNone end) <$> c]
  | _ => []
  end.

Definition z_and_x (mode : UDFExecutionMode) : HopsworksUdf.t :=
  HopsworksUdf.mk "two_outputs" ["y"] ["z"; "x"] ["bigint"; "bigint"] []
    (λ _, mode) two_outputs two_columns.

Definition x_and_y : DataFrame.t :=
  DataFrame.mk Pandas 2
    [("x", [PInt 1; PInt 2]); ("y", [PInt 10; PInt 20])].

(** Collaborators that accept everything; the validation gate answers with
    the given report. *)
Definition services_of (report : option validation_report) : services :=
  Services
    (λ s, s)
    (λ df, (λ c : string * list pyval, (c.1, ArrowType "int64"))
             <$> DataFrame.cols df)
    (λ _, inr "bigint")
    (λ _ _, None)
    (λ _ _ feats, inr feats)
    (λ _, None)
    (λ _ _ _, report)
    (λ fs i, "https://hopsworks/p/119/fs/67/fg/" +:+ default "" (pretty <$> i))
    (λ g, FeatureGroup.set_id (Some 7) g)
    "bulk_insert".

(** A dataframe with a column that the feature group does not declare. *)
Definition extra_column : DataFrame.t :=
  DataFrame.mk Pandas 1
    [("id", [PInt 1]); ("name", [PStr "a"]); ("age", [PInt 30])].

Definition declared_bigint : list Feature.t :=
  [Feature.new "id" (Some "bigint") false;
   Feature.new "name" (Some "bigint") false].

(** A store with one pandas dataframe, whose column [Ts] holds timestamps
    with a time zone. *)
Definition user_frame : frame := Frame Pandas [("Id", 0%nat); ("Ts", 1%nat)].

Definition user_store : store :=
  Store {[ 0%nat := user_frame ]}
    {[ 0%nat := Series (OtherDtype "int64") [PInt 1];
       1%nat := Series (DatetimeTZDtype "Europe/Stockholm") [PInt 1700000000] ]}
    [].

Fixpoint lower (s : string) : string :=
  match s with
  | EmptyString => EmptyString
  | String c s' =>
      String (if is_upper c then ascii_of_N (N_of_ascii c + 32) else c)
        (lower s')
  end.

Definition to_utc (a : series) : series :=
  Series (OtherDtype "datetime64[ns]") (s_values a).

End Examples.
(** * Further vocabulary *)

Module MoreProps.
Import KafkaEngine PythonEngine Props.

(** A produce attempt that the producer accepted. *)
Definition is_accepted (e : event) : bool :=
  match e with EvProduce _ _ _ _ accepted => accepted | _ => false end.

(** The events of the loop over the rows: produce attempts, polls and the
    lines printed with [debug_kafka]. *)
Definition row_event (e : event) : Prop :=
  match e with
  | EvProduce _ _ _ _ _ | EvPoll _ | EvPrint _ => True
  | _ => False
  end.

(** Runs and schedules of a job. *)
Definition is_job_event (e : event) : bool :=
  match e with EvJobRun _ _ _ | EvJobSchedule _ _ _ => true | _ => false end.

(** The offsets of the partitions as [kafka_get_offsets] writes them. *)
Definition partition_offset (high : bool) (pm : partition_metadata)
  : string :=
  "," +:+ pretty (pm_id pm) +:+ ":"
    +:+ pretty (if high then pm_high pm else pm_low pm).

(** The union of the dropped features of the transformation functions. *)
Definition all_dropped (tfs : list TransformationFunction.t) : list string :=
  tfs ≫= λ tf,
    HopsworksUdf.dropped_features (TransformationFunction.hopsworks_udf tf).

(** The output column names of the transformation functions. *)
Definition all_outputs (tfs : list TransformationFunction.t) : list string :=
  tfs ≫= λ tf,
    HopsworksUdf.output_column_names
      (TransformationFunction.hopsworks_udf tf).

(** The columns that a list of names leaves aside. *)
Definition aside (names : list string) (cols : list (string * list pyval))
  : list (string * list pyval) :=
  filter (λ c, c.1 ∉ names) cols.

(** The accepted produce attempts of a trace, in order. *)
Definition accepted (evs : list event) : list event :=
  filter (λ e, is_accepted e = true) evs.

(** The message that [_write_dataframe_kafka] produces for a row: the key
    assembled from the row as [encode_row] left it, the encoded row, the
    topic of the feature group. *)
Definition message_of (B : broker) (fg : FeatureGroup.t)
    (headers : list (string * string)) (row : gmap string pyval)
  : option event :=
  match encode_row (get_writer_function B fg).1 (get_writer_function B fg).2
          row with
  | inr (encoded_row, row') =>
      match assemble_key (FeatureGroup.primary_key fg) row' with
      | inr key =>
          Some (EvProduce (FeatureGroup._online_topic_name fg) key
                  encoded_row headers true)
      | inl _ => None
      end
  | inl _ => None
  end.

(** The loop over the rows fetches no topic metadata and makes no progress
    bar. *)
Definition no_fetch_no_bar (w w' : world) : Prop :=
  fetches w' = fetches w
  ∧ (progress_bar w = None → progress_bar w' = None).

End MoreProps.

(** * More of the engines *)

(** ** Exceptions and results of the code below

    The exceptions of [Py.exn] and the further ones that the functions of
    this part raise.  [External] stands for an exception of a library or of
    the backend, which the client code neither raises nor catches. *)

Module PyX.

Inductive error : Type :=
| Py (e : exn)
| NotImplementedError (msg : string)
| ModuleNotFoundError (msg : string)
| AssertionError (msg : string)
| IndexError (msg : string)
| PlainException (msg : string)       (* [raise Exception(...)] *)
| External (what : string).

(** A call returns in a new state, raises in a new state, or is cut off
    when the loop budget of the embedding is used up. *)
Inductive outcome (S A : Type) : Type :=
| Returned (a : A) (s : S)
| Failed (e : error) (s : S)
| Exhausted.
Arguments Returned {S A} a s.
Arguments Failed {S A} e s.
Arguments Exhausted {S A}.

Definition X (S A : Type) : Type := S → outcome S A.

Definition xret {S A} (a : A) : X S A := λ s, Returned a s.
Definition xbind {S A B} (m : X S A) (k : A → X S B) : X S B :=
  λ s, match m s with
       | Returned a s' => k a s'
       | Failed e s' => Failed e s'
       | Exhausted => Exhausted
       end.
Definition fail {S A} (e : error) : X S A := λ s, Failed e s.
Definition exhausted {S A} : X S A := λ _, Exhausted.
Definition read_state {S A} (f : S → A) : X S A := λ s, Returned (f s) s.
Definition update {S} (f : S → S) : X S unit := λ s, Returned tt (f s).

#[export] Instance X_ret {S} : MRet (X S) := λ A, xret.
#[export] Instance X_bind {S} : MBind (X S) := λ A B k m, xbind m k.

(** A call of a collaborator that gives a value or raises. *)
Definition attempt {S A} (r : error + A) : X S A :=
  match r with
  | inl e => fail e
  | inr a => mret a
  end.

(** [for x in l: acc = body acc x]. *)
Fixpoint fold_each {S A C} (l : list A) (body : C → A → X S C) (acc : C)
    : X S C :=
  match l with
  | [] => mret acc
  | x :: l' => acc' ← body acc x; fold_each l' body acc'
  end.

End PyX.

(** ** Strings *)

Module Str.

(** [s.lower()] and [s.upper()], on the letters of ASCII.  The functions of
    this part compare the result with words of lower-case ASCII letters
    that hold no [k]; no character outside ASCII has a lower-case form
    made of such letters alone, so that the comparisons come out as in
    Python. *)
Definition lower_char (c : ascii) : ascii :=
  let n := N_of_ascii c in
  if ((65 <=? n) && (n <=? 90))%N then ascii_of_N (n + 32) else c.

Fixpoint lower (s : string) : string :=
  match s with
  | EmptyString => EmptyString
  | String c s' => String (lower_char c) (lower s')
  end.

(** [s.split(sep)] for a separator of one character. *)
Fixpoint split (sep : ascii) (s : string) : list string :=
  match s with
  | EmptyString => [EmptyString]
  | String c s' =>
      if Ascii.eqb c sep then EmptyString :: split sep s'
      else
        match split sep s' with
        | [] => [String c EmptyString]
        | part :: parts => String c part :: parts
        end
  end.

(** [s.rfind(c)] for a character. *)
Fixpoint rfind (c : ascii) (s : string) : option nat :=
  match s with
  | EmptyString => None
  | String d s' =>
      match rfind c s' with
      | Some i => Some (S i)
      | None => if Ascii.eqb d c then Some 0%nat else None
      end
  end.

(** [s.startswith(p)]. *)
Fixpoint startswith (p s : string) : bool :=
  match p, s with
  | EmptyString, _ => true
  | String a p', String b s' => Ascii.eqb a b && startswith p' s'
  | String _ _, EmptyString => false
  end.

(** [s.replace(old, "")] for a non-empty [old]: the occurrences of [old]
    are taken out from left to right; [skip] counts the characters of an
    occurrence still to be passed over. *)
Fixpoint remove_go (old : string) (skip : nat) (s : string) : string :=
  match s with
  | EmptyString => EmptyString
  | String c s' =>
      match skip with
      | S k => remove_go old k s'
      | O =>
          if startswith old s
          then remove_go old (String.length old - 1) s'
          else String c (remove_go old 0 s')
      end
  end.

Definition remove (old s : string) : string := remove_go old 0 s.

(** The tabulator, ["\t"] in Python. *)
Definition tab : string := String (ascii_of_N 9) EmptyString.

(** [sep.join(l)]. *)
Definition join (sep : string) (l : list string) : string :=
  String.concat sep l.

End Str.

(** ** hsfs/engine/python.py: reading the files of a training dataset *)

Module PythonEngineRead.
Import PyX.

(** *** [_is_metadata_file]

    [Path(path).stem.startswith("_")], with the path read as a POSIX path:
    the name is the last component that is neither empty nor [.], the stem
    is the name without its last suffix. *)
Definition path_name (path : string) : string :=
  default "" (last (filter (λ part, part ≠ "" ∧ part ≠ ".")
                      (Str.split "/" path))).

Definition stem (name : string) : string :=
  match Str.rfind "." name with
  | Some i =>
      if bool_decide (0 < i ∧ i < String.length name - 1)%nat
      then String.substring 0 i name
      else name
  | None => name
  end.

Definition _is_metadata_file (path : string) : bool :=
  Str.startswith "_" (stem (path_name path)).

(** What a reader is handed: a [BytesIO] of some content, or the
    [StreamingBody] of an S3 object. *)
Inductive source : Type :=
| BytesIO (content : string)
| StreamingBody (content : string).

(** [obj.read()]. *)
Definition content_of (obj : source) : string :=
  match obj with BytesIO c | StreamingBody c => c end.

(** The state of a reading session: the listings asked of the server so
    far and the paths (or keys) whose content was fetched, in order. *)
Record session : Type := Session {
  listings : nat;
  fetched : list string;
}.

Definition count_listing (s : session) : session :=
  Session (S (listings s)) (fetched s).
Definition note_fetch (path : string) (s : session) : session :=
  Session (listings s) (fetched s ++ [path])%list.

Record s3_object : Type := S3Object {
  Key : string;
  Size : Z;
}.

(** A response of [list_objects_v2] as far as [_read_s3] reads it: the
    entries [Contents], [NextContinuationToken] and [is_truncated] of the
    dictionary, each of which may be missing. *)
Record s3_listing : Type := S3Listing {
  Contents : option (list s3_object);
  NextContinuationToken : option string;
  is_truncated : option pyval;
}.

(** The collaborators of the readers: the parsers of pandas and polars, the
    dataset API, the Arrow Flight client and the S3 client.  [D] is the
    type of the dataframes they give. *)
Record files (D : Type) : Type := Files {
  (** [HAS_POLARS] and [polars_not_installed_message] *)
  HAS_POLARS : bool;
  polars_not_installed_message : string;
  (** [pd.read_csv(obj, sep=...)], [pd.read_parquet(obj)], and the same of
      polars ([None] is the default separator) *)
  pd_read_csv : source → option string → error + D;
  pd_read_parquet : source → error + D;
  pl_read_csv : source → option string → error + D;
  pl_read_parquet : source → error + D;
  (** [self._dataset_api.list_files(location, offset, limit)]: the count and
      the paths of the k-th listing *)
  list_files : nat → string → Z → Z → Z * list string;
  (** [self._dataset_api.read_content(path).content] *)
  read_content : string → string;
  (** [arrow_flight_client.is_data_format_supported] and [read_path] of the
      client; the latter is given the entry [arrow_flight_config] of the
      read options *)
  is_data_format_supported : string → gmap string pyval → bool;
  read_path : string → option pyval → string → error + D;
  (** [list_objects_v2] of the S3 client (the k-th listing, for a bucket, a
      prefix and a continuation token) and the body of [get_object] *)
  list_objects_v2 : nat → string → string → option string → s3_listing;
  get_object_body : string → string → string;
  (** [df.is_empty()], [pl.concat] and [pd.concat(..., ignore_index=True)]
      on a list that is not empty *)
  is_empty : D → bool;
  pl_concat : list D → error + D;
  pd_concat : list D → error + D;
}.
Arguments HAS_POLARS {D} _.
Arguments polars_not_installed_message {D} _.
Arguments pd_read_csv {D} _ _ _.
Arguments pd_read_parquet {D} _ _.
Arguments pl_read_csv {D} _ _ _.
Arguments pl_read_parquet {D} _ _.
Arguments list_files {D} _ _ _ _ _.
Arguments read_content {D} _ _.
Arguments is_data_format_supported {D} _ _ _.
Arguments read_path {D} _ _ _ _.
Arguments list_objects_v2 {D} _ _ _ _ _.
Arguments get_object_body {D} _ _ _.
Arguments is_empty {D} _ _.
Arguments pl_concat {D} _ _.
Arguments pd_concat {D} _ _.

(** What [_return_dataframe_type] needs of a dataframe:
    [isinstance(dataframe, pl.DataFrame) or isinstance(dataframe,
    pl.Series)], [pl.from_pandas], [dataframe.values] (an array, [V]) and
    [tolist] of the array (a list of lists, [L]). *)
Record conversions (D V L : Type) : Type := Conversions {
  is_polars : D → bool;
  from_pandas : D → error + D;
  values : D → error + V;
  tolist : V → L;
}.
Arguments is_polars {D V L} _ _.
Arguments from_pandas {D V L} _ _.
Arguments values {D V L} _ _.
Arguments tolist {D V L} _ _.

(** What the caller of [_return_dataframe_type] gets: a dataframe, the array
    [dataframe.values] or the list of lists [dataframe.values.tolist()]. *)
Inductive returned (D V L : Type) : Type :=
| AsFrame (dataframe : D)
| AsArray (array : V)
| AsList (rows : L).
Arguments AsFrame {D V L} _.
Arguments AsArray {D V L} _.
Arguments AsList {D V L} _.

(** [storage_connector.type] against the constants [HOPSFS] and [S3] of
    the connector classes. *)
Inductive connector_type : Type :=
| HOPSFS
| S3
| OtherConnector (name : string).

Definition connector_name (t : connector_type) : string :=
  match t with
  | HOPSFS => "HOPSFS"
  | S3 => "S3"
  | OtherConnector name => name
  end.

Definition quoted (s : string) : string :=
  String double_quote (s +:+ String double_quote EmptyString).

Section readers.
Context {D V L : Type}.
Variable F : files D.
Variable C : conversions D V L.

(** *** [_read_pandas] *)
Definition _read_pandas (data_format : string) (obj : source)
    : error + D :=
  if String.eqb (Str.lower data_format) "csv" then pd_read_csv F obj None
  else if String.eqb (Str.lower data_format) "tsv"
  then pd_read_csv F obj (Some Str.tab)
  else if String.eqb (Str.lower data_format) "parquet"
  then
    match obj with
    | StreamingBody content => pd_read_parquet F (BytesIO content)
    | BytesIO _ => pd_read_parquet F obj
    end
  else
    inl (Py (TypeError
               (data_format +:+ " training dataset format is not supported to read as pandas dataframe."))).

(** *** [_read_polars] *)
Definition _read_polars (data_format : string) (obj : source)
    : error + D :=
  if negb (HAS_POLARS F)
  then inl (ModuleNotFoundError (polars_not_installed_message F))
  else if String.eqb (Str.lower data_format) "csv" then pl_read_csv F obj None
  else if String.eqb (Str.lower data_format) "tsv"
  then pl_read_csv F obj (Some Str.tab)
  else if String.eqb (Str.lower data_format) "parquet"
  then
    match obj with
    | StreamingBody content => pl_read_parquet F (BytesIO content)
    | BytesIO _ => pl_read_parquet F obj
    end
  else
    inl (Py (TypeError
               (data_format +:+ " training dataset format is not supported to read as polars dataframe."))).

(** *** [_read_hopsfs_remote] *)

(** What the body of the loop reads for a path: through the Arrow Flight
    client when it supports the format, else the content of the file with
    the reader of the dataframe type. *)
Definition read_file (data_format : string)
    (read_options : gmap string pyval) (dataframe_type : string)
    (path : string) : error + D :=
  if is_data_format_supported F data_format read_options then
    let arrow_flight_config := read_options !! "arrow_flight_config" in
    read_path F path arrow_flight_config dataframe_type
  else
    let content_stream := read_content F path in
    if String.eqb (Str.lower dataframe_type) "polars"
    then _read_polars data_format (BytesIO content_stream)
    else _read_pandas data_format (BytesIO content_stream).

(** The body of the loop over the inodes of a listing; [offset] counts
    every inode, [df_list] gets the dataframes of the files that are no
    metadata files. *)
Definition read_inode (data_format : string)
    (read_options : gmap string pyval) (dataframe_type : string)
    (acc : Z * list D) (path : string) : X session (Z * list D) :=
  let '(offset, df_list) := acc in
  if negb (_is_metadata_file path) then
    update (note_fetch path);;
    df ← attempt (read_file data_format read_options dataframe_type path);
    mret (offset + 1, (df_list ++ [df])%list)
  else mret (offset + 1, df_list).

Fixpoint hopsfs_pages (fuel : nat) (location data_format : string)
    (read_options : gmap string pyval) (dataframe_type : string)
    (offset total_count : Z) (df_list : list D) : X session (list D) :=
  if (offset <? total_count)%Z then
    match fuel with
    | O => exhausted
    | S fuel' =>
        k ← read_state listings;
        update count_listing;;
        let '(total_count, inode_list) := list_files F k location offset 100 in
        '(offset, df_list) ←
          fold_each inode_list
            (read_inode data_format read_options dataframe_type)
            (offset, df_list);
        hopsfs_pages fuel' location data_format read_options dataframe_type
          offset total_count df_list
    end
  else mret df_list.

Definition _read_hopsfs_remote (fuel : nat) (location data_format : string)
    (read_options : option (gmap string pyval)) (dataframe_type : string)
    : X session (list D) :=
  let total_count := 10000 in
  let offset := 0 in
  let df_list := [] in
  let read_options := default ∅ read_options in
  hopsfs_pages fuel location data_format read_options dataframe_type
    offset total_count df_list.

(** *** [_read_hopsfs] *)
Definition _read_hopsfs (fuel : nat) (location data_format : string)
    (read_options : option (gmap string pyval)) (dataframe_type : string)
    : X session (list D) :=
  _read_hopsfs_remote fuel location data_format
    (Some (default ∅ read_options)) dataframe_type.

(** *** [_read_s3] *)

(** The key prefix of a location: what follows the bucket. *)
Definition key_prefix (location : string) : string :=
  let path_parts := Str.split "/" (Str.remove "s3://" location) in
  (* pop first element -> bucket *)
  Str.join "/" (tail path_parts).

Definition read_object (bucket data_format dataframe_type : string)
    (df_list : list D) (obj : s3_object) : X session (list D) :=
  if negb (_is_metadata_file (Key obj)) && (0 <? Size obj)%Z then
    update (note_fetch (Key obj));;
    let body := StreamingBody (get_object_body F bucket (Key obj)) in
    df ←
      (if String.eqb (Str.lower dataframe_type) "polars"
       then attempt (_read_polars data_format body)
       else attempt (_read_pandas data_format body));
    mret (df_list ++ [df])%list
  else mret df_list.

Fixpoint s3_pages (fuel : nat) (bucket prefix data_format
    dataframe_type : string) (object_list : s3_listing)
    (df_list : list D) : X session (list D) :=
  if truthy (default (PBool false) (is_truncated object_list)) then
    match fuel with
    | O => exhausted
    | S fuel' =>
        k ← read_state listings;
        update count_listing;;
        let object_list :=
          list_objects_v2 F k bucket prefix
            (NextContinuationToken object_list) in
        match Contents object_list with
        | None => fail (Py (KeyError "Contents"))
        | Some objects =>
            df_list ←
              fold_each objects
                (read_object bucket data_format dataframe_type) df_list;
            s3_pages fuel' bucket prefix data_format dataframe_type
              object_list df_list
        end
    end
  else mret df_list.

Definition _read_s3 (fuel : nat) (bucket location data_format
    dataframe_type : string) : X session (list D) :=
  (* get key prefix *)
  let prefix := key_prefix location in
  let df_list := [] in
  let object_list := S3Listing None None (Some (PBool true)) in
  s3_pages fuel bucket prefix data_format dataframe_type object_list
    df_list.

(** *** [_validate_dataframe_type] *)
Definition _validate_dataframe_type (dataframe_type : pyval)
    : option error :=
  if negb (is_str dataframe_type)
     || bool_decide (Str.lower (str dataframe_type)
                     ∉ ["pandas"; "polars"; "numpy"; "python"; "default"])
  then
    Some (Py (FeatureStoreException
                ("dataframe_type : " +:+ str dataframe_type
                   +:+ " not supported. Possible values are "
                   +:+ quoted "default" +:+ ", " +:+ quoted "pandas"
                   +:+ ", " +:+ quoted "polars" +:+ ", "
                   +:+ quoted "numpy" +:+ " or " +:+ quoted "python")))
  else None.

(** *** [_return_dataframe_type] *)
Definition _return_dataframe_type (dataframe : D) (dataframe_type : string)
    : error + returned D V L :=
  if bool_decide (Str.lower dataframe_type ∈ ["default"; "pandas"])
  then inr (AsFrame dataframe)
  else if String.eqb (Str.lower dataframe_type) "polars" then
    if negb (HAS_POLARS F)
    then inl (ModuleNotFoundError (polars_not_installed_message F))
    else if negb (is_polars C dataframe)
    then
      match from_pandas C dataframe with
      | inr converted => inr (AsFrame converted)
      | inl e => inl e
      end
    else inr (AsFrame dataframe)
  else if String.eqb (Str.lower dataframe_type) "numpy" then
    match values C dataframe with
    | inr array => inr (AsArray array)
    | inl e => inl e
    end
  else if String.eqb (Str.lower dataframe_type) "python" then
    match values C dataframe with
    | inr array => inr (AsList (tolist C array))
    | inl e => inl e
    end
  else
    inl (Py (TypeError
               ("Dataframe type `" +:+ dataframe_type
                  +:+ "` not supported on this platform."))).

(** *** [read] *)

Definition read (fuel : nat) (connector : connector_type) (bucket : string)
    (data_format : string) (read_options : option (gmap string pyval))
    (location : string) (dataframe_type : string)
    : X session (returned D V L) :=
  if String.eqb data_format "" then
    fail (Py (FeatureStoreException "data_format is not specified"))
  else
    df_list ←
      match connector with
      | HOPSFS =>
          _read_hopsfs fuel location data_format read_options dataframe_type
      | S3 => _read_s3 fuel bucket location data_format dataframe_type
      | OtherConnector _ =>
          fail (NotImplementedError
                  (connector_name connector
                     +:+ " Storage Connectors for training datasets are not supported yet for external environments."))
      end;
    if String.eqb (Str.lower dataframe_type) "polars" then
      if negb (HAS_POLARS F)
      then fail (ModuleNotFoundError (polars_not_installed_message F))
      else
        let non_empty_df_list :=
          filter (λ df, is_empty F df = false) df_list in
        match non_empty_df_list with
        | _ :: _ =>
            df ← attempt (pl_concat F non_empty_df_list);
            attempt (_return_dataframe_type df dataframe_type)
        | [] =>
            match df_list with
            | df :: _ => mret (AsFrame df)
            | [] => fail (IndexError "list index out of range")
            end
        end
    else
      df ←
        match df_list with
        | [] => fail (Py (ValueError "No objects to concatenate"))
        | _ :: _ => attempt (pd_concat F df_list)
        end;
      attempt (_return_dataframe_type df dataframe_type).

End readers.

End PythonEngineRead.

(** Vocabulary of the statements about reading. *)
Module ReadProps.
Import PyX PythonEngineRead.

(** The data files among some paths. *)
Definition data_files (paths : list string) : list string :=
  filter (λ path, _is_metadata_file path = false) paths.

(** The objects of a listing that [_read_s3] fetches: no metadata files,
    not empty. *)
Definition data_objects (objects : list s3_object) : list s3_object :=
  filter (λ obj, _is_metadata_file (Key obj) = false ∧ (0 < Size obj)%Z)
    objects.

End ReadProps.

(** ** Further concrete brokers, feature groups and file servers *)

Module MoreExamples.
Import KafkaEngine PythonEngine Examples PyX PythonEngineRead.

(** A broker whose queue never frees up. *)
Definition full_broker : broker :=
  Broker
    (λ _, Some "Local: Queue full")
    (λ _, [])
    (λ _, one_partition 0 5)
    []
    1700000000
    3
    (Job.mk "ingestion" None)
    (λ _ _, "")
    (λ row, "row").

(** A feature group that is no stream feature group, and a stream feature
    group without online storage. *)
Definition legacy_fg : FeatureGroup.t :=
  FeatureGroup.mk (Some 7) "fg" 67 119 11 Examples.features ["id"] [] [] None
    [] true false false (Some "HUDI") [] "119_7_fg_1_onlinefs" false false []
    None false job.

Definition offline_fg : FeatureGroup.t :=
  FeatureGroup.mk (Some 7) "fg" 67 119 11 declared_bigint ["id"] [] [] None
    [] false true false (Some "HUDI") [] "119_7_fg_1_onlinefs" false false []
    None false job.

(** The answer of a server that holds [paths]: their number and the page
    asked for. *)
Definition paged (paths : list string) (k : nat) (location : string)
    (offset limit : Z) : Z * list string :=
  (Z.of_nat (length paths),
   take (Z.to_nat limit) (drop (Z.to_nat offset) paths)).

(** The answer of a server that reports five files and lists none. *)
Definition unlisted (k : nat) (location : string) (offset limit : Z)
  : Z * list string :=
  (5, []).

(** One listing of a bucket, with no entry [is_truncated]. *)
Definition one_listing : s3_listing :=
  S3Listing
    (Some [S3Object "td_1/part-0.csv" 10;
           S3Object "td_1/_SUCCESS" 0;
           S3Object "td_1/part-1.csv" 0;
           S3Object "td_1/part-2.csv" 7])
    None None.

(** Readers without polars whose dataframes are the contents they are
    given, over a dataset API that lists as [listing] says and a bucket with
    the listing above. *)
Definition files_of (listing : nat → string → Z → Z → Z * list string)
  : files string :=
  Files _ false "polars is not installed"
    (λ obj _, inr (content_of obj))
    (λ obj, inr (content_of obj))
    (λ obj _, inr (content_of obj))
    (λ obj, inr (content_of obj))
    listing
    (λ path, "content of " +:+ path)
    (λ _ _, false)
    (λ path _ _, inr path)
    (λ _ _ _ _, one_listing)
    (λ _ key, "content of " +:+ key)
    (λ df, String.eqb df "")
    (λ dfs, inr (String.concat "" dfs))
    (λ dfs, inr (String.concat "" dfs)).

Definition conversions_of : conversions string string string :=
  Conversions _ _ _ (λ _, false) inr inr (λ array, array).

(** A training dataset of two files and a marker. *)
Definition td_1 : list string :=
  ["/Projects/p/td_1/part-0.csv"; "/Projects/p/td_1/_SUCCESS";
   "/Projects/p/td_1/part-1.csv"].

End MoreExamples.

(** * Properties *)

Ltac mrun :=
  repeat (progress (unfold mbind, mret, M_bind, M_ret, bind, ret, raise, gets,
                      modify, log, when, out_of_fuel in *; cbn in * )).

(** ** The acknowledgment callback and the retry loop *)

Module KafkaEngineSpec.
Import KafkaEngine Props.

Lemma fatal_mem code :
  code ∈ [TOPIC_AUTHORIZATION_FAILED; _MSG_TIMED_OUT] ↔ fatal code.
Proof.
  unfold fatal. rewrite !elem_of_cons, elem_of_nil. tauto.
Qed.

Lemma build_bar_matches n_rows multi w :
  ∃ w', build_ack_callback_and_optional_progress_bar n_rows multi w
        = Done (acked multi) w' ∧ bar_matches multi w'.
Proof.
  eexists. split; [reflexivity|].
  unfold bar_matches.
  destruct multi; cbn; split; intros H; first [done | by destruct H | eauto].
Qed.

Lemma acked_fatal multi code err_str msg w :
  fatal code →
  ∃ e w', acked multi (Some (code, err_str)) msg w = Raised e w'.
Proof.
  intros Hf. apply fatal_mem in Hf.
  unfold acked. mrun.
  rewrite (bool_decide_eq_true_2 _ Hf).
  destruct (truthy _); mrun; unfold bar_set_colour; cbn;
    destruct (progress_bar w); cbn; eauto.
Qed.

Lemma acked_not_fatal multi code err_str msg w :
  bar_matches multi w →
  ¬ fatal code →
  ∃ w', acked multi (Some (code, err_str)) msg w = Done tt w'
    ∧ bar_count w' = (if multi then bar_count w else S (bar_count w))
    ∧ bar_matches multi w'
    ∧ attempts w' = attempts w ∧ polls w' = polls w
    ∧ fetches w' = fetches w
    ∧ feature_group w' = feature_group w
    ∧ write_options w' = write_options w
    ∧ trace w' = (trace w ++
        if truthy (get (write_options w) "debug_kafka" (PBool false))
        then [EvPrint ("Failed to deliver message: " +:+ msg +:+ ": "
                         +:+ err_str)]
        else [])%list.
Proof.
  intros Hbar Hnf. rewrite <- fatal_mem in Hnf.
  unfold acked. mrun.
  rewrite (bool_decide_eq_false_2 _ Hnf).
  unfold bar_matches, bar_count in *.
  destruct multi; cbn.
  - destruct (truthy _); mrun; eexists; split; try reflexivity; cbn;
      rewrite ?app_nil_r; tauto.
  - destruct Hbar as [_ Hb]. destruct (Hb eq_refl) as [b Hb'].
    destruct (truthy _) eqn:Hd; mrun; unfold bar_update; cbn; rewrite Hb';
      eexists; (split; [reflexivity|]); cbn; rewrite ?Hb', ?app_nil_r;
      repeat split; eauto.
Qed.

(** C2.  The callback built by
    [build_ack_callback_and_optional_progress_bar], called with an error,
    raises exactly when the error code is [TOPIC_AUTHORIZATION_FAILED] or
    [_MSG_TIMED_OUT].  For every other error it returns: the failure is
    counted on the progress bar (when there is one) and printed when
    [debug_kafka] is set, and nothing else changes, so the publication goes
    on. *)
Theorem ack_callback_raises_iff_fatal
    (n_rows : nat) (is_multi_part_insert : bool) (w0 w1 : world)
    (callback : option (Z * string) → string → M world unit) :
  build_ack_callback_and_optional_progress_bar n_rows is_multi_part_insert w0
    = Done callback w1 →
  bar_matches is_multi_part_insert w1
  ∧ ∀ (w : world) (code : Z) (err_str msg : string),
      bar_matches is_multi_part_insert w →
      ((∃ e w', callback (Some (code, err_str)) msg w = Raised e w')
       ↔ fatal code)
      ∧ (¬ fatal code →
         ∃ w', callback (Some (code, err_str)) msg w = Done tt w'
           ∧ bar_count w'
             = (if is_multi_part_insert then bar_count w
                else S (bar_count w))
           ∧ bar_matches is_multi_part_insert w'
           ∧ attempts w' = attempts w ∧ polls w' = polls w
           ∧ fetches w' = fetches w
           ∧ feature_group w' = feature_group w
           ∧ write_options w' = write_options w
           ∧ trace w' = (trace w ++
               if truthy (get (write_options w) "debug_kafka" (PBool false))
               then [EvPrint ("Failed to deliver message: " +:+ msg +:+ ": "
                                +:+ err_str)]
               else [])%list).
Proof.
  intros Hbuild.
  destruct (build_bar_matches n_rows is_multi_part_insert w0)
    as (w' & Hb & Hm).
  rewrite Hb in Hbuild. injection Hbuild as <- <-.
  split; [exact Hm|].
  intros w code err_str msg Hbar. split.
  - split.
    + intros (e & w'' & Hr).
      destruct (decide (fatal code)) as [|Hnf]; [done|].
      destruct (acked_not_fatal _ _ err_str msg _ Hbar Hnf) as (w3 & Hd & _).
      congruence.
    + apply acked_fatal.
  - by apply acked_not_fatal.
Qed.

(** *** The retry loop of [kafka_produce] *)

Lemma count_events_app p l1 l2 :
  count_events p (l1 ++ l2) = (count_events p l1 + count_events p l2)%nat.
Proof. unfold count_events. by rewrite filter_app, length_app. Qed.

Lemma count_events_cons p e l :
  count_events p (e :: l)
  = ((if p e then 1 else 0) + count_events p l)%nat.
Proof.
  unfold count_events. rewrite filter_cons.
  destruct (p e); case_decide; cbn; congruence.
Qed.

Lemma count_prints p l :
  (∀ e, is_print e = true → p e = false) →
  Forall (λ e, is_print e = true) l → count_events p l = 0%nat.
Proof.
  intros Hp. induction 1 as [|e l He _ IH]; [done|].
  rewrite count_events_cons, (Hp e He), IH. done.
Qed.

Lemma acked_returns multi r w :
  bar_matches multi w →
  ¬ fatal_report r →
  ∃ w' evs,
    acked multi (dr_err r) (dr_msg r) w = Done tt w'
    ∧ same_session multi w w'
    ∧ trace w' = (trace w ++ evs)%list
    ∧ Forall (λ e, is_print e = true) evs.
Proof.
  intros Hbar Hnf. unfold fatal_report in Hnf.
  destruct (dr_err r) as [[code err_str]|] eqn:Herr.
  - destruct (acked_not_fatal multi code err_str (dr_msg r) w Hbar Hnf)
      as (w' & Hrun & _ & Hb & Ha & Hp & Hf & Hg & Ho & Ht).
    eexists w', _. split; [exact Hrun|].
    split; [unfold same_session; tauto|].
    split; [exact Ht|].
    destruct (truthy _); repeat constructor.
  - unfold acked. mrun. unfold bar_matches in *.
    destruct multi; cbn.
    + exists w, []. rewrite app_nil_r. unfold same_session, bar_matches.
      split_and!; first [done | constructor].
    + destruct Hbar as [_ Hb]. destruct (Hb eq_refl) as [b Hb'].
      unfold bar_update. rewrite Hb'.
      eexists _, []. split; [reflexivity|]. cbn. rewrite app_nil_r.
      unfold same_session, bar_matches. cbn.
      split_and!; first [done | constructor | eauto].
Qed.

Lemma serve_returns multi rs :
  ∀ w,
    bar_matches multi w →
    Forall (λ r, ¬ fatal_report r) rs →
    ∃ w' evs,
      serve (acked multi) rs w = Done tt w'
      ∧ same_session multi w w'
      ∧ trace w' = (trace w ++ evs)%list
      ∧ Forall (λ e, is_print e = true) evs.
Proof.
  induction rs as [|r rs IH]; intros w Hbar Hall.
  - exists w, []. rewrite app_nil_r. unfold same_session.
    split_and!; first [done | constructor].
  - inversion Hall as [|? ? Hr Hrs]; subst.
    destruct (acked_returns multi r w Hbar Hr)
      as (w1 & evs1 & Hrun1 & (Ha1 & Hp1 & Hf1 & Hg1 & Ho1 & Hb1) & Ht1 & He1).
    destruct (IH w1 Hb1 Hrs)
      as (w2 & evs2 & Hrun2 & (Ha2 & Hp2 & Hf2 & Hg2 & Ho2 & Hb2) & Ht2 & He2).
    exists w2, (evs1 ++ evs2)%list.
    split.
    { unfold serve in *. cbn [for_each]. unfold mbind, M_bind, bind.
      by rewrite Hrun1. }
    split; [unfold same_session; split_and!; first [congruence|done]|].
    split; [by rewrite Ht2, Ht1, app_assoc|].
    by apply Forall_app.
Qed.

Lemma poll_returns B multi timeout w :
  bar_matches multi w →
  Forall (λ r, ¬ fatal_report r) (reports B (polls w)) →
  ∃ w' evs,
    poll B (acked multi) timeout w = Done tt w'
    ∧ attempts w' = attempts w ∧ polls w' = S (polls w)
    ∧ fetches w' = fetches w
    ∧ feature_group w' = feature_group w
    ∧ write_options w' = write_options w
    ∧ bar_matches multi w'
    ∧ trace w' = (trace w ++ EvPoll timeout :: evs)%list
    ∧ Forall (λ e, is_print e = true) evs.
Proof.
  intros Hbar Hall. unfold poll.
  destruct (serve_returns multi (reports B (polls w))
              (emit (EvPoll timeout) (set_polls (S (polls w)) w)) Hbar Hall)
    as (w' & evs & Hrun & (Ha & Hp & Hf & Hg & Ho & Hb) & Ht & He).
  exists w', evs. split; [exact Hrun|]. cbn in *.
  rewrite <- app_assoc in Ht. by split_and!.
Qed.

Lemma kafka_produce_accepted B fuel key row topic headers acked debug w w' :
  buffer_full B (attempts w) = None →
  poll B acked 0
    (emit (EvProduce topic key row headers true)
       (set_attempts (S (attempts w)) w)) = Done tt w' →
  kafka_produce B (S fuel) key row topic headers acked debug w = Done tt w'.
Proof.
  intros Hfree Hpoll.
  cbn [kafka_produce]. unfold except_BufferError at 1, produce.
  unfold mbind, M_bind, bind. rewrite Hfree.
  rewrite bool_decide_eq_true_2 by done. by rewrite Hpoll.
Qed.

Lemma kafka_produce_refused B fuel key row topic headers acked debug w e :
  buffer_full B (attempts w) = Some e →
  kafka_produce B (S fuel) key row topic headers acked debug w
  = match
      poll B acked 1
        ((if truthy debug then emit (EvPrint ("Caught: " +:+ e)) else id)
           (emit (EvProduce topic key row headers false)
              (set_attempts (S (attempts w)) w)))
    with
    | Done _ w' => kafka_produce B fuel key row topic headers acked debug w'
    | Raised x w' => Raised x w'
    | OutOfFuel => OutOfFuel
    end.
Proof.
  intros Hfull.
  cbn [kafka_produce]. unfold except_BufferError at 1, produce.
  unfold mbind, M_bind, bind, when, log, modify, ret.
  rewrite Hfull. rewrite bool_decide_eq_false_2 by done.
  by destruct (truthy debug).
Qed.

Lemma kafka_produce_retry B multi N :
  ∀ fuel key row topic headers debug w,
    bar_matches multi w →
    (∀ k, (k < N)%nat → is_Some (buffer_full B (attempts w + k))) →
    buffer_full B (attempts w + N) = None →
    (∀ k, (k ≤ N)%nat →
       Forall (λ r, ¬ fatal_report r) (reports B (polls w + k))) →
    (N < fuel)%nat →
    ∃ w' evs,
      kafka_produce B fuel key row topic headers (acked multi) debug w
        = Done tt w'
      ∧ attempts w' = (attempts w + (N + 1))%nat
      ∧ polls w' = (polls w + (N + 1))%nat
      ∧ fetches w' = fetches w
      ∧ feature_group w' = feature_group w
      ∧ write_options w' = write_options w
      ∧ bar_matches multi w'
      ∧ trace w' = (trace w ++ evs)%list
      ∧ count_events is_produce evs = (N + 1)%nat
      ∧ count_events (is_poll 1) evs = N
      ∧ count_events (is_poll 0) evs = 1%nat.
Proof.
  induction N as [|N IH]; intros fuel key row topic headers debug w
    Hbar Hfull Hfree Hquiet Hfuel.
  - destruct fuel as [|fuel]; [lia|].
    rewrite Nat.add_0_r in Hfree.
    specialize (Hquiet 0%nat (Nat.le_refl _)). rewrite Nat.add_0_r in Hquiet.
    set (w1 := emit (EvProduce topic key row headers true)
                 (set_attempts (S (attempts w)) w)).
    destruct (poll_returns B multi 0 w1 Hbar Hquiet)
      as (w' & evs & Hrun & Ha & Hp & Hf & Hg & Ho & Hb & Ht & He).
    eexists w', _.
    split; [by apply kafka_produce_accepted|].
    subst w1. cbn in *. rewrite <- app_assoc in Ht. cbn in Ht.
    split_and!; try done; try lia.
    + rewrite !count_events_cons. cbn. by rewrite count_prints; [|by intros []|].
    + rewrite !count_events_cons. cbn. rewrite bool_decide_eq_false_2 by done.
      by rewrite count_prints; [|by intros []|].
    + rewrite !count_events_cons. cbn. rewrite bool_decide_eq_true_2 by done.
      by rewrite count_prints; [|by intros []|].
  - destruct fuel as [|fuel]; [lia|].
    destruct (Hfull 0%nat ltac:(lia)) as [e He].
    rewrite Nat.add_0_r in He.
    assert (Hq0 : Forall (λ r, ¬ fatal_report r) (reports B (polls w))).
    { specialize (Hquiet 0%nat ltac:(lia)). by rewrite Nat.add_0_r in Hquiet. }
    rewrite (kafka_produce_refused _ _ _ _ _ _ _ _ _ e He).
    set (w1 := emit (EvProduce topic key row headers false)
                 (set_attempts (S (attempts w)) w)).
    set (w2 := (if truthy debug then emit (EvPrint ("Caught: " +:+ e)) else id)
                 w1).
    assert (Hw2 : attempts w2 = S (attempts w) ∧ polls w2 = polls w
                  ∧ fetches w2 = fetches w
                  ∧ feature_group w2 = feature_group w
                  ∧ write_options w2 = write_options w
                  ∧ bar_matches multi w2
                  ∧ ∃ pr, trace w2 = (trace w ++
                      EvProduce topic key row headers false :: pr)%list
                      ∧ Forall (λ e, is_print e = true) pr).
    { subst w2 w1. unfold bar_matches in *.
      destruct (truthy debug); cbn; split_and!; try tauto;
        eexists; rewrite <- ?app_assoc; split; try reflexivity;
        repeat constructor. }
    destruct Hw2 as (Ha & Hp & Hf & Hg & Ho & Hb & pr & Ht & Hpr).
    assert (Hq2 : Forall (λ r, ¬ fatal_report r) (reports B (polls w2)))
      by (by rewrite Hp).
    destruct (poll_returns B multi 1 w2 Hb Hq2)
      as (w3 & evs3 & Hrun3 & Ha3 & Hp3 & Hf3 & Hg3 & Ho3 & Hb3 & Ht3 & He3).
    destruct (IH fuel key row topic headers debug w3 Hb3)
      as (w' & evs & Hrun & Ha' & Hp' & Hf' & Hg' & Ho' & Hb' & Ht'
          & Hc1 & Hc2 & Hc3).
    { intros k Hk. rewrite Ha3, Ha.
      replace (S (attempts w) + k)%nat with (attempts w + S k)%nat by lia.
      apply Hfull. lia. }
    { rewrite Ha3, Ha.
      replace (S (attempts w) + N)%nat with (attempts w + S N)%nat by lia.
      exact Hfree. }
    { intros k Hk. rewrite Hp3, Hp.
      replace (S (polls w) + k)%nat with (polls w + S k)%nat by lia.
      apply Hquiet. lia. }
    { lia. }
    exists w', (EvProduce topic key row headers false
                 :: pr ++ EvPoll 1 :: evs3 ++ evs)%list.
    split; [by rewrite Hrun3|].
    rewrite Ha', Hp', Hf', Hg', Ho', Ht', Ha3, Hp3, Hf3, Hg3, Ho3, Ht3, Ht,
      Ha, Hp, Hf, Hg, Ho.
    split_and!; try lia; try done.
    + repeat (rewrite <- app_assoc || rewrite <- app_comm_cons). done.
    + rewrite count_events_cons, !count_events_app, count_events_cons,
        count_events_app, Hc1. cbn.
      rewrite !count_prints; [lia|by intros []|done|by intros []|done].
    + rewrite count_events_cons, !count_events_app, count_events_cons,
        count_events_app, Hc2. cbn. rewrite bool_decide_eq_true_2 by done.
      rewrite !count_prints; [lia|by intros []|done|by intros []|done].
    + rewrite count_events_cons, !count_events_app, count_events_cons,
        count_events_app, Hc3. cbn. rewrite bool_decide_eq_false_2 by done.
      rewrite !count_prints; [lia|by intros []|done|by intros []|done].
Qed.

(** C3 (as the code has it).  When the producer finds its queue full on
    [N] consecutive produce attempts and takes the message on the next one,
    and none of the polls on the way serves a delivery report with one of
    the two fatal errors of C2, [kafka_produce] returns (for every loop
    budget above [N]) after exactly [N + 1] produce attempts: [N] polls of
    one second separate the attempts, the accepted attempt is followed by
    the poll of zero seconds, and no [BufferError] or other exception
    leaves the call.  The delivery reports served by these polls go to the
    acknowledgment callback; they may report deliveries and per-row
    failures.  A fatal report makes the callback raise out of the poll and
    so out of [kafka_produce], which is why the premise is there. *)
Theorem kafka_produce_retries_until_accepted
    (B : broker) (is_multi_part_insert : bool) (N fuel : nat)
    (key encoded_row topic_name : string)
    (headers : list (string * string)) (debug_kafka : pyval) (w : world) :
  bar_matches is_multi_part_insert w →
  (∀ k, (k < N)%nat → is_Some (buffer_full B (attempts w + k))) →
  buffer_full B (attempts w + N) = None →
  (∀ k, (k ≤ N)%nat →
     Forall (λ r, ¬ fatal_report r) (reports B (polls w + k))) →
  (N < fuel)%nat →
  ∃ w' new_events,
    kafka_produce B fuel key encoded_row topic_name headers
      (acked is_multi_part_insert) debug_kafka w = Done tt w'
    ∧ trace w' = (trace w ++ new_events)%list
    ∧ attempts w' = (attempts w + (N + 1))%nat
    ∧ count_events is_produce new_events = (N + 1)%nat
    ∧ count_events (is_poll 1) new_events = N
    ∧ count_events (is_poll 0) new_events = 1%nat.
Proof.
  intros Hbar Hfull Hfree Hquiet Hfuel.
  destruct (kafka_produce_retry B is_multi_part_insert N fuel key encoded_row
              topic_name headers debug_kafka w Hbar Hfull Hfree Hquiet Hfuel)
    as (w' & evs & Hrun & Ha & _ & _ & _ & _ & _ & Ht & H1 & H2 & H3).
  by exists w', evs.
Qed.

End KafkaEngineSpec.

(** ** Publication of a dataframe: keys of the messages *)

Module PublishSpec.
Import KafkaEngine PythonEngine Props.

(** *** Generic facts about [extends] *)

Lemma extends_weaken {A} (P Q : event → Prop) w (r : res world A) :
  (∀ e, P e → Q e) → extends P w r → extends Q w r.
Proof.
  intros HPQ. destruct r as [a w'|e w'|]; cbn; [| |done];
    intros (evs & Ht & HP); exists evs; (split; [done|]);
    eapply Forall_impl; eauto.
Qed.

Lemma extends_ret {A} P (a : A) w : extends P w ((mret a : M world A) w).
Proof. exists []. by rewrite app_nil_r. Qed.

Lemma extends_raise {A} P e w : extends (A:=A) P w (raise e w).
Proof. exists []. by rewrite app_nil_r. Qed.

Lemma extends_bind {A C} P (m : M world A) (k : A → M world C) w :
  extends P w (m w) →
  (∀ a w', m w = Done a w' → extends P w' (k a w')) →
  extends P w ((m ≫= k) w).
Proof.
  intros Hm Hk. unfold mbind, M_bind, bind.
  destruct (m w) as [a w'|e w'|] eqn:Hmw; cbn in *; [|done|done].
  destruct Hm as (evs & Ht & HP).
  specialize (Hk a w' eq_refl).
  destruct (k a w') as [c w''|e w''|]; cbn in *; [| |done];
    destruct Hk as (evs' & Ht' & HP');
    exists (evs ++ evs')%list;
    (split; [by rewrite Ht', Ht, app_assoc|by apply Forall_app]).
Qed.

Lemma extends_emit P ev w :
  P ev → extends P w (log ev w).
Proof. intros HP. exists [ev]. split; [done|]. by constructor. Qed.

Lemma extends_when P c (m : M world unit) w :
  extends P w (m w) → extends P w (when c m w).
Proof. destruct c; [done|]. intros _. apply extends_ret. Qed.

Lemma extends_same_trace {A} P (a : A) w w' :
  trace w' = trace w → extends P w (Done a w').
Proof. intros Ht. exists []. by rewrite app_nil_r. Qed.

Lemma extends_for_each {A} P (l : list A) (body : A → M world unit) :
  (∀ x w, x ∈ l → extends P w (body x w)) →
  ∀ w, extends P w (for_each l body w).
Proof.
  induction l as [|x l IH]; intros Hbody w.
  - apply extends_ret.
  - cbn [for_each]. apply extends_bind.
    + apply Hbody. by left.
    + intros _ w' _. apply IH. intros y w'' Hy. apply Hbody. by right.
Qed.

(** *** [str] and the key of a row *)

Lemma pretty_N_go_nonempty x s : s ≠ "" → pretty_N_go x s ≠ "".
Proof.
  revert s. induction (N.lt_wf_0 x) as [x _ IH]; intros s Hs.
  assert (x = 0 ∨ 0 < x)%N as [->|Hx] by lia.
  - by rewrite pretty_N_go_0.
  - rewrite pretty_N_go_step by done. apply IH; [by apply N.div_lt|done].
Qed.

Lemma pretty_Z_nonempty (z : Z) : pretty z ≠ "".
Proof.
  destruct z as [|p|p]; [done| |].
  - unfold pretty, pretty_Z, pretty, pretty_positive, pretty, pretty_N.
    case_decide; [done|].
    rewrite pretty_N_go_step by lia. by apply pretty_N_go_nonempty.
  - unfold pretty, pretty_Z. done.
Qed.

Lemma str_empty v : str v = "" ↔ v = PStr "".
Proof.
  split; [|by intros ->].
  destruct v as [| |[]|z|s|bs]; cbn; try done.
  - intros H. by destruct (pretty_Z_nonempty z).
  - by intros ->.
Qed.

Lemma append_empty (a b : string) : a +:+ b = "" ↔ a = "" ∧ b = "".
Proof.
  split; [|by intros [-> ->]].
  destruct a; unfold String.app; [by intros ->|done].
Qed.

Lemma concat_empty (l : list string) :
  String.concat "" l = "" ↔ Forall (λ s, s = "") l.
Proof.
  induction l as [|a l IH]; [by split; [constructor|]|].
  cbn [String.concat]. destruct l as [|b l].
  - split; [by repeat constructor|]. by inversion 1.
  - change (String.append a (String.append "" (String.concat "" (b :: l))))
      with (a +:+ String.concat "" (b :: l)).
    rewrite append_empty, IH. split.
    + intros [-> H]. by constructor.
    + by inversion 1.
Qed.

Lemma key_parts_inr names row parts :
  key_parts names row = inr parts →
  ∃ values,
    Forall2 (λ name v, row !! name = Some v) names values
    ∧ parts = str <$> values.
Proof.
  revert parts. induction names as [|name names IH]; intros parts; cbn.
  - intros [= <-]. exists []. by split; [constructor|].
  - destruct (row !! name) as [v|] eqn:Hv; [|done].
    destruct (key_parts names row) as [e|parts'] eqn:Hk; [done|].
    intros [= <-]. destruct (IH parts' eq_refl) as (values & Hall & ->).
    exists (v :: values). by split; [constructor|].
Qed.

Lemma str_le_total : Total str_le.
Proof.
  intros a b. unfold str_le, String.leb.
  rewrite (String.compare_antisym a b).
  destruct (String.compare b a); cbn; auto.
Qed.

Lemma sorted_spec (l : list string) : sorted l ≡ₚ l ∧ Sorted str_le (sorted l).
Proof.
  split; [apply merge_sort_Permutation|].
  apply Sorted_merge_sort, str_le_total.
Qed.

Lemma assemble_key_spec primary_key row key :
  assemble_key primary_key row = inr key →
  key_of primary_key row key
  ∧ (key = "" ↔ ∀ name, name ∈ primary_key → row !! name = Some (PStr "")).
Proof.
  unfold assemble_key.
  destruct (key_parts (sorted primary_key) row) as [e|parts] eqn:Hk; [done|].
  intros [= <-].
  destruct (key_parts_inr _ _ _ Hk) as (values & Hall & ->).
  destruct (sorted_spec primary_key) as [Hperm Hsorted].
  split.
  - by exists (sorted primary_key), values.
  - unfold join. rewrite concat_empty, Forall_fmap.
    setoid_rewrite <- Hperm. clear Hk Hperm Hsorted.
    induction Hall as [|name v names values Hv _ IH].
    + split; [by intros _ ? ?%elem_of_nil|constructor].
    + rewrite Forall_cons, IH. cbn. rewrite str_empty. split.
      * intros [-> H] name' [->|Hin]%elem_of_cons; [done|by apply H].
      * intros H. split.
        -- specialize (H name ltac:(by left)). congruence.
        -- intros name' Hin. apply H. by right.
Qed.

(** *** The events of the publication *)

Section publication.
Variable B : broker.
Variable P : event → Prop.
Hypothesis P_other : ∀ e, is_produce e = false → P e.

Lemma extends_bar (f : M world unit) w :
  (∀ w, match f w with
        | Done _ w' | Raised _ w' => trace w' = trace w
        | OutOfFuel => True
        end) →
  extends P w (f w).
Proof.
  intros Hf. specialize (Hf w).
  destruct (f w); cbn; [| |done]; exists []; by rewrite app_nil_r.
Qed.

Lemma extends_bar_update w : extends P w (bar_update w).
Proof.
  apply extends_bar. intros w0. unfold bar_update.
  by destruct (progress_bar w0).
Qed.

Lemma extends_bar_set_colour c w : extends P w (bar_set_colour c w).
Proof.
  apply extends_bar. intros w0. unfold bar_set_colour.
  by destruct (progress_bar w0).
Qed.

Lemma extends_bar_close w : extends P w (bar_close w).
Proof.
  apply extends_bar. intros w0. unfold bar_close.
  by destruct (progress_bar w0).
Qed.

Lemma extends_acked multi err msg w : extends P w (acked multi err msg w).
Proof.
  unfold acked. apply extends_bind.
  - destruct err as [[code err_str]|]; [|apply extends_ret].
    apply extends_bind; [by apply extends_same_trace|].
    intros opts w' _. apply extends_bind.
    + apply extends_when, extends_emit, P_other. done.
    + intros _ w'' _. apply extends_when, extends_bind.
      * apply extends_bar_set_colour.
      * intros _ w3 _. apply extends_raise.
  - intros _ w' _. apply extends_when, extends_bar_update.
Qed.

Lemma extends_serve multi rs w : extends P w (serve (acked multi) rs w).
Proof.
  unfold serve. apply extends_for_each. intros r w' _. apply extends_acked.
Qed.

Lemma extends_after_emit {A} ev (f : M world A) (g : world → world) w :
  P ev →
  trace (g w) = trace w →
  extends P (emit ev (g w)) (f (emit ev (g w))) →
  extends P w (f (emit ev (g w))).
Proof.
  intros Hev Hg Hf.
  destruct (f (emit ev (g w))) as [a w'|e w'|]; cbn in *; [| |done];
    destruct Hf as (evs & Ht & HP); exists (ev :: evs);
    (split; [by rewrite Ht, Hg, <- app_assoc|by constructor]).
Qed.

Lemma extends_poll multi timeout w :
  extends P w (poll B (acked multi) timeout w).
Proof.
  unfold poll. apply extends_after_emit;
    [by apply P_other|done|apply extends_serve].
Qed.

Lemma extends_flush multi w : extends P w (flush B (acked multi) w).
Proof.
  unfold flush. apply extends_after_emit;
    [by apply P_other|done|apply extends_serve].
Qed.

Lemma extends_kafka_produce multi key row topic headers debug fuel :
  (∀ accepted, P (EvProduce topic key row headers accepted)) →
  ∀ w,
    extends P w
      (kafka_produce B fuel key row topic headers (acked multi) debug w).
Proof.
  intros Hprod. induction fuel as [|fuel IH]; intros w; [done|].
  cbn [kafka_produce]. unfold except_BufferError.
  set (body := produce B topic key row headers ;; poll B (acked multi) 0).
  assert (Hbody : extends P w (body w)).
  { subst body. apply extends_bind.
    - unfold produce.
      destruct (buffer_full B (attempts w));
        (eexists [_]; split; [done|by constructor]).
    - intros _ w' _. apply extends_poll. }
  destruct (body w) as [a w'|e w'|] eqn:Hb; [done| |done].
  destruct e; try done.
  cbn in Hbody. destruct Hbody as (evs & Ht & HP).
  assert (Hrest : extends P w'
    ((when (truthy debug) (log (EvPrint ("Caught: " +:+ msg)));;
      poll B (acked multi) 1;;
      kafka_produce B fuel key row topic headers (acked multi) debug) w')).
  { apply extends_bind.
    - apply extends_when, extends_emit, P_other. done.
    - intros _ w1 _. apply extends_bind; [apply extends_poll|].
      intros _ w2 _. apply IH. }
  match goal with |- extends P w ?r => destruct r as [a w''|e w''|] end;
    cbn in *; [| |done];
    destruct Hrest as (evs' & Ht' & HP'); exists (evs ++ evs')%list;
    (split; [by rewrite Ht', Ht, app_assoc|by apply Forall_app]).
Qed.

Lemma extends_gets {A} (f : world → A) w : extends P w (gets f w).
Proof. by apply extends_same_trace. Qed.

Lemma extends_kafka_get_offsets topic fs_id opts high w :
  extends P w (kafka_get_offsets B topic fs_id opts high w).
Proof.
  unfold kafka_get_offsets.
  destruct (topics B (fetches w) !! topic);
    (eexists [_]; split; [done|]; constructor; [by apply P_other|done]).
Qed.

Lemma extends_get_headers fg num_entries w :
  extends P w (get_headers B fg num_entries w).
Proof.
  unfold get_headers. destruct (FeatureGroup.online_enabled fg).
  - apply extends_bind; [by apply extends_emit, P_other|].
    intros _ w' _. apply extends_ret.
  - apply extends_ret.
Qed.

Lemma extends_init_kafka_resources num_entries w :
  extends P w (init_kafka_resources B num_entries w).
Proof.
  unfold init_kafka_resources. apply extends_bind; [apply extends_gets|].
  intros fg w' _.
  destruct (FeatureGroup._multi_part_insert fg
            && FeatureGroup._kafka_producer fg); [apply extends_ret|].
  apply extends_bind.
  - unfold _init_kafka_resources. apply extends_bind;
      [by apply extends_emit, P_other|].
    intros _ w1 _. apply extends_bind; [apply extends_get_headers|].
    intros headers w2 _. apply extends_ret.
  - intros r w1 _. apply extends_bind; [|intros _ w2 _; apply extends_ret].
    apply extends_when. by apply extends_same_trace.
Qed.

Lemma extends_materialize fg initial_check_point w :
  extends P w (materialize B fg initial_check_point w).
Proof.
  unfold materialize.
  destruct (FeatureGroup.external fg); [apply extends_ret|].
  apply extends_bind.
  - destruct (String.eqb initial_check_point ""
              && negb (FeatureGroup._multi_part_insert fg)).
    + apply extends_bind; [apply extends_gets|]. intros opts w1 _.
      apply extends_bind;
        [by apply extends_when, extends_emit, P_other|].
      intros _ w2 _.
      apply extends_bind; [apply extends_kafka_get_offsets|].
      intros cp w3 _.
      apply extends_bind; [by apply extends_emit, P_other|].
      intros _ w4 _. cbn.
      apply extends_bind; [by apply extends_same_trace|].
      intros _ w5 _.
      destruct (truthy (get opts "offline_backfill_every_hr" PNone));
        [|by apply extends_emit, P_other].
      apply extends_bind.
      * destruct (is_str _); [apply extends_ret|].
        destruct (is_int _); [apply extends_ret|apply extends_raise].
      * intros cron w6 _. by apply extends_emit, P_other.
    + apply extends_bind; [apply extends_gets|]. intros opts w1 _.
      destruct (truthy _); [|apply extends_ret].
      by apply extends_emit, P_other.
  - intros _ w1 _.
    apply extends_bind; [apply extends_gets|]. intros opts w2 _.
    apply extends_bind; [|intros _ w3 _; apply extends_ret].
    by apply extends_when, extends_emit, P_other.
Qed.

End publication.

(** What [init_kafka_resources] hands out, and what it leaves of the
    feature group. *)
Lemma init_kafka_resources_result B num_entries w headers fws writer w' :
  init_kafka_resources B num_entries w = Done (headers, fws, writer) w' →
  fws = (get_writer_function B (feature_group w)).1
  ∧ writer = (get_writer_function B (feature_group w)).2
  ∧ FeatureGroup.primary_key (feature_group w')
    = FeatureGroup.primary_key (feature_group w)
  ∧ FeatureGroup._online_topic_name (feature_group w')
    = FeatureGroup._online_topic_name (feature_group w)
  ∧ FeatureGroup.complex_features (feature_group w')
    = FeatureGroup.complex_features (feature_group w)
  ∧ FeatureGroup._multi_part_insert (feature_group w')
    = FeatureGroup._multi_part_insert (feature_group w)
  ∧ FeatureGroup.external (feature_group w')
    = FeatureGroup.external (feature_group w)
  ∧ FeatureGroup.feature_store_id (feature_group w')
    = FeatureGroup.feature_store_id (feature_group w)
  ∧ FeatureGroup.online_enabled (feature_group w')
    = FeatureGroup.online_enabled (feature_group w)
  ∧ FeatureGroup.materialization_job (feature_group w')
    = FeatureGroup.materialization_job (feature_group w)
  ∧ write_options w' = write_options w
  ∧ attempts w' = attempts w ∧ polls w' = polls w
  ∧ fetches w' = fetches w.
Proof.
  unfold init_kafka_resources, _init_kafka_resources, get_headers.
  unfold mbind, M_bind, bind, gets, when, modify, log, mret, M_ret, ret.
  destruct (FeatureGroup._multi_part_insert (feature_group w)) eqn:Hm;
    destruct (FeatureGroup._kafka_producer (feature_group w)) eqn:Hk;
    destruct (FeatureGroup.online_enabled (feature_group w)) eqn:Ho;
    cbn; rewrite ?Hm, ?Hk, ?Ho; cbn; rewrite ?Hm; cbn;
    intros [= <- <- <- <-]; cbn; by split_and!.
Qed.

Lemma extends_publish_row B fuel fg dataframe headers multi row w :
  row ∈ DataFrame.rows dataframe →
  extends (produced_from B fg dataframe) w
    (publish_row B fuel fg headers (get_writer_function B fg).1
       (get_writer_function B fg).2 (acked multi) row w).
Proof.
  intros Hrow. unfold publish_row.
  destruct (encode_row _ _ row) as [e|[encoded_row row']] eqn:Henc;
    [apply extends_raise|].
  destruct (assemble_key _ row') as [e|key] eqn:Hkey; [apply extends_raise|].
  apply extends_bind; [by apply extends_same_trace|].
  intros opts w' _. apply extends_kafka_produce.
  - by intros [].
  - intros accepted. cbn.
    destruct (assemble_key_spec _ _ _ Hkey) as [Hk1 Hk2].
    by exists row, row'.
Qed.

Lemma extends_publish B fuel dataframe w :
  extends (produced_from B (feature_group w) dataframe) w
    (publish B fuel dataframe w).
Proof.
  assert (Hother : ∀ e, is_produce e = false →
                        produced_from B (feature_group w) dataframe e)
    by (by intros []).
  unfold publish. apply extends_bind;
    [by apply extends_init_kafka_resources|].
  intros [[headers fws] writer] w1 Hinit.
  apply init_kafka_resources_result in Hinit
    as (-> & -> & Hpk & Htopic & Hcf & _).
  apply extends_bind; [by apply extends_gets|]. intros fg w2 Hfg.
  injection Hfg as <- <-.
  apply extends_bind; [by apply extends_gets|]. intros opts w3 _.
  apply extends_bind.
  { destruct (negb _); [by apply extends_kafka_get_offsets|apply extends_ret]. }
  intros cp w4 _.
  apply extends_bind; [by apply extends_same_trace|].
  intros cb w5 Hcb. injection Hcb as <- <-.
  apply extends_bind.
  { apply extends_for_each. intros row w6 Hrow.
    pose proof (extends_publish_row B fuel (feature_group w1) dataframe
                  headers (FeatureGroup._multi_part_insert (feature_group w1))
                  row w6 Hrow) as Hx.
    unfold get_writer_function in *. rewrite Hcf in Hx.
    eapply extends_weaken; [|exact Hx].
    intros [] He; try done. cbn in *.
    unfold get_writer_function in *. by rewrite Hpk, Htopic, Hcf in He. }
  intros _ w6 _.
  apply extends_bind; [|intros _ w7 _; apply extends_ret].
  apply extends_when, extends_bind; [by apply extends_flush|].
  intros _ w7 _. by apply extends_bar_close.
Qed.

(** *** What the publication leaves untouched *)

Section stable.
Variable R : relation world.
Context `{!Reflexive R, !Transitive R}.

Lemma stable_ret {A} (a : A) w : stable R w ((mret a : M world A) w).
Proof. cbn. reflexivity. Qed.

Lemma stable_raise {A} e w : stable (A:=A) R w (raise e w).
Proof. cbn. reflexivity. Qed.

Lemma stable_bind {A C} (m : M world A) (k : A → M world C) w :
  stable R w (m w) →
  (∀ a w', m w = Done a w' → stable R w' (k a w')) →
  stable R w ((m ≫= k) w).
Proof.
  intros Hm Hk. unfold mbind, M_bind, bind.
  destruct (m w) as [a w'|e w'|] eqn:Hmw; cbn in *; [|done|done].
  specialize (Hk a w' eq_refl).
  destruct (k a w') as [c w''|e w''|]; cbn in *; [| |done]; by etrans.
Qed.

Lemma stable_when c (m : M world unit) w :
  stable R w (m w) → stable R w (when c m w).
Proof. destruct c; [done|]. intros _. apply stable_ret. Qed.

Lemma stable_for_each {A} (l : list A) (body : A → M world unit) :
  (∀ x w, stable R w (body x w)) →
  ∀ w, stable R w (for_each l body w).
Proof.
  intros Hbody. induction l as [|x l IH]; intros w.
  - apply stable_ret.
  - cbn [for_each]. apply stable_bind; [apply Hbody|].
    intros _ w' _. apply IH.
Qed.
End stable.

#[local] Instance same_inputs_refl : Reflexive same_inputs.
Proof. by intros w. Qed.

#[local] Instance same_inputs_trans : Transitive same_inputs.
Proof. intros w1 w2 w3 [H1 H2] [H3 H4]. split; congruence. Qed.

Section publication_inputs.
Variable B : broker.

Ltac same := unfold same_inputs, without_cache; cbn; done.

Lemma stable_log ev w : stable same_inputs w (log ev w).
Proof. same. Qed.

Lemma stable_gets {A} (f : world → A) w : stable same_inputs w (gets f w).
Proof. same. Qed.

Lemma stable_acked multi err msg w :
  stable same_inputs w (acked multi err msg w).
Proof.
  unfold acked. apply stable_bind; [apply _| |].
  - destruct err as [[code err_str]|]; [|by apply stable_ret].
    apply stable_bind; [apply _|apply stable_gets|].
    intros opts w' _. apply stable_bind; [apply _| |].
    + apply stable_when; [apply _|apply stable_log].
    + intros _ w'' _. apply stable_when; [apply _|].
      apply stable_bind; [apply _| |].
      * unfold bar_set_colour. destruct (progress_bar w''); same.
      * intros _ w3 _. by apply stable_raise.
  - intros _ w' _. apply stable_when; [apply _|].
    unfold bar_update. destruct (progress_bar w'); same.
Qed.

Lemma stable_serve multi rs w :
  stable same_inputs w (serve (acked multi) rs w).
Proof. unfold serve. apply stable_for_each; [apply _..|].
       intros r w'. apply stable_acked. Qed.

Lemma stable_after {A} (f : M world A) w w1 :
  same_inputs w w1 →
  stable same_inputs w1 (f w1) →
  stable same_inputs w (f w1).
Proof.
  intros Hg Hf. destruct (f w1); cbn in *; [| |done]; by etrans.
Qed.

Lemma stable_poll multi timeout w :
  stable same_inputs w (poll B (acked multi) timeout w).
Proof. unfold poll. apply stable_after; [same|apply stable_serve]. Qed.

Lemma stable_flush multi w :
  stable same_inputs w (flush B (acked multi) w).
Proof. unfold flush. apply stable_after; [same|apply stable_serve]. Qed.

Lemma stable_kafka_produce multi key row topic headers debug fuel :
  ∀ w,
    stable same_inputs w
      (kafka_produce B fuel key row topic headers (acked multi) debug w).
Proof.
  induction fuel as [|fuel IH]; intros w; [done|].
  cbn [kafka_produce]. unfold except_BufferError.
  set (body := produce B topic key row headers ;; poll B (acked multi) 0).
  assert (Hbody : stable same_inputs w (body w)).
  { subst body. apply stable_bind; [apply _| |].
    - unfold produce. destruct (buffer_full B (attempts w)); same.
    - intros _ w' _. apply stable_poll. }
  destruct (body w) as [a w'|e w'|] eqn:Hb; [done| |done].
  destruct e; try done. cbn in Hbody.
  assert (Hrest : stable same_inputs w'
    ((when (truthy debug) (log (EvPrint ("Caught: " +:+ msg)));;
      poll B (acked multi) 1;;
      kafka_produce B fuel key row topic headers (acked multi) debug) w')).
  { apply stable_bind; [apply _| |].
    - apply stable_when; [apply _|apply stable_log].
    - intros _ w1 _. apply stable_bind; [apply _|apply stable_poll|].
      intros _ w2 _. apply IH. }
  match goal with |- stable _ w ?r => destruct r as [a w''|e w''|] end;
    cbn in *; [| |done]; by etrans.
Qed.

Lemma stable_kafka_get_offsets topic fs_id opts high w :
  stable same_inputs w (kafka_get_offsets B topic fs_id opts high w).
Proof.
  unfold kafka_get_offsets. destruct (topics B (fetches w) !! topic); same.
Qed.

Lemma stable_init_kafka_resources num_entries w :
  stable same_inputs w (init_kafka_resources B num_entries w).
Proof.
  unfold init_kafka_resources, _init_kafka_resources, get_headers.
  unfold mbind, M_bind, bind, gets, when, modify, log, mret, M_ret, ret.
  destruct (FeatureGroup._multi_part_insert (feature_group w)) eqn:Hm;
    destruct (FeatureGroup._kafka_producer (feature_group w)) eqn:Hk;
    destruct (FeatureGroup.online_enabled (feature_group w)) eqn:Ho;
    cbn; rewrite ?Hm, ?Hk, ?Ho; cbn; rewrite ?Hm; cbn; same.
Qed.

Lemma stable_publish_row fuel fg headers fws writer multi row w :
  stable same_inputs w
    (publish_row B fuel fg headers fws writer (acked multi) row w).
Proof.
  unfold publish_row.
  destruct (encode_row _ _ row) as [e|[encoded_row row']];
    [by apply stable_raise|].
  destruct (assemble_key _ row') as [e|key]; [by apply stable_raise|].
  apply stable_bind; [apply _|apply stable_gets|].
  intros opts w' _. apply stable_kafka_produce.
Qed.

Lemma stable_publish fuel dataframe w :
  stable same_inputs w (publish B fuel dataframe w).
Proof.
  unfold publish.
  apply stable_bind; [apply _|apply stable_init_kafka_resources|].
  intros [[headers fws] writer] w1 _.
  apply stable_bind; [apply _|apply stable_gets|]. intros fg w2 _.
  apply stable_bind; [apply _|apply stable_gets|]. intros opts w3 _.
  apply stable_bind; [apply _| |].
  { destruct (negb _);
      [apply stable_kafka_get_offsets|by apply stable_ret]. }
  intros cp w4 _.
  apply stable_bind; [apply _|same|].
  intros cb w5 Hcb. injection Hcb as <- <-.
  apply stable_bind; [apply _| |].
  { apply stable_for_each; [apply _..|]. intros row w6.
    apply stable_publish_row. }
  intros _ w6 _.
  apply stable_bind; [apply _| |intros _ w7 _; by apply stable_ret].
  apply stable_when; [apply _|].
  apply stable_bind; [apply _|apply stable_flush|].
  intros _ w7 _. unfold bar_close. destruct (progress_bar w7); same.
Qed.

End publication_inputs.

(** *** The checkpoint taken before the publication *)

Lemma bind_done {A C} (m : M world A) (k : A → M world C) w c w' :
  (m ≫= k) w = Done c w' →
  ∃ a w1, m w = Done a w1 ∧ k a w1 = Done c w'.
Proof.
  unfold mbind, M_bind, bind. destruct (m w) as [a w1|e w1|]; [|done..].
  intros H. by exists a, w1.
Qed.

Lemma kafka_get_offsets_done B topic fs_id opts high w :
  kafka_get_offsets B topic fs_id opts high w
  = Done (watermarks B topic high (fetches w))
      (emit (EvListTopics (get opts "kafka_timeout" (PInt 6)))
         (set_fetches (S (fetches w)) w)).
Proof.
  unfold kafka_get_offsets, watermarks.
  by destruct (topics B (fetches w) !! topic).
Qed.

Lemma publish_checkpoint B fuel dataframe w cp w1 :
  publish B fuel dataframe w = Done cp w1 →
  cp = if FeatureGroup._multi_part_insert (feature_group w) then ""
       else watermarks B (FeatureGroup._online_topic_name (feature_group w))
              true (fetches w).
Proof.
  unfold publish. intros H.
  apply bind_done in H as ([[headers fws] writer] & wa & Hinit & H).
  apply init_kafka_resources_result in Hinit
    as (_ & _ & _ & Htopic & _ & Hmulti & _ & _ & _ & _ & _ & _ & _ & Hf).
  apply bind_done in H as (fg & wb & Hfg & H). injection Hfg as <- <-.
  apply bind_done in H as (opts & wc & Hopts & H). injection Hopts as <- <-.
  apply bind_done in H as (cp' & wd & Hcp & H).
  apply bind_done in H as (cb & we & _ & H).
  apply bind_done in H as (? & wf & _ & H).
  apply bind_done in H as (? & wg & _ & H).
  injection H as <- <-.
  rewrite Hmulti in Hcp.
  destruct (FeatureGroup._multi_part_insert (feature_group w)); cbn in Hcp.
  - by injection Hcp as <- <-.
  - rewrite kafka_get_offsets_done in Hcp. injection Hcp as <- <-.
    by rewrite Htopic, Hf.
Qed.

Lemma same_inputs_fields w w' :
  same_inputs w w' →
  write_options w' = write_options w
  ∧ FeatureGroup.external (feature_group w')
    = FeatureGroup.external (feature_group w)
  ∧ FeatureGroup._multi_part_insert (feature_group w')
    = FeatureGroup._multi_part_insert (feature_group w)
  ∧ FeatureGroup._online_topic_name (feature_group w')
    = FeatureGroup._online_topic_name (feature_group w)
  ∧ FeatureGroup.feature_store_id (feature_group w')
    = FeatureGroup.feature_store_id (feature_group w)
  ∧ FeatureGroup.online_enabled (feature_group w')
    = FeatureGroup.online_enabled (feature_group w)
  ∧ FeatureGroup.materialization_job (feature_group w')
    = FeatureGroup.materialization_job (feature_group w).
Proof.
  intros [Hg Ho]. split; [done|].
  split_and!.
  - apply (f_equal FeatureGroup.external) in Hg. exact Hg.
  - apply (f_equal FeatureGroup._multi_part_insert) in Hg. exact Hg.
  - apply (f_equal FeatureGroup._online_topic_name) in Hg. exact Hg.
  - apply (f_equal FeatureGroup.feature_store_id) in Hg. exact Hg.
  - apply (f_equal FeatureGroup.online_enabled) in Hg. exact Hg.
  - apply (f_equal FeatureGroup.materialization_job) in Hg. exact Hg.
Qed.

(** *** The publication returns

    With a producer whose queue frees up within the loop budget, delivery
    reports without fatal errors and rows that hold the complex features
    and the primary keys, every row is produced and the publication
    returns. *)

Lemma init_kafka_resources_done B num_entries w :
  ∃ r w', init_kafka_resources B num_entries w = Done r w'.
Proof.
  unfold init_kafka_resources, _init_kafka_resources, get_headers.
  unfold mbind, M_bind, bind, gets, when, modify, log, mret, M_ret, ret.
  destruct (FeatureGroup._multi_part_insert (feature_group w)) eqn:Hm;
    destruct (FeatureGroup._kafka_producer (feature_group w)) eqn:Hk;
    destruct (FeatureGroup.online_enabled (feature_group w)) eqn:Ho;
    cbn; rewrite ?Hm, ?Hk, ?Ho; cbn; rewrite ?Hm; cbn; by eexists _, _.
Qed.

Lemma publish_rows_return B fuel fg headers multi rows :
  frees_up B fuel →
  no_fatal_report B →
  Forall (publishable B fg) rows →
  ∀ w,
    bar_matches multi w →
    ∃ w',
      for_each rows
        (publish_row B fuel fg headers (get_writer_function B fg).1
           (get_writer_function B fg).2 (acked multi)) w = Done tt w'
      ∧ bar_matches multi w'
      ∧ (attempts w + length rows ≤ attempts w')%nat.
Proof.
  intros Hfree Hquiet. induction 1 as [|row rows Hrow _ IH]; intros w Hbar.
  - exists w. cbn. split_and!; [done|done|lia].
  - destruct Hrow as (encoded_row & row' & key & Henc & Hkey).
    destruct (Hfree (attempts w)) as (N & Hfuel & Hfull & Hnone).
    destruct (KafkaEngineSpec.kafka_produce_retry B multi N fuel key
                encoded_row (FeatureGroup._online_topic_name fg) headers
                (get (write_options w) "debug_kafka" (PBool false)) w
                Hbar Hfull Hnone (λ k _, Hquiet _) Hfuel)
      as (w1 & evs & Hrun & Ha & _ & _ & _ & _ & Hb & _).
    destruct (IH w1 Hb) as (w' & Hrest & Hb' & Ha').
    exists w'. split_and!; [|done|cbn; lia].
    cbn [for_each]. unfold publish_row. rewrite Henc, Hkey.
    unfold mbind, M_bind, bind, gets. by rewrite Hrun.
Qed.

Lemma publish_returns B fuel dataframe w :
  frees_up B fuel →
  no_fatal_report B →
  Forall (publishable B (feature_group w)) (DataFrame.rows dataframe) →
  ∃ cp w1,
    publish B fuel dataframe w = Done cp w1
    ∧ (attempts w + DataFrame.n_rows dataframe ≤ attempts w1)%nat.
Proof.
  intros Hfree Hquiet Hrows.
  destruct (init_kafka_resources_done B (Some (DataFrame.n_rows dataframe)) w)
    as ([[headers fws] writer] & wa & Hinit).
  pose proof (init_kafka_resources_result _ _ _ _ _ _ _ Hinit)
    as (-> & -> & Hpk & _ & Hcf & _ & _ & _ & _ & _ & _ & Hatt & _).
  set (fg := feature_group wa).
  set (multi := FeatureGroup._multi_part_insert fg).
  assert (Hrows' : Forall (publishable B fg) (DataFrame.rows dataframe)).
  { eapply Forall_impl; [exact Hrows|]. intros row.
    unfold publishable, get_writer_function. subst fg.
    by rewrite Hpk, Hcf. }
  assert (Hcp : ∃ cp wb,
             (if negb multi
              then kafka_get_offsets B (FeatureGroup._online_topic_name fg)
                     (FeatureGroup.feature_store_id fg) (write_options wa) true
              else mret "") wa = Done cp wb
             ∧ attempts wb = attempts wa).
  { destruct multi; cbn.
    - by exists "", wa.
    - rewrite kafka_get_offsets_done. by eexists _, _. }
  destruct Hcp as (cp & wb & Hcp & Hattb).
  set (wc := set_progress_bar
               (if negb multi then Some (Tqdm (DataFrame.n_rows dataframe) 0
                                           None false)
                else None) wb).
  assert (Hbar : bar_matches multi wc).
  { unfold bar_matches, wc.
    destruct multi; cbn; split; intros H;
      first [done | by destruct H | by eexists]. }
  destruct (publish_rows_return B fuel fg headers multi
              (DataFrame.rows dataframe) Hfree Hquiet Hrows' wc Hbar)
    as (wd & Hloop & Hbard & Hattd).
  assert (Hend : ∃ we,
             when (negb multi) (flush B (acked multi);; bar_close) wd
             = Done tt we ∧ attempts we = attempts wd).
  { destruct multi eqn:Hmulti; cbn.
    - by exists wd.
    - destruct (KafkaEngineSpec.serve_returns false (reports B (polls wd))
                  (emit EvFlush (set_polls (S (polls wd)) wd)) Hbard
                  (Hquiet _))
        as (we & evs & Hrun & (Hae & _ & _ & _ & _ & Hbare) & _).
      destruct Hbare as [_ Hsome]. destruct (Hsome eq_refl) as [b Hb].
      eexists. unfold mbind, M_bind, bind, flush. rewrite Hrun.
      unfold bar_close. rewrite Hb. split; [reflexivity|]. cbn. exact Hae. }
  destruct Hend as (we & Hend & Hatte).
  exists cp, we. split.
  - unfold publish. unfold mbind, M_bind, bind at 1. rewrite Hinit.
    unfold mbind, M_bind, bind, gets,
      build_ack_callback_and_optional_progress_bar, modify, mret, M_ret, ret
      in *.
    fold fg. fold multi. rewrite Hcp.
    replace (get_writer_function B (feature_group w))
      with (get_writer_function B fg)
      by (unfold get_writer_function, fg; by rewrite Hcf).
    unfold mbind, M_bind, bind. cbn beta. fold wc. rewrite Hloop.
    unfold mbind, M_bind, bind in Hend. by rewrite Hend.
  - rewrite Hatte. subst wc. cbn in Hattd.
    unfold DataFrame.rows in Hattd.
    rewrite length_fmap, length_seq in Hattd. lia.
Qed.

Lemma write_dataframe_kafka_after_publish B fuel dataframe w cp w1 :
  publish B fuel dataframe w = Done cp w1 →
  _write_dataframe_kafka B fuel dataframe w
  = materialize B (feature_group w1) cp w1.
Proof.
  intros H. unfold _write_dataframe_kafka, mbind, M_bind, bind. by rewrite H.
Qed.

End PublishSpec.

(** ** After the publication: the materialization job *)

Module MaterializationSpec.
Import KafkaEngine PythonEngine Props PublishSpec KafkaEngineSpec.

Lemma get_delete_ne (d : gmap string pyval) k k' v :
  k ≠ k' → get (delete k d) k' v = get d k' v.
Proof. intros H. unfold get. by rewrite lookup_delete_ne. Qed.

Lemma job_args_with job cp :
  cp ≠ "" → job_args job cp = args_with job cp.
Proof.
  intros H. unfold job_args, args_with.
  destruct (String.eqb_spec cp ""); done.
Qed.

Lemma job_args_without job : job_args job "" = args_without job.
Proof. done. Qed.

(** The first ingestion into a topic: exact trace. *)
Lemma materialize_first B fg w :
  FeatureGroup.external fg = false →
  FeatureGroup._multi_part_insert fg = false →
  let options := write_options w in
  let every := backfill_every options in
  let job := FeatureGroup.materialization_job fg in
  let low := watermarks B (FeatureGroup._online_topic_name fg) false
               (fetches w) in
  (truthy every = true → is_str every || is_int every = true) →
  ∃ w',
    materialize B fg "" w = Done (Some job) w'
    ∧ write_options w' = delete "offline_backfill_every_hr" options
    ∧ trace w'
      = (trace w
         ++ (if truthy (_start_offline_materialization (Some options))
             then [EvWarn "This is the first ingestion after an upgrade or backup/restore, running materialization job even though `start_offline_materialization` was set to `False`."]
             else [])
         ++ [EvListTopics (get options "kafka_timeout" (PInt 6));
             EvJobRun job (Some (job_args job low))
               (get options "wait_for_job" (PBool false))]
         ++ (if truthy every
             then [EvJobSchedule job (backfill_cron B every) (now B + 2)]
             else [EvLogInfo "Materialisation job was not scheduled."])
         ++ wait_events fg options)%list.
Proof.
  intros Hext Hmulti options every job low Htyped.
  unfold materialize. rewrite Hext, Hmulti.
  change (String.eqb "" "" && negb false) with true. cbv iota.
  unfold mbind, M_bind, bind, gets, when, log, modify, mret, M_ret, ret, pop.
  fold options. unfold wait_events.
  fold (backfill_every options). subst every.
  remember (backfill_every options) as every eqn:Hevery.
  assert (Hcases : truthy every = false
                   ∨ (truthy every = true ∧ is_str every = true)
                   ∨ (truthy every = true ∧ is_str every = false
                      ∧ is_int every = true)).
  { destruct (truthy every); [|by left]. right.
    specialize (Htyped eq_refl). destruct (is_str every); [by left|].
    right. by destruct (is_int every). }
  assert (Hcron : is_str every = true → str every = backfill_cron B every)
    by (by destruct every).
  assert (Hcron' : is_str every = false →
                   cron_every (now B) every = backfill_cron B every)
    by (by destruct every).
  destruct (truthy (_start_offline_materialization (Some options)));
    rewrite kafka_get_offsets_done; cbn [fetches emit set_fetches trace
      write_options set_write_options feature_group];
    fold low;
    (destruct Hcases as [Hev|[[Hev Hs]|(Hev & Hs & Hi)]];
     rewrite Hev, ?Hs, ?Hi);
    cbn [fetches emit set_fetches trace write_options set_write_options
           feature_group];
    rewrite !get_delete_ne by done;
    rewrite ?lookup_delete_ne by done;
    rewrite <- ?(Hcron Hs), <- ?(Hcron' Hs);
    (destruct (FeatureGroup.online_enabled fg
               && truthy (get options "wait_for_online_ingestion"
                            (PBool false)));
     eexists; (split; [reflexivity|]);
     cbn [fetches emit set_fetches trace write_options set_write_options
            feature_group];
     (split; [reflexivity|]);
     repeat (rewrite <- app_assoc; cbn [app]); reflexivity).
Qed.

(** A later ingestion, into a topic that exists: exact trace. *)
Lemma materialize_later B fg cp w :
  FeatureGroup.external fg = false →
  cp ≠ "" →
  let options := write_options w in
  let job := FeatureGroup.materialization_job fg in
  truthy (_start_offline_materialization (Some options)) = true →
  ∃ w',
    materialize B fg cp w = Done (Some job) w'
    ∧ write_options w' = options
    ∧ trace w'
      = (trace w
         ++ EvJobRun job
              (Some (if truthy (get options "skip_offsets" (PBool false))
                        || bool_decide (last_execution B = [])
                     then args_with job cp else args_without job))
              (get options "wait_for_job" (PBool false))
         :: wait_events fg options)%list.
Proof.
  intros Hext Hcp options job Hstart.
  unfold materialize. rewrite Hext.
  destruct (String.eqb_spec cp "") as [|_]; [done|]. cbn [andb].
  unfold mbind, M_bind, bind, gets, when, log, modify, mret, M_ret, ret.
  fold options. rewrite Hstart. unfold wait_events.
  cbn [fetches emit trace write_options feature_group].
  fold options.
  destruct (truthy (get options "skip_offsets" (PBool false))); cbn [negb andb orb];
    [|destruct (decide (last_execution B = [])) as [Hl|Hl];
      [rewrite (bool_decide_eq_false_2 (last_execution B ≠ []))
         by (by intros ?);
       rewrite (bool_decide_eq_true_2 _ Hl)
      |rewrite (bool_decide_eq_true_2 (last_execution B ≠ [])) by done;
       rewrite (bool_decide_eq_false_2 _ Hl)]];
    rewrite ?job_args_with by done; rewrite ?job_args_without;
    (destruct (FeatureGroup.online_enabled fg
               && truthy (get options "wait_for_online_ingestion"
                            (PBool false)));
     eexists; (split; [reflexivity|]); (split; [reflexivity|]);
     cbn [fetches emit trace write_options feature_group];
     repeat (rewrite <- app_assoc; cbn [app]); reflexivity).
Qed.

Lemma elem_of_wait_events fg options e :
  e ∈ wait_events fg options →
  e = EvWaitOnlineIngestion (options !! "online_ingestion_options").
Proof.
  unfold wait_events. destruct (_ && _); [|by intros ?%elem_of_nil].
  by intros ->%list_elem_of_singleton.
Qed.

Lemma count_wait_events p fg options :
  p (EvWaitOnlineIngestion (options !! "online_ingestion_options")) = false →
  count_events p (wait_events fg options) = 0%nat.
Proof.
  intros Hp. unfold wait_events. destruct (_ && _); [|done].
  by rewrite count_events_cons, Hp.
Qed.

(** C1 (as the code has it).  On an insert into a feature group that is not
    external, whose online topic existed before the publication (the
    checkpoint taken before publishing is not empty) and whose write
    options ask for the offline materialization, [_write_dataframe_kafka]
    runs the materialization job once the rows are published.  The
    checkpoint taken before publishing -- the high watermarks of the topic
    -- is passed as [-initialCheckPointString] exactly when the write
    options set [skip_offsets] or the job has no earlier execution; when the
    job was executed before and [skip_offsets] is not set, the argument is
    left out and the job reads on from where it last stopped.  (The
    publication itself returns under the conditions of
    [PublishSpec.publish_returns].) *)
Theorem existing_topic_job_arguments
    (B : broker) (fuel : nat) (dataframe : DataFrame.t) (w w1 : world)
    (initial_check_point : string) :
  let fg := feature_group w in
  let options := write_options w in
  let job := FeatureGroup.materialization_job fg in
  publish B fuel dataframe w = Done initial_check_point w1 →
  initial_check_point ≠ "" →
  FeatureGroup.external fg = false →
  truthy (_start_offline_materialization (Some options)) = true →
  initial_check_point
    = watermarks B (FeatureGroup._online_topic_name fg) true (fetches w)
  ∧ ∃ w2,
      _write_dataframe_kafka B fuel dataframe w = Done (Some job) w2
      ∧ trace w2
        = (trace w1
           ++ EvJobRun job
                (Some (if truthy (get options "skip_offsets" (PBool false))
                          || bool_decide (last_execution B = [])
                       then args_with job initial_check_point
                       else args_without job))
                (get options "wait_for_job" (PBool false))
           :: wait_events fg options)%list.
Proof.
  intros fg options job Hpub Hcp Hext Hstart.
  pose proof (publish_checkpoint _ _ _ _ _ _ Hpub) as Hcheck.
  pose proof (stable_publish B fuel dataframe w) as Hsame.
  rewrite Hpub in Hsame. cbn in Hsame.
  pose proof Hsame as [Hgroup _].
  apply same_inputs_fields in Hsame
    as (Ho & Hx & Hm & Ht & Hi & Hon & Hj).
  split.
  { fold fg in Hcheck.
    destruct (FeatureGroup._multi_part_insert fg); [done|exact Hcheck]. }
  rewrite (write_dataframe_kafka_after_publish _ _ _ _ _ _ Hpub).
  destruct (materialize_later B (feature_group w1) initial_check_point w1)
    as (w2 & Hrun & _ & Htrace).
  { by rewrite Hx. }
  { done. }
  { by rewrite Ho. }
  exists w2. rewrite Hrun, Htrace, Ho, Hj. split; [done|].
  unfold wait_events. by rewrite Hon.
Qed.

(** C8.  On an insert that is not multi-part, into a feature group that is
    not external and whose online topic did not exist before the
    publication (the checkpoint taken before publishing is empty),
    [_write_dataframe_kafka] runs the materialization job exactly once,
    whatever the write options say about offline materialization, with the
    low watermarks fetched after the publication as
    [-initialCheckPointString] (the argument is left out when that
    checkpoint is empty as well).  It registers a schedule exactly when the
    write options hold a backfill interval: a string is taken as the cron
    expression, an integer [n] gives [second minute hour/n ? * * *] of the
    current time, and the schedule starts two seconds from now.  (The
    publication itself returns under the conditions of
    [PublishSpec.publish_returns].) *)
Theorem first_ingestion_runs_and_schedules
    (B : broker) (fuel : nat) (dataframe : DataFrame.t) (w w1 : world)
    (initial_check_point : string) :
  let fg := feature_group w in
  let options := write_options w in
  let every := backfill_every options in
  let job := FeatureGroup.materialization_job fg in
  let low := watermarks B (FeatureGroup._online_topic_name fg) false
               (fetches w1) in
  publish B fuel dataframe w = Done initial_check_point w1 →
  initial_check_point = "" →
  FeatureGroup._multi_part_insert fg = false →
  FeatureGroup.external fg = false →
  (truthy every = true → is_str every || is_int every = true) →
  ∃ w2 new_events,
    _write_dataframe_kafka B fuel dataframe w = Done (Some job) w2
    ∧ trace w2 = (trace w1 ++ new_events)%list
    ∧ count_events is_job_run new_events = 1%nat
    ∧ EvJobRun job
        (Some (if String.eqb low "" then args_without job
               else args_with job low))
        (get options "wait_for_job" (PBool false)) ∈ new_events
    ∧ (∀ j cron start,
         EvJobSchedule j cron start ∈ new_events
         ↔ truthy every = true ∧ j = job ∧ cron = backfill_cron B every
           ∧ start = now B + 2).
Proof.
  intros fg options every job low Hpub -> Hmulti Hext Htyped.
  pose proof (stable_publish B fuel dataframe w) as Hsame.
  rewrite Hpub in Hsame. cbn in Hsame.
  apply same_inputs_fields in Hsame
    as (Ho & Hx & Hm & Ht & Hi & Hon & Hj).
  rewrite (write_dataframe_kafka_after_publish _ _ _ _ _ _ Hpub).
  destruct (materialize_first B (feature_group w1) w1)
    as (w2 & Hrun & _ & Htrace).
  { by rewrite Hx. }
  { by rewrite Hm. }
  { by rewrite Ho. }
  rewrite Ho, Hj, Ht in Htrace. fold options job fg low every in Htrace.
  assert (Hargs : job_args job low
                  = if String.eqb low "" then args_without job
                    else args_with job low).
  { destruct (String.eqb_spec low "") as [->|Hne];
      [apply job_args_without|by apply job_args_with]. }
  subst job. rewrite Hargs in Htrace.
  replace (wait_events (feature_group w1) options)
    with (wait_events fg options) in Htrace
    by (unfold wait_events; by rewrite Hon).
  eexists w2, _. rewrite Hrun, Hj. split; [done|]. split; [exact Htrace|].
  split_and!.
  - rewrite !count_events_app.
    rewrite (count_wait_events is_job_run) by done.
    destruct (truthy (_start_offline_materialization _));
      destruct (truthy every); by vm_compute.
  - apply elem_of_app. right. apply elem_of_app. left.
    apply elem_of_cons. right. by apply list_elem_of_singleton.
  - intros j cron start. rewrite !elem_of_app. split.
    + intros [Hin|[Hin|[Hin|Hin]]].
      * destruct (truthy (_start_offline_materialization _));
          [by apply list_elem_of_singleton in Hin|by apply elem_of_nil in Hin].
      * apply elem_of_cons in Hin as [?|Hin]; [done|].
        by apply list_elem_of_singleton in Hin.
      * destruct (truthy every);
          apply list_elem_of_singleton in Hin; [|done].
        by injection Hin as -> -> ->.
      * by apply elem_of_wait_events in Hin.
    + intros (Hev & -> & -> & ->). right. right. left. rewrite Hev.
      by apply list_elem_of_singleton.
Qed.

(** C9 (as the code has it).  Every message that [_write_dataframe_kafka]
    hands to the producer, accepted or refused, belongs to a row of the
    dataframe: it goes to the online topic, its value is the encoding of the
    row, and its key is the concatenation of [str] of the primary-key values
    of the row (as [encode_row] left them), taken in the sorted order of the
    primary-key names.  The key is empty exactly when every primary-key
    value of the row is the empty string; so it is not empty as soon as one
    primary-key value is a number, a boolean, a missing value or a
    non-empty string. *)
Theorem published_keys
    (B : broker) (fuel : nat) (dataframe : DataFrame.t) (w : world) :
  extends (produced_from B (feature_group w) dataframe) w
    (_write_dataframe_kafka B fuel dataframe w).
Proof.
  assert (Hother : ∀ e, is_produce e = false →
                        produced_from B (feature_group w) dataframe e)
    by (by intros []).
  unfold _write_dataframe_kafka.
  apply extends_bind; [apply extends_publish|].
  intros cp w1 _. apply extends_bind; [by apply extends_gets|].
  intros fg w2 _. by apply extends_materialize.
Qed.

End MaterializationSpec.

(** ** The schema of a feature group with on-demand transformations *)

Module SchemaSpec.
Import FeatureGroupEngine Reconcile.

Lemma collect_transformations tfs :
  ∀ transformed dropped,
    fold_left
      (λ '(transformed_features, dropped_features) tf,
         let hopsworks_udf := TransformationFunction.hopsworks_udf tf in
         ((transformed_features
           ++ ((λ '(output_column_name, return_type),
                  Feature.new output_column_name (Some return_type) true)
                 <$> zip (HopsworksUdf.output_column_names hopsworks_udf)
                       (HopsworksUdf.return_types hopsworks_udf)))%list,
          match HopsworksUdf.dropped_features hopsworks_udf with
          | [] => dropped_features
          | d => (dropped_features ++ d)%list
          end))
      tfs (transformed, dropped)
    = ((transformed ++ (tfs ≫= synthetic_features))%list,
       (dropped ++ dropped_union tfs)%list).
Proof.
  induction tfs as [|tf tfs IH]; intros transformed dropped; cbn.
  - by rewrite !app_nil_r.
  - rewrite IH. unfold dropped_union. cbn.
    f_equal.
    + rewrite <- app_assoc. do 2 f_equal.
      unfold synthetic_features.
      generalize (HopsworksUdf.return_types
                    (TransformationFunction.hopsworks_udf tf)).
      induction (HopsworksUdf.output_column_names
                   (TransformationFunction.hopsworks_udf tf))
        as [|o os IHo]; intros [|t ts]; cbn; try done.
      by rewrite IHo.
    + destruct (HopsworksUdf.dropped_features
                  (TransformationFunction.hopsworks_udf tf)); cbn.
      * done.
      * by rewrite <- app_assoc.
Qed.

Lemma keep_features (dropped : list string) features :
  ∀ updated_schema,
    fold_left
      (λ updated_schema feat,
         if bool_decide (Feature.name feat ∉ dropped)
         then (updated_schema ++ [feat])%list
         else updated_schema)
      features updated_schema
    = (updated_schema
       ++ filter (λ f, Feature.name f ∉ dropped) features)%list.
Proof.
  induction features as [|f features IH]; intros updated_schema.
  - by rewrite app_nil_r.
  - cbn [fold_left]. rewrite IH, filter_cons.
    case_bool_decide; case_decide; try done.
    by rewrite <- app_assoc.
Qed.

Lemma filter_all {A} (P : A → Prop) `{!∀ x, Decision (P x)} (l : list A) :
  (∀ x, P x) → filter P l = l.
Proof.
  intros HP. induction l as [|x l IH]; [done|].
  by rewrite filter_cons_True, IH.
Qed.

Lemma update_schema_reconcile fg features :
  _update_feature_group_schema_on_demand_transformations fg features
  = reconcileOnDemand (FeatureGroup.transformation_functions fg) features.
Proof.
  unfold _update_feature_group_schema_on_demand_transformations,
    reconcileOnDemand, surviving.
  destruct (FeatureGroup.transformation_functions fg) as [|tf tfs] eqn:Htfs.
  - cbn. rewrite app_nil_r. symmetry. apply filter_all.
    intros f Hin. by apply elem_of_nil in Hin.
  - rewrite collect_transformations. cbn [app].
    by rewrite keep_features.
Qed.

Lemma synthetic_on_demand bindings f :
  f ∈ bindings ≫= synthetic_features → Feature.on_demand f = true.
Proof.
  intros (tf & Hf & _)%list_elem_of_bind. unfold synthetic_features in Hf.
  apply elem_of_lookup_zip_with in Hf as (i & o & t & -> & _ & _). done.
Qed.

Lemma synthetic_declared tf :
  let u := TransformationFunction.hopsworks_udf tf in
  length (HopsworksUdf.output_column_names u)
    = length (HopsworksUdf.return_types u) →
  Feature.name <$> synthetic_features tf = HopsworksUdf.output_column_names u
  ∧ Feature.type <$> synthetic_features tf
    = Some <$> HopsworksUdf.return_types u.
Proof.
  intros u. unfold synthetic_features. fold u.
  generalize (HopsworksUdf.return_types u).
  induction (HopsworksUdf.output_column_names u) as [|o os IH];
    intros [|t ts] Hlen; cbn in *; try done.
  destruct (IH ts ltac:(lia)) as [-> ->]. done.
Qed.

(** C5 (as the code has it).  For every list of features and every feature
    group, [_update_feature_group_schema_on_demand_transformations] returns
    what the reconciliation of the specification describes: the input
    features whose name is in no dropped-feature list of a transformation
    function, in their order, followed by the synthetic on-demand features
    of the transformation functions in the order of their declaration, one
    per output column paired with its return type.  No input feature with a
    dropped name survives; a feature of the result that bears a dropped name
    is one of the appended on-demand features, which are not filtered. *)
Theorem update_schema_on_demand
    (fg : FeatureGroup.t) (features : list Feature.t) :
  let bindings := FeatureGroup.transformation_functions fg in
  let result :=
    _update_feature_group_schema_on_demand_transformations fg features in
  result = reconcileOnDemand bindings features
  ∧ result = (surviving bindings features
              ++ (bindings ≫= synthetic_features))%list
  ∧ (∀ f, f ∈ surviving bindings features
          ↔ f ∈ features ∧ Feature.name f ∉ dropped_union bindings)
  ∧ (∀ f, f ∈ result → Feature.name f ∈ dropped_union bindings →
          f ∈ bindings ≫= synthetic_features ∧ Feature.on_demand f = true)
  ∧ (∀ tf, tf ∈ bindings →
       let u := TransformationFunction.hopsworks_udf tf in
       length (HopsworksUdf.output_column_names u)
         = length (HopsworksUdf.return_types u) →
       Feature.name <$> synthetic_features tf
         = HopsworksUdf.output_column_names u
       ∧ Feature.type <$> synthetic_features tf
         = Some <$> HopsworksUdf.return_types u
       ∧ Forall (λ f, Feature.on_demand f = true) (synthetic_features tf)).
Proof.
  intros bindings result.
  assert (Hres : result = reconcileOnDemand bindings features)
    by apply update_schema_reconcile.
  split; [exact Hres|]. split; [exact Hres|].
  split; [intros f; unfold surviving; by rewrite list_elem_of_filter, (comm and)|].
  split.
  - intros f Hin Hdropped. rewrite Hres in Hin. unfold reconcileOnDemand in Hin.
    apply elem_of_app in Hin as [Hin|Hin].
    + unfold surviving in Hin. apply list_elem_of_filter in Hin as [Hnot _].
      done.
    + split; [done|]. by eapply synthetic_on_demand.
  - intros tf Htf u Hlen.
    destruct (synthetic_declared tf Hlen) as [Hn Ht].
    split_and!; [done..|].
    apply Forall_forall. intros f Hf.
    apply (synthetic_on_demand [tf]). cbn. by rewrite app_nil_r.
Qed.

End SchemaSpec.

(** ** [insert] and [save]: what happens before [save_dataframe] *)

Module InsertSpec.
Import PythonEngineFrames PythonEngineSave FeatureGroupEngine Props
  PublishSpec.

Section with_services.
Variable S : services.
Variable B : broker.

#[local] Instance eq_world_refl : Reflexive (=@{world}) := _.
#[local] Instance eq_world_trans : Transitive (=@{world}) := _.

Lemma stable_call {A} (r : exn + A) w : stable eq w (call r w).
Proof. by destruct r. Qed.

Lemma stable_check r w : stable eq w (check r w).
Proof. by destruct r. Qed.

Lemma stable_online_schema_validation fg vopts w :
  stable eq w (online_schema_validation fg vopts w).
Proof.
  unfold online_schema_validation.
  destruct (_ && _); [|done]. by destruct vopts.
Qed.

Lemma stable_insert_inputs fg df vopts transform w :
  stable eq w (insert_inputs S fg df vopts transform w).
Proof.
  unfold insert_inputs.
  apply stable_bind; [apply _|apply stable_call|]. intros feats w1 _.
  apply stable_bind; [apply _| |].
  { destruct (_ && _ && _); [|by apply stable_ret].
    apply stable_bind; [apply _|apply stable_call|].
    intros df1 w2 _. by apply stable_ret. }
  intros [df1 feats1] w2 _.
  apply stable_bind; [apply _|apply stable_check|]. intros _ w3 _.
  apply stable_bind; [apply _|apply stable_online_schema_validation|].
  intros validate w4 _.
  apply stable_bind; [apply _| |intros feats2 w5 _; by apply stable_ret].
  destruct validate; [apply stable_call|by apply stable_ret].
Qed.

Lemma insert_inputs_done fg df vopts transform w x w' :
  insert_inputs S fg df vopts transform w = Done x w' → w' = w.
Proof.
  intros H. pose proof (stable_insert_inputs fg df vopts transform w) as Hs.
  rewrite H in Hs. done.
Qed.

(** *** The names in the schema-mismatch error *)

Lemma elem_of_unmatched present other name :
  name ∈ unmatched present other ↔ names_unmatched present other name.
Proof.
  unfold unmatched, names_unmatched.
  rewrite list_elem_of_fmap. split.
  - intros (f & -> & Hf). apply list_elem_of_filter in Hf as [Hno Hin].
    exists f. split_and!; [done..|].
    intros g Hg. destruct (matched f g) eqn:Hm; [|done].
    assert (existsb (matched f) other = true); [|congruence].
    apply existsb_exists. exists g. by rewrite <- list_elem_of_In.
  - intros (f & Hin & <- & Hno). exists f. split; [done|].
    apply list_elem_of_filter. split; [|done].
    destruct (existsb (matched f) other) eqn:He; [|done].
    apply existsb_exists in He as (g & Hg & Hm).
    rewrite <- list_elem_of_In in Hg. by rewrite (Hno g Hg) in Hm.
Qed.

Lemma unmatched_nil present other :
  unmatched present other = [] ↔
  ∀ f, f ∈ present → ∃ g, g ∈ other ∧ matched f g = true.
Proof.
  split.
  - intros Hnil f Hf.
    destruct (existsb (matched f) other) eqn:He.
    + apply existsb_exists in He as (g & Hg & Hm).
      exists g. by rewrite list_elem_of_In.
    + assert (Feature.name f ∈ unmatched present other) as Hin.
      { unfold unmatched. apply list_elem_of_fmap. exists f.
        split; [done|]. by apply list_elem_of_filter. }
      rewrite Hnil in Hin. by apply elem_of_nil in Hin.
  - intros Hall. destruct (unmatched present other) as [|n l] eqn:Hu; [done|].
    assert (n ∈ unmatched present other) as Hin by (rewrite Hu; by left).
    apply elem_of_unmatched in Hin as (f & Hf & _ & Hno).
    destruct (Hall f Hf) as (g & Hg & Hm). by rewrite (Hno g Hg) in Hm.
Qed.

Lemma verify_schema_compatibility_spec existing incoming w :
  (compatible existing incoming →
   _verify_schema_compatibility existing incoming w = Done tt w)
  ∧ (¬ compatible existing incoming →
     ∃ names,
       _verify_schema_compatibility existing incoming w
       = Raised (SchemaMismatchError names) w
       ∧ names ≠ []
       ∧ ∀ name, name ∈ names ↔ names_unmatched existing incoming name
                                 ∨ names_unmatched incoming existing name).
Proof.
  unfold _verify_schema_compatibility.
  destruct (unmatched existing incoming ++ unmatched incoming existing)%list
    as [|n l] eqn:Hu.
  - apply app_eq_nil in Hu as [H1 H2].
    rewrite unmatched_nil in H1. rewrite unmatched_nil in H2.
    split; [done|]. intros Hnot. by destruct Hnot.
  - split.
    + intros [H1 H2]. apply unmatched_nil in H1. apply unmatched_nil in H2.
      by rewrite H1, H2 in Hu.
    + intros _. exists (n :: l). split; [done|]. split; [done|].
      intros name. rewrite <- Hu, elem_of_app, !elem_of_unmatched. done.
Qed.

(** *** The events of the schema step *)

Lemma extends_verify_schema_compatibility P existing incoming w :
  extends P w (_verify_schema_compatibility existing incoming w).
Proof.
  unfold _verify_schema_compatibility.
  destruct (_ ++ _)%list; [apply extends_ret|apply extends_raise].
Qed.

Lemma extends_save_feature_group_metadata P feats w :
  (∀ e, is_save_dataframe e = false → P e) →
  extends P w (save_feature_group_metadata S feats w).
Proof.
  intros HP. unfold save_feature_group_metadata.
  apply extends_bind; [by apply extends_same_trace|]. intros fg w1 _.
  apply extends_bind.
  { destruct (FeatureGroup.features fg); [by apply extends_same_trace|].
    destruct feats; [apply extends_ret|].
    apply extends_verify_schema_compatibility. }
  intros _ w2 _.
  apply extends_bind; [by apply extends_same_trace|]. intros fg2 w3 _.
  apply extends_bind.
  { unfold check. destruct (verify_attribute_key_names S fg2);
      [apply extends_raise|apply extends_ret]. }
  intros _ w4 _.
  apply extends_bind; [by apply extends_same_trace|]. intros _ w5 _.
  apply extends_bind; [by apply extends_same_trace|]. intros fg3 w6 _.
  apply extends_bind.
  { apply extends_when.
    apply extends_bind; [by apply extends_same_trace|]. intros opts w7 _.
    cbn. apply extends_bind; [by apply extends_same_trace|].
    intros _ w8 _. by apply extends_same_trace. }
  intros _ w7 _.
  apply extends_bind; [by apply extends_emit, HP|]. intros _ w8 _.
  apply extends_bind; [by apply extends_same_trace|]. intros _ w9 _.
  apply extends_bind; [by apply extends_same_trace|]. intros fg4 w10 _.
  by apply extends_emit, HP.
Qed.

Lemma bind_done_eq {A C} (m : M world A) (k : A → M world C) w a w1 :
  m w = Done a w1 → (m ≫= k) w = k a w1.
Proof. intros H. unfold mbind, M_bind, bind. by rewrite H. Qed.

(** C4.  On a feature group that has an id, when the features inferred
    from the incoming dataframe are not compatible with the features of
    the feature group (a feature of one list is matched, by name and by
    type where both give one, by no feature of the other), [insert] raises
    the schema-mismatch error, which names exactly the unmatched features,
    and the world is as it was before the call: [save_dataframe] is not
    called, no producer is set up and no row is published. *)
Theorem insert_rejects_incompatible_schema
    (fuel : nat) (feature_dataframe : DataFrame.t) (overwrite : bool)
    (operation storage : option string)
    (validation_options : option (gmap string pyval)) (transform : bool)
    (w w' : world) (transformed : DataFrame.t)
    (dataframe_features : list Feature.t) :
  let fg := feature_group w in
  FeatureGroup.has_id fg = true →
  insert_inputs S fg feature_dataframe validation_options transform w
    = Done (transformed, dataframe_features) w' →
  ¬ compatible (FeatureGroup.features fg) dataframe_features →
  ∃ names,
    insert S B fuel feature_dataframe overwrite operation storage
      validation_options transform w
    = Raised (SchemaMismatchError names) w
    ∧ names ≠ []
    ∧ (∀ name,
         name ∈ names
         ↔ names_unmatched (FeatureGroup.features fg) dataframe_features
             name
           ∨ names_unmatched dataframe_features (FeatureGroup.features fg)
               name)
    ∧ w' = w.
Proof.
  intros fg Hid Hin Hincompatible.
  pose proof (insert_inputs_done _ _ _ _ _ _ _ Hin) as ->.
  destruct (verify_schema_compatibility_spec (FeatureGroup.features fg)
              dataframe_features w) as [_ Hraise].
  destruct (Hraise Hincompatible) as (names & Hrun & Hne & Hnames).
  exists names. split_and!; try done.
  unfold insert.
  rewrite (bind_done_eq _ _ w fg w) by done.
  fold fg. rewrite (bind_done_eq _ _ _ _ _ Hin).
  rewrite Hid. cbn [negb].
  unfold mbind, M_bind, bind. by rewrite Hrun.
Qed.

(** C7.  When the validation gate reports the batch as rejected, [insert]
    raises the data-validation exception, whose message names the feature
    group and the address of the report, and [save] returns no job
    together with the report.  In both cases the world is the one that
    the schema step left: nothing is handed to [save_dataframe]. *)
Theorem rejected_validation
    (fuel : nat) (feature_dataframe : DataFrame.t) (overwrite : bool)
    (operation storage : option string)
    (validation_options : option (gmap string pyval)) (transform : bool)
    (w w0 w1 : world) (transformed : DataFrame.t)
    (dataframe_features : list Feature.t) (report : validation_report) :
  let fg := feature_group w in
  let fg1 := feature_group w1 in
  great_expectation_validate S fg1 transformed
    (default ∅ validation_options) = Some report →
  ingestion_result report = "REJECTED" →
  (insert_inputs S fg feature_dataframe validation_options transform w
     = Done (transformed, dataframe_features) w0 →
   (if negb (FeatureGroup.has_id fg)
    then save_feature_group_metadata S dataframe_features
    else _verify_schema_compatibility (FeatureGroup.features fg)
           dataframe_features) w0 = Done tt w1 →
   insert S B fuel feature_dataframe overwrite operation storage
     validation_options transform w
   = Raised
       (DataValidationException
          ("Data validation failed while validation ingestion policy set to strict, "
             +:+ "insertion to " +:+ FeatureGroup.name fg1
             +:+ " was aborted." +:+ line_feed
             +:+ "You can check a summary or download your report at "
             +:+ get_feature_group_url S
                   (FeatureGroup.feature_store_id fg1)
                   (FeatureGroup._id fg1)
             +:+ ".")) w1
   ∧ ∃ evs, trace w1 = (trace w ++ evs)%list
            ∧ count_events is_save_dataframe evs = 0%nat)
  ∧ (save_inputs S fg feature_dataframe validation_options w
       = Done (transformed, dataframe_features) w0 →
     save_feature_group_metadata S dataframe_features w0 = Done tt w1 →
     save S B fuel feature_dataframe validation_options w
     = Done (None, Some report) w1
     ∧ ∃ evs, trace w1 = (trace w0 ++ evs)%list
              ∧ count_events is_save_dataframe evs = 0%nat).
Proof.
  intros fg fg1 Hge Hrejected.
  assert (Hcount : ∀ evs,
            Forall (λ e, is_save_dataframe e = false) evs →
            count_events is_save_dataframe evs = 0%nat).
  { induction 1 as [|e evs He _ IH]; [done|].
    by rewrite KafkaEngineSpec.count_events_cons, He, IH. }
  split.
  - intros Hin Hstep.
    pose proof (insert_inputs_done _ _ _ _ _ _ _ Hin) as ->.
    split.
    + unfold insert.
      rewrite (bind_done_eq _ _ w fg w) by done.
      fold fg. rewrite (bind_done_eq _ _ _ _ _ Hin).
      rewrite (bind_done_eq _ _ _ _ _ Hstep).
      rewrite (bind_done_eq _ _ w1 fg1 w1) by done.
      fold fg1. rewrite Hge. unfold rejected. rewrite Hrejected.
      done.
    + assert (Hext : extends (λ e, is_save_dataframe e = false) w
                ((if negb (FeatureGroup.has_id fg)
                  then save_feature_group_metadata S dataframe_features
                  else _verify_schema_compatibility
                         (FeatureGroup.features fg) dataframe_features) w)).
      { destruct (negb _);
          [by apply extends_save_feature_group_metadata
          |apply extends_verify_schema_compatibility]. }
      rewrite Hstep in Hext. destruct Hext as (evs & Ht & Hall).
      exists evs. split; [done|]. by apply Hcount.
  - intros Hin Hstep. split.
    + unfold save.
      rewrite (bind_done_eq _ _ w fg w) by done.
      fold fg. rewrite (bind_done_eq _ _ _ _ _ Hin).
      rewrite (bind_done_eq _ _ _ _ _ Hstep).
      rewrite (bind_done_eq _ _ w1 fg1 w1) by done.
      fold fg1. rewrite Hge. unfold rejected. rewrite Hrejected.
      done.
    + pose proof (extends_save_feature_group_metadata
                    (λ e, is_save_dataframe e = false) dataframe_features w0
                    (λ e H, H)) as Hext.
      rewrite Hstep in Hext. destruct Hext as (evs & Ht & Hall).
      exists evs. split; [done|]. by apply Hcount.
Qed.

End with_services.

End InsertSpec.

(** ** Output columns of a transformation function *)

Module TransformationSpec.
Import PythonEngineFrames.

Lemma pop_column_absent name cols :
  name ∉ cols.*1 → pop_column name cols = None.
Proof.
  induction cols as [|[n v] cols IH]; [done|]. cbn.
  intros Hnot. apply not_elem_of_cons in Hnot as [Hne Hnot].
  destruct (String.eqb_spec n name) as [->|_]; [done|].
  by rewrite IH.
Qed.

Lemma filter_absent name (cols : list (string * list pyval)) :
  name ∉ cols.*1 → filter (λ c, c.1 ≠ name) cols = cols.
Proof.
  induction cols as [|[n v] cols IH]; [done|].
  intros Hnot. apply not_elem_of_cons in Hnot as [Hne Hnot].
  rewrite filter_cons_True by (cbn in *; congruence). by rewrite IH.
Qed.

(** Assignment to a column followed by the move to the end: whether the
    column existed or not, it ends up last and the other columns keep
    their places. *)
Lemma set_then_move name values cols :
  NoDup cols.*1 →
  move_to_end name (set_column name values cols)
  = (filter (λ c, c.1 ≠ name) cols ++ [(name, values)])%list.
Proof.
  unfold move_to_end.
  induction cols as [|[n v] cols IH]; intros Hnd.
  - cbn. by rewrite String.eqb_refl.
  - apply NoDup_cons in Hnd as [Hn Hnd]. cbn [set_column].
    destruct (String.eqb_spec n name) as [->|Hne].
    + cbn [pop_column]. rewrite String.eqb_refl.
      rewrite filter_cons_False by (cbn; tauto).
      by rewrite filter_absent.
    + cbn [pop_column]. destruct (String.eqb_spec n name) as [|_]; [done|].
      specialize (IH Hnd).
      rewrite filter_cons_True by (cbn; congruence).
      destruct (pop_column name (set_column name values cols))
        as [[c rest]|] eqn:Hpop.
      * cbn. by rewrite IH.
      * by rewrite IH.
Qed.

Lemma elem_of_set_column name values cols :
  name ∈ (set_column name values cols).*1.
Proof.
  induction cols as [|[n v] cols IH]; cbn; [by left|].
  destruct (String.eqb_spec n name) as [->|_]; cbn; [by left|by right].
Qed.

(** With a single output column, both kinds of udf leave the output column
    last, exactly once, with the values of the udf, and the other columns in
    their order. *)
Lemma single_output_column_is_last hopsworks_udf dataframe inputs name0 rest :
  NoDup (DataFrame.columns dataframe) →
  DataFrame.kind dataframe = Pandas →
  (length (HopsworksUdf.return_types hopsworks_udf) ≤ 1)%nat →
  HopsworksUdf.output_column_names hopsworks_udf = name0 :: rest →
  select dataframe (HopsworksUdf.transformation_features hopsworks_udf)
    = inr inputs →
  _apply_pandas_udf hopsworks_udf dataframe
  = inr (with_cols dataframe
           (filter (λ c, c.1 ≠ name0) (DataFrame.cols dataframe)
            ++ [(name0,
                 default [] (head (HopsworksUdf.pandas_udf hopsworks_udf
                                     inputs)))]))
  ∧ _apply_python_udf hopsworks_udf dataframe
    = inr (with_cols dataframe
             (filter (λ c, c.1 ≠ name0) (DataFrame.cols dataframe)
              ++ [(name0,
                   default []
                     (head (apply_rows (HopsworksUdf.udf hopsworks_udf)
                              inputs (DataFrame.n_rows dataframe) 1)))])).
Proof.
  intros Hnd Hkind Hlen Hnames Hsel.
  unfold _apply_pandas_udf, _apply_python_udf.
  rewrite Hsel, Hnames, Hkind.
  rewrite bool_decide_eq_false_2 by lia.
  rewrite !bool_decide_eq_true_2 by apply elem_of_set_column.
  by rewrite !set_then_move.
Qed.

End TransformationSpec.

(** ** [convert_to_default_dataframe] works on a copy *)

Module ConvertSpec.
Import DataFrameObjects StoreProps.

Lemma hoare_ret {A} (a : A) (pre : store → Prop) post epost :
  (∀ st, pre st → post a st) →
  hoare pre (mret a : M store A) post epost.
Proof. intros H st Hpre. by apply H. Qed.

Lemma hoare_raise {A} e (pre : store → Prop) (post : A → store → Prop) epost :
  (∀ st, pre st → epost st) →
  hoare pre (raise e) post epost.
Proof. intros H st Hpre. by apply H. Qed.

Lemma hoare_bind {A C} (m : M store A) (k : A → M store C)
    pre mid post epost :
  hoare pre m mid epost →
  (∀ a, hoare (mid a) (k a) post epost) →
  hoare pre (m ≫= k) post epost.
Proof.
  intros Hm Hk st Hpre. specialize (Hm st Hpre).
  unfold mbind, M_bind, bind.
  destruct (m st) as [a st'|e st'|]; [|done..].
  by apply Hk.
Qed.

Lemma hoare_weaken {A} (m : M store A) (pre pre' : store → Prop)
    (post post' : A → store → Prop) (epost epost' : store → Prop) :
  hoare pre' m post' epost' →
  (∀ st, pre st → pre' st) →
  (∀ a st, post' a st → post a st) →
  (∀ st, epost' st → epost st) →
  hoare pre m post epost.
Proof.
  intros Hm Hpre Hpost Hepost st Hst. specialize (Hm st (Hpre st Hst)).
  destruct (m st); auto.
Qed.

Lemma hoare_when c (m : M store unit) (pre : store → Prop) post epost :
  hoare pre m post epost →
  (∀ st, pre st → post tt st) →
  hoare pre (when c m) post epost.
Proof. intros Hm Hskip. destruct c; [done|]. by apply hoare_ret. Qed.

Section frame_property.
Variable autofix_feature_name : string → string.
Variable tz_convert_none replace_time_zone_none : series → series.
Variable st0 : store.

Lemma fresh_frame_is_new st :
  keeps st0 st → fresh_object st0 (fresh (dom (frames st))).
Proof.
  intros [Hf _].
  destruct (frames st0 !! fresh (dom (frames st))) as [f|] eqn:Hl; [|done].
  apply Hf in Hl.
  assert (fresh (dom (frames st)) ∈ dom (frames st))
    by (apply elem_of_dom; eauto).
  by destruct (is_fresh (dom (frames st))).
Qed.

Lemma keeps_new_frame st f :
  keeps st0 st →
  keeps st0 (Store (<[fresh (dom (frames st)) := f]> (frames st))
               (arrays st) (warnings st)).
Proof.
  intros Hk. pose proof (fresh_frame_is_new st Hk) as Hfresh.
  destruct Hk as [Hf Ha]. split; [|done].
  intros obj f' Hl. cbn.
  rewrite lookup_insert_ne; [by apply Hf|]. intros <-. congruence.
Qed.

Lemma keeps_new_array st a :
  keeps st0 st →
  keeps st0 (Store (frames st) (<[fresh (dom (arrays st)) := a]> (arrays st))
               (warnings st)).
Proof.
  intros [Hf Ha]. split; [done|].
  intros ref a' Hl. cbn.
  rewrite lookup_insert_ne; [by apply Ha|]. intros <-.
  apply Ha in Hl.
  assert (fresh (dom (arrays st)) ∈ dom (arrays st))
    by (apply elem_of_dom; eauto).
  by destruct (is_fresh (dom (arrays st))).
Qed.

Lemma keeps_put_frame st obj f :
  keeps st0 st → fresh_object st0 obj →
  keeps st0 (Store (<[obj := f]> (frames st)) (arrays st) (warnings st)).
Proof.
  intros [Hf Ha] Hfresh. split; [|done].
  intros obj' f' Hl. cbn.
  rewrite lookup_insert_ne; [by apply Hf|]. intros <-. congruence.
Qed.

Lemma hoare_get_frame obj (pre epost : store → Prop) :
  (∀ st, pre st → epost st) →
  hoare pre (get_frame obj) (λ _ st, pre st) epost.
Proof.
  intros He st Hpre. unfold get_frame.
  destruct (frames st !! obj); auto.
Qed.

Lemma hoare_get_array ref (pre epost : store → Prop) :
  (∀ st, pre st → epost st) →
  hoare pre (get_array ref) (λ _ st, pre st) epost.
Proof.
  intros He st Hpre. unfold get_array.
  destruct (arrays st !! ref); auto.
Qed.

Lemma hoare_column_ref obj col (pre epost : store → Prop) :
  (∀ st, pre st → epost st) →
  hoare pre (column_ref obj col) (λ _ st, pre st) epost.
Proof.
  intros He. unfold column_ref.
  eapply hoare_bind; [by apply hoare_get_frame|].
  intros f. destruct (filter _ _) as [|c [|c' l]].
  - by apply hoare_raise.
  - by apply hoare_ret.
  - by apply hoare_raise.
Qed.

Lemma hoare_normalize_column copy col :
  fresh_object st0 copy →
  hoare (keeps st0)
    (normalize_column tz_convert_none replace_time_zone_none copy col)
    (λ copy' st, keeps st0 st ∧ fresh_object st0 copy')
    (keeps st0).
Proof.
  intros Hfresh. unfold normalize_column.
  eapply hoare_bind; [by apply hoare_column_ref|]. intros ref.
  eapply hoare_bind; [by apply hoare_get_array|]. intros a.
  eapply hoare_bind; [by apply hoare_get_frame|]. intros f.
  destruct (s_dtype a).
  - intros st Hk. cbn. split; [|done].
    apply keeps_put_frame; [|done]. by apply keeps_new_array.
  - destruct (f_kind f).
    + by apply hoare_raise.
    + intros st Hk. cbn. split.
      * apply (keeps_new_frame (Store _ _ _)). by apply keeps_new_array.
      * apply (fresh_frame_is_new (Store _ _ _)). by apply keeps_new_array.
  - by apply hoare_ret.
Qed.

Lemma hoare_normalize_columns cols :
  ∀ copy,
    fresh_object st0 copy →
    hoare (keeps st0)
      (normalize_columns tz_convert_none replace_time_zone_none copy cols)
      (λ copy' st, keeps st0 st ∧ fresh_object st0 copy')
      (keeps st0).
Proof.
  induction cols as [|col cols IH]; intros copy Hfresh.
  - by apply hoare_ret.
  - cbn [normalize_columns].
    eapply hoare_bind; [by apply hoare_normalize_column|].
    intros copy' st [Hk Hfresh']. by apply IH.
Qed.

Lemma hoare_set_column_names obj names :
  fresh_object st0 obj →
  hoare (keeps st0) (set_column_names obj names)
    (λ _ st, keeps st0 st) (keeps st0).
Proof.
  intros Hfresh. unfold set_column_names.
  eapply hoare_bind; [by apply hoare_get_frame|]. intros f.
  case_bool_decide; [by apply hoare_raise|].
  intros st Hk. by apply keeps_put_frame.
Qed.

Lemma hoare_warn msg (pre : store → Prop) :
  (∀ st, pre st →
         pre (Store (frames st) (arrays st) (warnings st ++ [msg]))) →
  hoare pre (warn msg) (λ _ st, pre st) pre.
Proof. intros H st Hpre. by apply H. Qed.

Lemma hoare_convert obj :
  hoare (keeps st0)
    (convert_to_default_dataframe autofix_feature_name tz_convert_none
       replace_time_zone_none (ADataFrame obj))
    (λ r st, keeps st0 st ∧ ∃ copy, r = Some copy ∧ fresh_object st0 copy)
    (keeps st0).
Proof.
  unfold convert_to_default_dataframe.
  eapply hoare_bind; [by apply hoare_get_frame|]. intros f. cbv zeta.
  eapply hoare_bind with
    (mid := λ copy st, keeps st0 st ∧ fresh_object st0 copy).
  { unfold shallow_copy.
    eapply hoare_bind; [by apply hoare_get_frame|]. intros f1.
    intros st Hk. cbn. split; [by apply keeps_new_frame|].
    by apply fresh_frame_is_new. }
  intros copy.
  eapply hoare_bind with (mid := λ _ st, keeps st0 st ∧ fresh_object st0 copy).
  { apply hoare_when; [|done].
    intros st [Hk Hf]. cbn. split; [|done]. by destruct Hk. }
  intros _.
  eapply hoare_bind with (mid := λ _ st, keeps st0 st ∧ fresh_object st0 copy).
  { apply hoare_when; [|done].
    intros st [Hk Hf]. cbn. split; [|done]. by destruct Hk. }
  intros _.
  eapply hoare_bind; [by apply hoare_get_frame; intros ? []|]. intros f2.
  eapply hoare_bind with (mid := λ _ st, keeps st0 st ∧ fresh_object st0 copy).
  { intros st [Hk Hf].
    pose proof (hoare_set_column_names copy
                  (autofix_feature_name <$> (f_columns f2).*1) Hf st Hk)
      as Hs.
    destruct (set_column_names _ _ st); [by split|done..]. }
  intros _.
  eapply hoare_bind; [by apply hoare_get_frame; intros ? []|]. intros f3.
  eapply hoare_bind with
    (mid := λ copy' st, keeps st0 st ∧ fresh_object st0 copy').
  { intros st [Hk Hf].
    by apply (hoare_normalize_columns (f_columns f3).*1 copy Hf st Hk). }
  intros copy'. apply hoare_ret. intros st [Hk Hf]. split; [done|].
  by exists copy'.
Qed.

End frame_property.

Section returns.
Variable autofix_feature_name : string → string.
Variable tz_convert_none replace_time_zone_none : series → series.

Lemma filter_none (l : list (string * nat)) col :
  col ∉ l.*1 → filter (λ c, c.1 = col) l = [].
Proof.
  induction l as [|[n r] l IH]; intros Hn; [done|].
  cbn in Hn. apply not_elem_of_cons in Hn as [Hne Hn].
  rewrite filter_cons_False by (cbn; congruence). by apply IH.
Qed.

Lemma filter_unique (l : list (string * nat)) col ref :
  NoDup l.*1 → (col, ref) ∈ l →
  filter (λ c, c.1 = col) l = [(col, ref)].
Proof.
  induction l as [|[n r] l IH]; intros Hnd Hin.
  - by apply elem_of_nil in Hin.
  - cbn in Hnd. apply NoDup_cons in Hnd as [Hn Hnd].
    apply elem_of_cons in Hin as [[= <- <-]|Hin].
    + rewrite filter_cons_True by done. f_equal. by apply filter_none.
    + rewrite filter_cons_False; [by apply IH|].
      cbn. intros ->. apply Hn.
      apply list_elem_of_fmap. by exists (col, ref).
Qed.

Lemma rebind_names col ref f : (f_columns (rebind col ref f)).*1 = (f_columns f).*1.
Proof.
  unfold rebind. cbn. rewrite <- list_fmap_compose.
  apply list_fmap_ext. intros i [n r] _. cbn.
  by destruct (String.eqb n col).
Qed.

Lemma rebind_other col ref f col' r :
  col' ≠ col → (col', r) ∈ f_columns (rebind col ref f) →
  (col', r) ∈ f_columns f.
Proof.
  intros Hne. unfold rebind. cbn.
  intros ([n r'] & Heq & Hin)%list_elem_of_fmap. cbn in Heq.
  destruct (String.eqb_spec n col) as [->|_]; by injection Heq as -> ->.
Qed.

Lemma column_ready_new_array st k ref a :
  column_ready st k ref →
  column_ready
    (Store (frames st) (<[fresh (dom (arrays st)) := a]> (arrays st))
       (warnings st)) k ref.
Proof.
  intros (a' & Hl & Hk). exists a'. split; [|done]. cbn.
  rewrite lookup_insert_ne; [done|]. intros <-.
  assert (fresh (dom (arrays st)) ∈ dom (arrays st))
    by (apply elem_of_dom; eauto).
  by destruct (is_fresh (dom (arrays st))).
Qed.

Lemma normalize_column_returns col cols names k copy :
  col ∈ names → col ∉ cols → NoDup names →
  hoare (ready (col :: cols) names k copy)
    (normalize_column tz_convert_none replace_time_zone_none copy col)
    (λ copy' st, ready cols names k copy' st)
    (λ _, False).
Proof.
  intros Hcol Hnotin Hnd st (f & Hf & Hkind & Hnames & Hready).
  assert (∃ ref, (col, ref) ∈ f_columns f) as [ref Href].
  { rewrite <- Hnames in Hcol.
    apply list_elem_of_fmap in Hcol as ([n r] & -> & Hin). by exists r. }
  destruct (Hready col ref ltac:(by left) Href) as (a & Ha & Hfit).
  unfold normalize_column, column_ref, get_frame, get_array.
  unfold mbind, M_bind, bind. rewrite Hf.
  rewrite (filter_unique _ col ref) by (by rewrite ?Hnames).
  cbn. rewrite Ha, Hf.
  assert (Hstep : ∀ a' f0,
    f_kind f0 = k → (f_columns f0).*1 = names →
    (∀ col' r, (col', r) ∈ f_columns f0 → col' ≠ col →
               (col', r) ∈ f_columns f) →
    ∀ obj fr,
      ready cols names k obj
        (Store (<[obj := f0]> fr)
           (<[fresh (dom (arrays st)) := a']> (arrays st)) (warnings st))).
  { intros a' f0 Hk0 Hn0 Hsub obj fr. exists f0. cbn.
    rewrite lookup_insert_eq. split_and!; [done..|].
    intros col' r Hin' Hr.
    assert (col' ≠ col) by (intros ->; done).
    apply (column_ready_new_array st).
    apply (Hready col' r); [by right|]. by apply Hsub. }
  destruct (s_dtype a) as [tz|tz|tag] eqn:Hdt.
  - cbn. apply Hstep.
    + done.
    + by rewrite rebind_names.
    + intros col' r Hin' Hne. by eapply rebind_other.
  - destruct (f_kind f) eqn:Hfk.
    + subst k. by destruct (Hfit eq_refl tz).
    + cbn. apply Hstep.
      * cbn. congruence.
      * by rewrite rebind_names.
      * intros col' r Hin' Hne. by eapply rebind_other.
  - cbn. exists f. split_and!; [done..|].
    intros col' r Hin' Hr. apply (Hready col' r); [by right|done].
Qed.

Lemma normalize_columns_returns cols :
  ∀ names k copy,
    cols ⊆ names → NoDup cols → NoDup names →
    hoare (ready cols names k copy)
      (normalize_columns tz_convert_none replace_time_zone_none copy cols)
      (λ copy' st, shaped names k copy' st)
      (λ _, False).
Proof.
  induction cols as [|col cols IH]; intros names k copy Hsub Hndc Hnd.
  - apply hoare_ret. intros st (f & Hf & Hk & Hn & _). by exists f.
  - cbn [normalize_columns]. apply NoDup_cons in Hndc as [Hnotin Hndc].
    eapply hoare_bind.
    + apply normalize_column_returns; [|done..].
      apply Hsub. by left.
    + intros copy'. apply IH; [|done..].
      intros c Hc. apply Hsub. by right.
Qed.

Lemma convert_returns st0 obj f :
  frames st0 !! obj = Some f →
  well_formed st0 f →
  NoDup (autofix_feature_name <$> (f_columns f).*1) →
  ∃ copy st',
    convert_to_default_dataframe autofix_feature_name tz_convert_none
      replace_time_zone_none (ADataFrame obj) st0 = Done (Some copy) st'
    ∧ shaped (autofix_feature_name <$> (f_columns f).*1) (f_kind f) copy st'.
Proof.
  intros Hf Hwf Hnd.
  set (names := autofix_feature_name <$> (f_columns f).*1) in *.
  assert (Hh : hoare (λ st, st = st0)
            (convert_to_default_dataframe autofix_feature_name
               tz_convert_none replace_time_zone_none (ADataFrame obj))
            (λ r st, ∃ copy, r = Some copy ∧ shaped names (f_kind f) copy st)
            (λ _, False)).
  { unfold convert_to_default_dataframe.
    eapply hoare_bind with (mid := λ f' st, f' = f ∧ st = st0).
    { intros st ->. unfold get_frame. by rewrite Hf. }
    intros f1. cbv zeta.
    eapply hoare_bind with
      (mid := λ copy st, f1 = f ∧ frames st !! copy = Some f
                         ∧ arrays st = arrays st0).
    { intros st [-> ->]. unfold shallow_copy, get_frame, new_frame.
      unfold mbind, M_bind, bind. rewrite Hf. cbn.
      by rewrite lookup_insert_eq. }
    intros copy.
    eapply hoare_bind with
      (mid := λ _ st, f1 = f ∧ frames st !! copy = Some f
                      ∧ arrays st = arrays st0).
    { apply hoare_when; [|done]. by intros st (-> & ? & ?). }
    intros _.
    eapply hoare_bind with
      (mid := λ _ st, f1 = f ∧ frames st !! copy = Some f
                      ∧ arrays st = arrays st0).
    { apply hoare_when; [|done]. by intros st (-> & ? & ?). }
    intros _.
    eapply hoare_bind with
      (mid := λ f' st, f' = f ∧ frames st !! copy = Some f
                       ∧ arrays st = arrays st0).
    { intros st (-> & Hc & Ha). unfold get_frame. by rewrite Hc. }
    intros f2.
    eapply hoare_bind with
      (mid := λ _ st,
         frames st !! copy
           = Some (Frame (f_kind f) (zip names (f_columns f).*2))
         ∧ arrays st = arrays st0).
    { intros st (-> & Hc & Ha). unfold set_column_names, get_frame.
      unfold mbind, M_bind, bind. rewrite Hc. fold names.
      rewrite bool_decide_eq_false_2 by tauto.
      cbn. by rewrite lookup_insert_eq. }
    intros _.
    eapply hoare_bind with
      (mid := λ f' st,
         f' = Frame (f_kind f) (zip names (f_columns f).*2)
         ∧ frames st !! copy = Some f' ∧ arrays st = arrays st0).
    { intros st (Hc & Ha). unfold get_frame. by rewrite Hc. }
    intros f3.
    assert (Hzip : (zip names (f_columns f).*2).*1 = names).
    { apply fst_zip. unfold names. by rewrite !length_fmap. }
    eapply hoare_bind with
      (mid := λ copy' st, shaped names (f_kind f) copy' st).
    { intros st (-> & Hc & Ha). cbn [f_columns]. rewrite Hzip.
      apply (normalize_columns_returns names names (f_kind f) copy);
        [done..|].
      exists (Frame (f_kind f) (zip names (f_columns f).*2)).
      split_and!; [done|done|exact Hzip|]. cbn.
      intros col ref _ Hin.
      apply elem_of_zip_r in Hin.
      apply list_elem_of_fmap in Hin as (c & -> & Hc').
      destruct (Hwf c Hc') as (a & Hl & Hfit).
      exists a. by rewrite Ha. }
    intros copy'. apply hoare_ret. intros st Hs. by exists copy'. }
  specialize (Hh st0 eq_refl).
  destruct (convert_to_default_dataframe _ _ _ _ st0) as [r st'|e st'|];
    [|done..].
  destruct Hh as (copy & -> & Hs). by exists copy, st'.
Qed.

End returns.

(** The copy holds the columns of the original, sanitized and normalized. *)
Section converts.
Variable autofix_feature_name : string → string.
Variable tz_convert_none replace_time_zone_none : series → series.
Variable st0 : store.
Variable f : frame.

Lemma converting_names cols copy st :
  converting autofix_feature_name tz_convert_none replace_time_zone_none
    st0 f cols copy st →
  ∃ f', frames st !! copy = Some f'
        ∧ (f_columns f').*1 = autofix_feature_name <$> (f_columns f).*1.
Proof.
  intros (f' & Hf' & _ & _ & Hcols). exists f'. split; [done|].
  induction Hcols as [|c c' l l' Hc _ IH]; [done|].
  cbn. f_equal; [|done].
  destruct (decide _); [by destruct Hc|by destruct Hc].
Qed.

Lemma unique_column (l : list (string * nat)) col ref c :
  NoDup l.*1 → (col, ref) ∈ l → c ∈ l → c.1 = col → c = (col, ref).
Proof.
  intros Hnd Hin Hc Hname.
  pose proof (filter_unique l col ref Hnd Hin) as Hfilter.
  assert (c ∈ filter (λ c : string * nat, c.1 = col) l) as Hcf
    by (by apply list_elem_of_filter).
  rewrite Hfilter in Hcf. by apply list_elem_of_singleton in Hcf.
Qed.

Lemma rebind_same col ref (l : list (string * nat)) :
  NoDup l.*1 → (col, ref) ∈ l →
  (λ c : string * nat, if String.eqb c.1 col then (c.1, ref) else c) <$> l
  = l.
Proof.
  intros Hnd Hin. rewrite <- (list_fmap_id l) at 2.
  apply list_fmap_ext. intros i c Hi.
  destruct (String.eqb_spec c.1 col) as [Heq|]; [|done].
  rewrite (unique_column l col ref c Hnd Hin); [done| |done].
  by eapply list_elem_of_lookup_2.
Qed.

(** One column is visited: the columns called [col] refer to [ref'],
    the normalized array of the column. *)
Lemma columns_step cols col ref ref' a st st' (l : list (string * nat)) :
  Forall2
    (λ c c', if decide (c'.1 ∈ col :: cols)
             then c'.1 = autofix_feature_name c.1 ∧ c'.2 = c.2
             else column_of autofix_feature_name tz_convert_none
                    replace_time_zone_none st0 st c c')
    (f_columns f) l →
  NoDup l.*1 → (col, ref) ∈ l → col ∉ cols →
  arrays st0 !! ref = Some a →
  (∀ r x, arrays st !! r = Some x → arrays st' !! r = Some x) →
  arrays st' !! ref'
  = Some (normalized tz_convert_none replace_time_zone_none a) →
  match s_dtype a with
  | OtherDtype _ => ref' = ref
  | _ => arrays st0 !! ref' = None
  end →
  Forall2
    (λ c c', if decide (c'.1 ∈ cols)
             then c'.1 = autofix_feature_name c.1 ∧ c'.2 = c.2
             else column_of autofix_feature_name tz_convert_none
                    replace_time_zone_none st0 st' c c')
    (f_columns f)
    ((λ c : string * nat, if String.eqb c.1 col then (c.1, ref') else c)
       <$> l).
Proof.
  intros Hcols Hnd Hin Hnotin Ha Hgrow Hnew Hfresh.
  apply Forall2_fmap_r.
  apply Forall2_same_length_lookup. split; [by eapply Forall2_length|].
  intros i c c' Hc Hc'.
  pose proof (Forall2_lookup_lr _ _ _ _ _ _ Hcols Hc Hc') as Hrel.
  unfold compose. cbv beta in *.
  destruct (String.eqb_spec c'.1 col) as [Hname|Hname]; cbn [fst snd].
  - assert (c' = (col, ref)) as ->.
    { apply (unique_column l); [done..| |done].
      by eapply list_elem_of_lookup_2. }
    cbn [fst snd] in *.
    rewrite decide_True in Hrel by (by left).
    destruct Hrel as [Hfix Href].
    rewrite decide_False by done.
    split; [done|]. exists a. rewrite <- Href. by split_and!.
  - destruct (decide (c'.1 ∈ col :: cols)) as [Hmem|Hmem].
    + rewrite decide_True; [done|].
      by apply elem_of_cons in Hmem as [?|?].
    + rewrite decide_False by (intros ?; apply Hmem; by right).
      destruct Hrel as (Hfix & a' & Ha' & Hl & Hd).
      split; [done|]. exists a'. split_and!; [done|by apply Hgrow|done].
Qed.

Lemma fresh_array_grows st a r x :
  arrays st !! r = Some x →
  <[fresh (dom (arrays st)) := a]> (arrays st) !! r = Some x.
Proof.
  intros Hr. rewrite lookup_insert_ne; [done|]. intros <-.
  assert (fresh (dom (arrays st)) ∈ dom (arrays st))
    by (apply elem_of_dom; eauto).
  by destruct (is_fresh (dom (arrays st))).
Qed.

Lemma fresh_array_new st :
  (∀ ref a, arrays st0 !! ref = Some a → arrays st !! ref = Some a) →
  arrays st0 !! fresh (dom (arrays st)) = None.
Proof.
  intros Hkeep.
  destruct (arrays st0 !! fresh (dom (arrays st))) as [a|] eqn:Hl; [|done].
  apply Hkeep in Hl.
  assert (fresh (dom (arrays st)) ∈ dom (arrays st))
    by (apply elem_of_dom; eauto).
  by destruct (is_fresh (dom (arrays st))).
Qed.

Hypothesis names_distinct :
  NoDup (autofix_feature_name <$> (f_columns f).*1).
Hypothesis arrays_there : well_formed st0 f.

Lemma normalize_column_converts col cols copy :
  col ∈ autofix_feature_name <$> (f_columns f).*1 → col ∉ cols →
  hoare
    (converting autofix_feature_name tz_convert_none
       replace_time_zone_none st0 f (col :: cols) copy)
    (normalize_column tz_convert_none replace_time_zone_none copy col)
    (λ copy' st,
       converting autofix_feature_name tz_convert_none
         replace_time_zone_none st0 f cols copy' st)
    (λ _, False).
Proof.
  intros Hcol Hnotin st Hinv.
  destruct (converting_names _ _ _ Hinv) as (f' & Hf' & Hnames).
  destruct Hinv as (f'' & Hf'' & Hkind & Hkeep & Hcols).
  assert (f'' = f') as -> by congruence. clear Hf''.
  assert (Hnd : NoDup (f_columns f').*1) by (by rewrite Hnames).
  assert (∃ ref, (col, ref) ∈ f_columns f') as [ref Href].
  { rewrite <- Hnames in Hcol.
    apply list_elem_of_fmap in Hcol as ([n r] & -> & Hin). by exists r. }
  assert (∃ a, arrays st0 !! ref = Some a
               ∧ (f_kind f = Pandas → ∀ tz, s_dtype a ≠ PlDatetime tz))
    as (a & Ha & Hfit).
  { apply list_elem_of_lookup in Href as [i Hi].
    destruct (Forall2_lookup_r _ _ _ _ _ Hcols Hi) as (c & Hc & Hrel).
    cbn [fst snd] in Hrel. rewrite decide_True in Hrel by (by left).
    destruct Hrel as [_ ->].
    apply (arrays_there c). by eapply list_elem_of_lookup_2. }
  unfold normalize_column, column_ref, get_frame, get_array.
  unfold mbind, M_bind, bind. rewrite Hf'.
  rewrite (filter_unique _ col ref) by done.
  cbn. rewrite (Hkeep _ _ Ha), Hf'.
  destruct (s_dtype a) as [tz|tz|tag] eqn:Hdt.
  - cbn. eexists. cbn. rewrite lookup_insert_eq.
    split_and!; [done|done| |].
    + intros r x Hr. by apply fresh_array_grows, Hkeep.
    + apply (columns_step cols col ref _ a st); [done..| | | |].
      * done.
      * intros r x. apply fresh_array_grows.
      * cbn. rewrite lookup_insert_eq. unfold normalized. by rewrite Hdt.
      * rewrite Hdt. by apply fresh_array_new.
  - destruct (f_kind f') eqn:Hfk.
    + exfalso. apply (Hfit ltac:(congruence) tz). done.
    + cbn. eexists. cbn. rewrite lookup_insert_eq.
      split_and!; [done|cbn; congruence| |].
      * intros r x Hr. by apply fresh_array_grows, Hkeep.
      * apply (columns_step cols col ref _ a st); [done..| | | |].
        -- done.
        -- intros r x. apply fresh_array_grows.
        -- cbn. rewrite lookup_insert_eq. unfold normalized.
           by rewrite Hdt.
        -- rewrite Hdt. by apply fresh_array_new.
  - cbn. exists f'. split_and!; [done..|].
    rewrite <- (rebind_same col ref (f_columns f')) by done.
    apply (columns_step cols col ref ref a st st); try done.
    + unfold normalized. rewrite Hdt. apply Hkeep, Ha.
    + by rewrite Hdt.
Qed.

Lemma normalize_columns_converts cols :
  ∀ copy,
    cols ⊆ autofix_feature_name <$> (f_columns f).*1 → NoDup cols →
    hoare
      (converting autofix_feature_name tz_convert_none
         replace_time_zone_none st0 f cols copy)
      (normalize_columns tz_convert_none replace_time_zone_none copy cols)
      (λ copy' st,
         converted autofix_feature_name tz_convert_none
           replace_time_zone_none st0 f copy' st)
      (λ _, False).
Proof.
  induction cols as [|col cols IH]; intros copy Hsub Hnd.
  - apply hoare_ret. intros st (f' & Hf' & Hkind & _ & Hcols).
    exists f'. split_and!; [done..|].
    eapply Forall2_impl; [exact Hcols|].
    intros c c' Hrel. cbv beta in Hrel.
    rewrite decide_False in Hrel; [done|].
    by intros ?%elem_of_nil.
  - cbn [normalize_columns]. apply NoDup_cons in Hnd as [Hnotin Hnd].
    eapply hoare_bind.
    + apply normalize_column_converts; [|done]. apply Hsub. by left.
    + intros copy'. apply IH; [|done].
      intros c Hc. apply Hsub. by right.
Qed.

Lemma converting_start copy st :
  frames st !! copy
  = Some (Frame (f_kind f)
            (zip (autofix_feature_name <$> (f_columns f).*1)
               (f_columns f).*2)) →
  arrays st = arrays st0 →
  converting autofix_feature_name tz_convert_none replace_time_zone_none
    st0 f (autofix_feature_name <$> (f_columns f).*1) copy st.
Proof.
  intros Hcopy Harrays. eexists. split_and!; [done|done| |].
  { intros ref a. by rewrite Harrays. }
  cbn [f_columns].
  apply Forall2_same_length_lookup. split.
  { rewrite length_zip_with, !length_fmap. lia. }
  intros i c c' Hc Hc'.
  apply lookup_zip_with_Some in Hc' as (n & r & -> & Hn & Hr).
  rewrite !list_lookup_fmap, Hc in Hn. rewrite list_lookup_fmap, Hc in Hr.
  cbn in Hn, Hr. injection Hn as <-. injection Hr as <-.
  cbn. rewrite decide_True; [done|].
  apply list_elem_of_fmap. exists c.1. split; [done|].
  apply list_elem_of_fmap. exists c. split; [done|].
  by eapply list_elem_of_lookup_2.
Qed.

Lemma convert_converts obj :
  frames st0 !! obj = Some f →
  hoare (λ st, st = st0)
    (convert_to_default_dataframe autofix_feature_name tz_convert_none
       replace_time_zone_none (ADataFrame obj))
    (λ r st,
       ∃ copy, r = Some copy
               ∧ converted autofix_feature_name tz_convert_none
                   replace_time_zone_none st0 f copy st)
    (λ _, False).
Proof.
  intros Hf.
  set (names := autofix_feature_name <$> (f_columns f).*1) in *.
  assert (Hzip : (zip names (f_columns f).*2).*1 = names).
  { apply fst_zip. unfold names. by rewrite !length_fmap. }
  unfold convert_to_default_dataframe.
  eapply hoare_bind with (mid := λ f' st, f' = f ∧ st = st0).
  { intros st ->. unfold get_frame. by rewrite Hf. }
  intros f1. cbv zeta.
  eapply hoare_bind with
    (mid := λ copy st, f1 = f ∧ frames st !! copy = Some f
                       ∧ arrays st = arrays st0).
  { intros st [-> ->]. unfold shallow_copy, get_frame, new_frame.
    unfold mbind, M_bind, bind. rewrite Hf. cbn.
    by rewrite lookup_insert_eq. }
  intros copy.
  eapply hoare_bind with
    (mid := λ _ st, f1 = f ∧ frames st !! copy = Some f
                    ∧ arrays st = arrays st0).
  { apply hoare_when; [|done]. by intros st (-> & ? & ?). }
  intros _.
  eapply hoare_bind with
    (mid := λ _ st, f1 = f ∧ frames st !! copy = Some f
                    ∧ arrays st = arrays st0).
  { apply hoare_when; [|done]. by intros st (-> & ? & ?). }
  intros _.
  eapply hoare_bind with
    (mid := λ f' st, f' = f ∧ frames st !! copy = Some f
                     ∧ arrays st = arrays st0).
  { intros st (-> & Hc & Ha). unfold get_frame. by rewrite Hc. }
  intros f2.
  eapply hoare_bind with
    (mid := λ _ st,
       frames st !! copy
         = Some (Frame (f_kind f) (zip names (f_columns f).*2))
       ∧ arrays st = arrays st0).
  { intros st (-> & Hc & Ha). unfold set_column_names, get_frame.
    unfold mbind, M_bind, bind. rewrite Hc. fold names.
    rewrite bool_decide_eq_false_2 by tauto.
    cbn. by rewrite lookup_insert_eq. }
  intros _.
  eapply hoare_bind with
    (mid := λ f' st,
       f' = Frame (f_kind f) (zip names (f_columns f).*2)
       ∧ frames st !! copy = Some f' ∧ arrays st = arrays st0).
  { intros st (Hc & Ha). unfold get_frame. by rewrite Hc. }
  intros f3.
  eapply hoare_bind with
    (mid := λ copy' st,
       converted autofix_feature_name tz_convert_none
         replace_time_zone_none st0 f copy' st).
  { intros st (-> & Hc & Ha). cbn [f_columns]. rewrite Hzip.
    apply (normalize_columns_converts names copy); [done..|].
    by apply converting_start. }
  intros copy'. apply hoare_ret. intros st Hs. by exists copy'.
Qed.

End converts.

Lemma keeps_refl st : keeps st st.
Proof. by split. Qed.


End ConvertSpec.

(** * The statements at concrete inputs *)

Module Concrete.
Import KafkaEngine PythonEngine PythonEngineFrames PythonEngineSave
  FeatureGroupEngine DataFrameObjects Props StoreProps Reconcile Examples
  AsStated.

Example sorted_names : sorted ["b"; "a"; "B"] = ["B"; "a"; "b"].
Proof. reflexivity. Qed.

Example key_of_two_columns :
  assemble_key ["name"; "id"] {[ "id" := PInt 12; "name" := PStr "x" ]}
  = inr "12x".
Proof. reflexivity. Qed.

Example checkpoint_string :
  offsets_of true [PartitionMetadata 0 3 5; PartitionMetadata 1 0 7]
  = ",0:5,1:7".
Proof. reflexivity. Qed.

Example cron_of_hours : cron_every 1700000000 (PInt 6) = "20 13 22/6 ? * * *".
Proof. reflexivity. Qed.

Example three_rows_run :
  match _write_dataframe_kafka (broker_of 2 1 []) 5 three_rows
          (world_of (fg (Some 7) false false Examples.features []) ∅) with
  | Done r w => r = Some job ∧ attempts w = 5%nat
  | _ => False
  end.
Proof. vm_compute. done. Qed.

(** The queue of this broker is full on the first two attempts: it frees
    up within three, and the three rows are published. *)
Example queue_frees_up : frees_up (broker_of 2 1 []) 3.
Proof.
  intros a. exists (2 - a)%nat. split; [lia|]. split.
  - intros k Hk.
    change (is_Some (if (a + k <? 2)%nat
                     then Some "Local: Queue full" else None)).
    rewrite (proj2 (Nat.ltb_lt _ _)) by lia. by eexists.
  - change ((if (a + (2 - a) <? 2)%nat
             then Some "Local: Queue full" else None) = None).
    by rewrite (proj2 (Nat.ltb_ge _ _)) by lia.
Qed.

Example three_rows_published :
  ∃ cp w1,
    publish (broker_of 2 1 []) 3 three_rows
      (world_of (fg (Some 7) false false Examples.features []) ∅)
    = Done cp w1
    ∧ (3 ≤ attempts w1)%nat.
Proof.
  apply (PublishSpec.publish_returns (broker_of 2 1 []) 3 three_rows
           (world_of (fg (Some 7) false false Examples.features []) ∅)).
  - exact queue_frees_up.
  - intros p. constructor.
  - apply Forall_fmap, Forall_forall. intros i Hi.
    apply elem_of_seq in Hi. cbn in Hi.
    assert (i = 0 ∨ i = 1 ∨ i = 2)%nat as [->|[->| ->]] by lia;
      eexists _, _, _; split; vm_compute; reflexivity.
Qed.

(** C1, as the specification words it, fails: the job was executed before
    and [skip_offsets] is not set, and the run has no
    [-initialCheckPointString], where the sentence expects the
    checkpoint. *)
Lemma resumes_unless_first_run_fails :
  ¬ resumes_unless_first_run (broker_of 0 0 [42]) 5 three_rows
      (world_of (fg (Some 7) false false Examples.features []) ∅).
Proof.
  intros H.
  edestruct H as (w2 & Hrun & Htrace).
  - vm_compute. reflexivity.
  - done.
  - done.
  - vm_compute in Hrun. injection Hrun as <-.
    vm_compute in Htrace. discriminate Htrace.
Qed.

(** C5, as the specification words it, fails: the feature [x] is in the
    result, as an on-demand feature, although its name is in the dropped
    set. *)
Lemma no_dropped_name_fails :
  ¬ no_dropped_name (fg (Some 7) false false [] [overwrite_x])
      [Feature.new "x" (Some "bigint") false].
Proof.
  intros H.
  apply (H (Feature.new "x" (Some "bigint") true)).
  - apply (bool_decide_unpack _). by vm_compute.
  - apply (bool_decide_unpack _). by vm_compute.
Qed.

(** C9, as the specification words it, fails: a row whose primary-key
    value is the empty string is published under the empty key. *)
Lemma keys_not_empty_fails :
  ¬ keys_not_empty (broker_of 0 0 []) 5 empty_key_row
      (world_of (fg (Some 7) false false Examples.features []) ∅).
Proof.
  intros H. specialize (H ltac:(done)).
  remember (_write_dataframe_kafka _ _ _ _) as r eqn:Hr in H.
  vm_compute in Hr. subst r.
  destruct H as (evs & Htrace & Hall).
  cbn in Htrace. subst evs.
  repeat (apply Forall_cons in Hall as [? Hall]).
  done.
Qed.

(** C3, as the specification words it, fails: the producer takes the
    message at once, the poll that follows serves the report of a message
    that timed out, and the acknowledgment callback raises out of
    [kafka_produce]. *)
Lemma succeeds_after_retries_fails :
  ¬ succeeds_after_retries timing_out_broker false 0 5 "1" "row"
      "119_7_fg_1_onlinefs" [] (PBool false)
      (set_progress_bar (Some (Tqdm 3 0 None false))
         (world_of (fg (Some 7) false false Examples.features []) ∅)).
Proof.
  intros H.
  destruct H as (w' & evs & Hrun & _).
  - split; [done|by eexists].
  - intros k Hk. lia.
  - reflexivity.
  - lia.
  - vm_compute in Hrun. discriminate Hrun.
Qed.

(** C6.  With two outputs, the overwritten column [x] keeps its place and
    is not moved to the end: the result has the columns [x], [y], [z], where
    the column [x] holds an output of the udf.  (With one output the column
    is moved, see [single_output_column_is_last].) *)
Lemma two_outputs_overwrite_in_place :
  _apply_python_udf (z_and_x PYTHON) x_and_y
    = inr (DataFrame.mk Pandas 2
             [("x", [PInt 12; PInt 22]); ("y", [PInt 10; PInt 20]);
              ("z", [PInt 11; PInt 21])])
  ∧ _apply_pandas_udf (z_and_x PANDAS) x_and_y
    = inr (DataFrame.mk Pandas 2
             [("x", [PInt 12; PInt 22]); ("y", [PInt 10; PInt 20]);
              ("z", [PInt 11; PInt 21])])
  ∧ _apply_transformation_function
      [TransformationFunction.mk (z_and_x PANDAS) ON_DEMAND] x_and_y false
    = inr (DataFrame.mk Pandas 2
             [("x", [PInt 12; PInt 22]); ("y", [PInt 10; PInt 20]);
              ("z", [PInt 11; PInt 21])]).
Proof. split_and!; reflexivity. Qed.

(** *** Instances of the theorems

    Each theorem above that has premises is applied to one of the concrete
    inputs, whose premises hold by computation. *)

Lemma ack_callback_raises_iff_fatal_witness :
  build_ack_callback_and_optional_progress_bar 3 false
    (world_of (fg (Some 7) false false Examples.features []) ∅)
  = Done (acked false)
      (set_progress_bar (Some (Tqdm 3 0 None false))
         (world_of (fg (Some 7) false false Examples.features []) ∅))
  ∧ bar_matches false
      (set_progress_bar (Some (Tqdm 3 0 None false))
         (world_of (fg (Some 7) false false Examples.features []) ∅)).
Proof.
  split; [reflexivity|].
  apply (KafkaEngineSpec.ack_callback_raises_iff_fatal 3 false
           (world_of (fg (Some 7) false false Examples.features []) ∅)
           _ (acked false) eq_refl).
Defined.

Lemma kafka_produce_retries_until_accepted_witness :
  let B := broker_of 2 0 [] in
  let w := set_progress_bar (Some (Tqdm 3 0 None false))
             (world_of (fg (Some 7) false false Examples.features []) ∅) in
  bar_matches false w
  ∧ (∀ k, (k < 2)%nat → is_Some (buffer_full B (attempts w + k)))
  ∧ buffer_full B (attempts w + 2) = None
  ∧ (∀ k, (k ≤ 2)%nat →
       Forall (λ r, ¬ fatal_report r) (reports B (polls w + k)))
  ∧ (2 < 5)%nat
  ∧ ∃ w' new_events,
      kafka_produce B 5 "1" "row" "119_7_fg_1_onlinefs" [] (acked false)
        (PBool false) w = Done tt w'
      ∧ trace w' = (trace w ++ new_events)%list
      ∧ attempts w' = (attempts w + (2 + 1))%nat
      ∧ count_events is_produce new_events = (2 + 1)%nat
      ∧ count_events (is_poll 1) new_events = 2%nat
      ∧ count_events (is_poll 0) new_events = 1%nat.
Proof.
  intros B w.
  assert (H1 : bar_matches false w) by (split; [done|by eexists]).
  assert (H2 : ∀ k, (k < 2)%nat → is_Some (buffer_full B (attempts w + k))).
  { intros [|[|k]] Hk; [by eexists..|lia]. }
  assert (H3 : buffer_full B (attempts w + 2) = None) by reflexivity.
  assert (H4 : ∀ k, (k ≤ 2)%nat →
                    Forall (λ r, ¬ fatal_report r) (reports B (polls w + k)))
    by (intros k _; constructor).
  assert (H5 : (2 < 5)%nat) by lia.
  split_and!; try done.
  apply (KafkaEngineSpec.kafka_produce_retries_until_accepted B false 2 5
           "1" "row" "119_7_fg_1_onlinefs" [] (PBool false) w H1 H2 H3 H4 H5).
Defined.

Lemma existing_topic_job_arguments_witness :
  let B := broker_of 0 0 [] in
  let w := world_of (fg (Some 7) false false Examples.features []) ∅ in
  ∃ w1,
    publish B 5 three_rows w = Done "119_7_fg_1_onlinefs,0:5" w1
    ∧ "119_7_fg_1_onlinefs,0:5" ≠ ""
    ∧ FeatureGroup.external (feature_group w) = false
    ∧ truthy (_start_offline_materialization (Some (write_options w))) = true
    ∧ ∃ w2,
        _write_dataframe_kafka B 5 three_rows w = Done (Some job) w2
        ∧ trace w2
          = (trace w1
             ++ [EvJobRun job
                   (Some "-op offline_fg_materialization -initialCheckPointString 119_7_fg_1_onlinefs,0:5")
                   (PBool false)])%list.
Proof.
  intros B w.
  assert (Hpub : ∃ w1, publish B 5 three_rows w
                       = Done "119_7_fg_1_onlinefs,0:5" w1)
    by (eexists; vm_compute; reflexivity).
  destruct Hpub as [w1 Hpub]. exists w1.
  assert (H2 : "119_7_fg_1_onlinefs,0:5" ≠ "") by done.
  assert (H3 : FeatureGroup.external (feature_group w) = false)
    by reflexivity.
  assert (H4 : truthy (_start_offline_materialization
                         (Some (write_options w))) = true) by reflexivity.
  split_and!; try done.
  destruct (MaterializationSpec.existing_topic_job_arguments B 5 three_rows
              w w1 _ Hpub H2 H3 H4) as (_ & w2 & Hrun & Htrace).
  exists w2. split; [exact Hrun|]. exact Htrace.
Defined.

Lemma first_ingestion_runs_and_schedules_witness :
  let B := broker_of 0 1 [] in
  let w := world_of (fg (Some 7) false false Examples.features [])
             {[ "offline_backfill_every_hr" := PInt 6 ]} in
  ∃ w1,
    publish B 5 three_rows w = Done "" w1
    ∧ FeatureGroup._multi_part_insert (feature_group w) = false
    ∧ FeatureGroup.external (feature_group w) = false
    ∧ (truthy (backfill_every (write_options w)) = true →
       is_str (backfill_every (write_options w))
       || is_int (backfill_every (write_options w)) = true)
    ∧ ∃ w2 new_events,
        _write_dataframe_kafka B 5 three_rows w = Done (Some job) w2
        ∧ trace w2 = (trace w1 ++ new_events)%list
        ∧ count_events is_job_run new_events = 1%nat
        ∧ EvJobSchedule job "20 13 22/6 ? * * *" 1700000002 ∈ new_events.
Proof.
  intros B w.
  assert (Hpub : ∃ w1, publish B 5 three_rows w = Done "" w1)
    by (eexists; vm_compute; reflexivity).
  destruct Hpub as [w1 Hpub]. exists w1.
  assert (H2 : FeatureGroup._multi_part_insert (feature_group w) = false)
    by reflexivity.
  assert (H3 : FeatureGroup.external (feature_group w) = false)
    by reflexivity.
  assert (H4 : truthy (backfill_every (write_options w)) = true →
               is_str (backfill_every (write_options w))
               || is_int (backfill_every (write_options w)) = true)
    by (intros _; reflexivity).
  split_and!; try done.
  destruct (MaterializationSpec.first_ingestion_runs_and_schedules B 5
              three_rows w w1 "" Hpub eq_refl H2 H3 H4)
    as (w2 & evs & Hrun & Htrace & Hcount & _ & Hschedule).
  exists w2, evs. split_and!; try done.
  apply Hschedule. by split_and!.
Defined.

Lemma insert_rejects_incompatible_schema_witness :
  let S := services_of None in
  let B := broker_of 0 0 [] in
  let w := world_of (fg (Some 7) false false Examples.features []) ∅ in
  let inferred :=
    [Feature.new "id" (Some "bigint") false;
     Feature.new "name" (Some "bigint") false;
     Feature.new "age" (Some "bigint") false] in
  FeatureGroup.has_id (feature_group w) = true
  ∧ insert_inputs S (feature_group w) extra_column (Some ∅) true w
    = Done (extra_column, inferred) w
  ∧ ¬ compatible (FeatureGroup.features (feature_group w)) inferred
  ∧ ∃ names,
      insert S B 5 extra_column false None None (Some ∅) true w
      = Raised (SchemaMismatchError names) w
      ∧ names ≠ [].
Proof.
  intros S B w inferred.
  assert (H1 : FeatureGroup.has_id (feature_group w) = true) by reflexivity.
  assert (H2 : insert_inputs S (feature_group w) extra_column (Some ∅) true w
               = Done (extra_column, inferred) w) by reflexivity.
  assert (H3 : ¬ compatible (FeatureGroup.features (feature_group w))
                   inferred).
  { intros [_ Hall].
    destruct (Hall (Feature.new "age" (Some "bigint") false))
      as (f & Hf & Hm).
    - apply (bool_decide_unpack _). by vm_compute.
    - cbn in Hf.
      repeat (apply elem_of_cons in Hf as [->|Hf]);
        [discriminate Hm..|by apply elem_of_nil in Hf]. }
  split_and!; try done.
  destruct (InsertSpec.insert_rejects_incompatible_schema S B 5 extra_column
              false None None (Some ∅) true w w extra_column inferred
              H1 H2 H3) as (names & Hrun & Hne & _).
  by exists names.
Defined.

Lemma rejected_validation_witness :
  let report := ValidationReport 1 "REJECTED" in
  let S := services_of (Some report) in
  let B := broker_of 0 0 [] in
  let w := world_of (fg None false false [] []) ∅ in
  let inferred :=
    [Feature.new "id" (Some "bigint") false;
     Feature.new "name" (Some "bigint") false] in
  ∃ w1,
    great_expectation_validate S (feature_group w1) three_rows
      (default ∅ (Some ∅)) = Some report
    ∧ ingestion_result report = "REJECTED"
    ∧ insert_inputs S (feature_group w) three_rows (Some ∅) true w
      = Done (three_rows, inferred) w
    ∧ save_inputs S (feature_group w) three_rows (Some ∅) w
      = Done (three_rows, inferred) w
    ∧ save_feature_group_metadata S inferred w = Done tt w1
    ∧ (∃ msg, insert S B 5 three_rows false None None (Some ∅) true w
              = Raised (DataValidationException msg) w1)
    ∧ save S B 5 three_rows (Some ∅) w = Done (None, Some report) w1
    ∧ count_events is_save_dataframe (trace w1) = 0%nat.
Proof.
  intros report S B w inferred.
  assert (Hstep : ∃ w1, save_feature_group_metadata S inferred w = Done tt w1)
    by (eexists; vm_compute; reflexivity).
  destruct Hstep as [w1 Hstep]. exists w1.
  assert (H1 : great_expectation_validate S (feature_group w1) three_rows
                 (default ∅ (Some ∅)) = Some report) by reflexivity.
  assert (H2 : ingestion_result report = "REJECTED") by reflexivity.
  assert (H3 : insert_inputs S (feature_group w) three_rows (Some ∅) true w
               = Done (three_rows, inferred) w) by reflexivity.
  assert (H4 : save_inputs S (feature_group w) three_rows (Some ∅) w
               = Done (three_rows, inferred) w) by reflexivity.
  destruct (InsertSpec.rejected_validation S B 5 three_rows false None None
              (Some ∅) true w w w1 three_rows inferred report H1 H2)
    as [Hinsert Hsave].
  destruct (Hinsert H3 Hstep) as (Hrun & evs & Htrace & Hcount).
  destruct (Hsave H4 Hstep) as (Hrun' & _).
  split_and!; try done.
  - by eexists.
  - rewrite Htrace. exact Hcount.
Defined.


End Concrete.
(** * Further properties of the publication *)

Module DeliverySpec.
Import KafkaEngine PythonEngine Props PublishSpec MaterializationSpec
  MoreProps.

(** The run of the job on a topic that existed, or on a multi-part
    insert: exact trace. *)
Lemma materialize_not_first B fg cp w :
  FeatureGroup.external fg = false →
  cp ≠ "" ∨ FeatureGroup._multi_part_insert fg = true →
  let options := write_options w in
  let job := FeatureGroup.materialization_job fg in
  ∃ w',
    materialize B fg cp w = Done (Some job) w'
    ∧ write_options w' = options
    ∧ trace w'
      = (trace w
         ++ (if truthy (_start_offline_materialization (Some options))
             then [EvJobRun job
                     (Some (job_args job
                              (if negb (truthy (get options "skip_offsets"
                                                  (PBool false)))
                                  && bool_decide (last_execution B ≠ [])
                               then "" else cp)))
                     (get options "wait_for_job" (PBool false))]
             else [])
         ++ wait_events fg options)%list.
Proof.
  intros Hext Hcase options job.
  unfold materialize. rewrite Hext.
  assert (String.eqb cp "" && negb (FeatureGroup._multi_part_insert fg)
          = false) as ->.
  { destruct Hcase as [Hcp| ->]; [|by rewrite andb_false_r].
    by destruct (String.eqb_spec cp ""). }
  unfold mbind, M_bind, bind, gets, when, log, modify, mret, M_ret, ret.
  fold options. unfold wait_events.
  destruct (truthy (_start_offline_materialization (Some options)));
    cbn [fetches emit trace write_options feature_group]; fold options;
    (destruct (FeatureGroup.online_enabled fg
               && truthy (get options "wait_for_online_ingestion"
                            (PBool false)));
     eexists; (split; [reflexivity|]); (split; [reflexivity|]);
     cbn [fetches emit trace write_options feature_group];
     repeat (rewrite <- app_assoc; cbn [app]); rewrite ?app_nil_r;
     reflexivity).
Qed.

(** X9.  For an external feature group [_write_dataframe_kafka] ends with the
    publication: it returns [None] in the world the publication left, so that
    no job is run or scheduled and the online ingestion is not waited for,
    whatever the write options ask. *)
Theorem external_feature_group_returns_none
    (B : broker) (fuel : nat) (dataframe : DataFrame.t) (w w1 : world)
    (initial_check_point : string) :
  publish B fuel dataframe w = Done initial_check_point w1 →
  FeatureGroup.external (feature_group w) = true →
  _write_dataframe_kafka B fuel dataframe w = Done None w1.
Proof.
  intros Hpub Hext.
  pose proof (stable_publish B fuel dataframe w) as Hsame.
  rewrite Hpub in Hsame. cbn in Hsame.
  apply same_inputs_fields in Hsame as (_ & Hx & _).
  rewrite (write_dataframe_kafka_after_publish _ _ _ _ _ _ Hpub).
  unfold materialize. by rewrite Hx, Hext.
Qed.

(** X10.  When the write options decline the offline materialization
    ([start_offline_materialization], or [start_offline_backfill] in its
    absence, is false) and the topic existed before the publication or the
    insert is multi-part, [_write_dataframe_kafka] runs and schedules no job:
    after the publication it only waits for the online ingestion when asked
    to, and it still returns the materialization job. *)
Theorem declined_materialization_runs_no_job
    (B : broker) (fuel : nat) (dataframe : DataFrame.t) (w w1 : world)
    (initial_check_point : string) :
  let fg := feature_group w in
  let options := write_options w in
  publish B fuel dataframe w = Done initial_check_point w1 →
  FeatureGroup.external fg = false →
  initial_check_point ≠ "" ∨ FeatureGroup._multi_part_insert fg = true →
  truthy (_start_offline_materialization (Some options)) = false →
  ∃ w2,
    _write_dataframe_kafka B fuel dataframe w
      = Done (Some (FeatureGroup.materialization_job fg)) w2
    ∧ trace w2 = (trace w1 ++ wait_events fg options)%list
    ∧ count_events is_job_event (wait_events fg options) = 0%nat.
Proof.
  intros fg options Hpub Hext Hcase Hstart.
  pose proof (stable_publish B fuel dataframe w) as Hsame.
  rewrite Hpub in Hsame. cbn in Hsame.
  apply same_inputs_fields in Hsame
    as (Ho & Hx & Hm & Ht & Hi & Hon & Hj).
  rewrite (write_dataframe_kafka_after_publish _ _ _ _ _ _ Hpub).
  destruct (materialize_not_first B (feature_group w1) initial_check_point w1)
    as (w2 & Hrun & _ & Htrace).
  { by rewrite Hx. }
  { rewrite Hm. exact Hcase. }
  exists w2. rewrite Hrun, Htrace, Ho, Hj.
  fold options. rewrite Hstart. cbn [app].
  unfold wait_events. rewrite Hon. fold fg.
  split_and!; [done|done|].
  by destruct (FeatureGroup.online_enabled fg && _).
Qed.

End DeliverySpec.

(** ** What the loop over the rows adds to the trace *)

Module RowLoopSpec.
Import KafkaEngine PythonEngine Props PublishSpec MaterializationSpec
  MoreProps.

Section row_events.
Variable B : broker.
Variable P : event → Prop.
Hypothesis P_produce : ∀ topic key value headers accepted,
  P (EvProduce topic key value headers accepted).
Hypothesis P_poll : ∀ timeout, P (EvPoll timeout).
Hypothesis P_print : ∀ line, P (EvPrint line).

Lemma quiet_bar (f : M world unit) w :
  (∀ w, match f w with
        | Done _ w' | Raised _ w' => trace w' = trace w
        | OutOfFuel => True
        end) →
  extends P w (f w).
Proof.
  intros Hf. specialize (Hf w).
  destruct (f w); cbn; [| |done]; exists []; by rewrite app_nil_r.
Qed.

Lemma rows_acked multi err msg w : extends P w (acked multi err msg w).
Proof.
  unfold acked. apply extends_bind.
  - destruct err as [[code err_str]|]; [|apply extends_ret].
    apply extends_bind; [by apply extends_same_trace|].
    intros opts w' _. apply extends_bind.
    + apply extends_when, extends_emit, P_print.
    + intros _ w'' _. apply extends_when, extends_bind.
      * apply quiet_bar. intros w0. unfold bar_set_colour.
        by destruct (progress_bar w0).
      * intros _ w3 _. apply extends_raise.
  - intros _ w' _. apply extends_when, quiet_bar.
    intros w0. unfold bar_update. by destruct (progress_bar w0).
Qed.

Lemma rows_poll multi timeout w :
  extends P w (poll B (acked multi) timeout w).
Proof.
  unfold poll.
  set (w1 := emit (EvPoll timeout) (set_polls (S (polls w)) w)).
  assert (H : extends P w1 (serve (acked multi) (reports B (polls w)) w1)).
  { unfold serve. apply extends_for_each. intros r w' _. apply rows_acked. }
  destruct (serve _ _ w1) as [a w'|e w'|]; cbn in *; [| |done];
    destruct H as (evs & Ht & HP); exists (EvPoll timeout :: evs);
    (split; [by rewrite Ht; subst w1; cbn; rewrite <- app_assoc
            |by constructor]).
Qed.

Lemma rows_kafka_produce multi key row topic headers debug fuel :
  ∀ w,
    extends P w
      (kafka_produce B fuel key row topic headers (acked multi) debug w).
Proof.
  induction fuel as [|fuel IH]; intros w; [done|].
  cbn [kafka_produce]. unfold except_BufferError.
  set (body := produce B topic key row headers ;; poll B (acked multi) 0).
  assert (Hbody : extends P w (body w)).
  { subst body. apply extends_bind.
    - unfold produce.
      destruct (buffer_full B (attempts w));
        (eexists [_]; split; [done|by constructor]).
    - intros _ w' _. apply rows_poll. }
  destruct (body w) as [a w'|e w'|] eqn:Hb; [done| |done].
  destruct e; try done.
  cbn in Hbody. destruct Hbody as (evs & Ht & HP).
  assert (Hrest : extends P w'
    ((when (truthy debug) (log (EvPrint ("Caught: " +:+ msg)));;
      poll B (acked multi) 1;;
      kafka_produce B fuel key row topic headers (acked multi) debug) w')).
  { apply extends_bind.
    - apply extends_when, extends_emit, P_print.
    - intros _ w1 _. apply extends_bind; [apply rows_poll|].
      intros _ w2 _. apply IH. }
  match goal with |- extends P w ?r => destruct r as [a w''|e w''|] end;
    cbn in *; [| |done];
    destruct Hrest as (evs' & Ht' & HP'); exists (evs ++ evs')%list;
    (split; [by rewrite Ht', Ht, app_assoc|by apply Forall_app]).
Qed.

Lemma rows_publish_row fuel fg headers fws writer multi row w :
  extends P w
    (publish_row B fuel fg headers fws writer (acked multi) row w).
Proof.
  unfold publish_row.
  destruct (encode_row _ _ row) as [e|[encoded_row row']];
    [apply extends_raise|].
  destruct (assemble_key _ row') as [e|key]; [apply extends_raise|].
  apply extends_bind; [by apply extends_same_trace|].
  intros opts w' _. apply rows_kafka_produce.
Qed.

Lemma rows_loop fuel fg headers fws writer multi rows w :
  extends P w
    (for_each rows
       (publish_row B fuel fg headers fws writer (acked multi)) w).
Proof.
  apply extends_for_each. intros row w' _. apply rows_publish_row.
Qed.

End row_events.

(** A relation between worlds that the primitive steps of the loop keep
    is kept by the loop. *)
Section row_loop_keeps.
Variable B : broker.
Variable R : relation world.
Context `{!Reflexive R, !Transitive R}.
Hypothesis R_emit : ∀ ev w, R w (emit ev w).
Hypothesis R_attempts : ∀ k w, R w (set_attempts k w).
Hypothesis R_polls : ∀ k w, R w (set_polls k w).
Hypothesis R_bar : ∀ b b' w,
  progress_bar w = Some b → R w (set_progress_bar (Some b') w).

Lemma keeps_acked multi err msg w : stable R w (acked multi err msg w).
Proof.
  unfold acked. apply stable_bind; [apply _| |].
  - destruct err as [[code err_str]|]; [|by apply stable_ret].
    apply stable_bind; [apply _|cbn; reflexivity|].
    intros opts w' _. apply stable_bind; [apply _| |].
    + apply stable_when; [apply _|]. cbn. apply R_emit.
    + intros _ w'' _. apply stable_when; [apply _|].
      apply stable_bind; [apply _| |].
      * unfold bar_set_colour.
        destruct (progress_bar w'') eqn:Hb; cbn; [by eapply R_bar|].
        reflexivity.
      * intros _ w3 _. by apply stable_raise.
  - intros _ w' _. apply stable_when; [apply _|].
    unfold bar_update.
    destruct (progress_bar w') eqn:Hb; cbn; [by eapply R_bar|].
    reflexivity.
Qed.

Lemma keeps_served {A} (f : M world A) w w1 :
  R w w1 → stable R w1 (f w1) → stable R w (f w1).
Proof.
  intros Hg Hf. destruct (f w1); cbn in *; [| |done]; by etrans.
Qed.

Lemma keeps_serve multi rs w : stable R w (serve (acked multi) rs w).
Proof.
  unfold serve. apply stable_for_each; [apply _..|].
  intros r w'. apply keeps_acked.
Qed.

Lemma keeps_poll multi timeout w :
  stable R w (poll B (acked multi) timeout w).
Proof.
  unfold poll. apply keeps_served; [|apply keeps_serve].
  etrans; [apply R_polls|apply R_emit].
Qed.

Lemma keeps_flush multi w : stable R w (flush B (acked multi) w).
Proof.
  unfold flush. apply keeps_served; [|apply keeps_serve].
  etrans; [apply R_polls|apply R_emit].
Qed.

Lemma keeps_kafka_produce multi key row topic headers debug fuel :
  ∀ w,
    stable R w
      (kafka_produce B fuel key row topic headers (acked multi) debug w).
Proof.
  induction fuel as [|fuel IH]; intros w; [done|].
  cbn [kafka_produce]. unfold except_BufferError.
  set (body := produce B topic key row headers ;; poll B (acked multi) 0).
  assert (Hbody : stable R w (body w)).
  { subst body. apply stable_bind; [apply _| |].
    - unfold produce.
      destruct (buffer_full B (attempts w)); cbn;
        (etrans; [apply R_attempts|apply R_emit]).
    - intros _ w' _. apply keeps_poll. }
  destruct (body w) as [a w'|e w'|] eqn:Hb; [done| |done].
  destruct e; try done. cbn in Hbody.
  assert (Hrest : stable R w'
    ((when (truthy debug) (log (EvPrint ("Caught: " +:+ msg)));;
      poll B (acked multi) 1;;
      kafka_produce B fuel key row topic headers (acked multi) debug) w')).
  { apply stable_bind; [apply _| |].
    - apply stable_when; [apply _|]. cbn. apply R_emit.
    - intros _ w1 _. apply stable_bind; [apply _|apply keeps_poll|].
      intros _ w2 _. apply IH. }
  match goal with |- stable _ w ?r => destruct r as [a w''|e w''|] end;
    cbn in *; [| |done]; by etrans.
Qed.

Lemma keeps_publish_row fuel fg headers fws writer multi row w :
  stable R w
    (publish_row B fuel fg headers fws writer (acked multi) row w).
Proof.
  unfold publish_row.
  destruct (encode_row _ _ row) as [e|[encoded_row row']];
    [by apply stable_raise|].
  destruct (assemble_key _ row') as [e|key]; [by apply stable_raise|].
  apply stable_bind; [apply _|cbn; reflexivity|].
  intros opts w' _. apply keeps_kafka_produce.
Qed.

Lemma keeps_loop fuel fg headers fws writer multi rows w :
  stable R w
    (for_each rows
       (publish_row B fuel fg headers fws writer (acked multi)) w).
Proof.
  apply stable_for_each; [apply _..|]. intros row w'.
  apply keeps_publish_row.
Qed.

End row_loop_keeps.

#[local] Instance no_fetch_no_bar_refl : Reflexive no_fetch_no_bar.
Proof. by intros w. Qed.

#[local] Instance no_fetch_no_bar_trans : Transitive no_fetch_no_bar.
Proof.
  intros w1 w2 w3 [H1 H2] [H3 H4]. split; [congruence|]. auto.
Qed.

(** What the set-up of the producer adds to the trace. *)
Lemma init_kafka_resources_trace B num_entries w r w' :
  init_kafka_resources B num_entries w = Done r w' →
  fetches w' = fetches w
  ∧ progress_bar w' = progress_bar w
  ∧ ∃ setup,
      trace w' = (trace w ++ setup)%list
      ∧ (setup = []
         ∨ setup = [EvInitProducer]
         ∨ setup = [EvInitProducer;
                    EvCreateOnlineIngestion (default 0%nat num_entries)])
      ∧ (FeatureGroup._multi_part_insert (feature_group w) = true →
         FeatureGroup._kafka_producer (feature_group w) = true →
         setup = []).
Proof.
  unfold init_kafka_resources, _init_kafka_resources, get_headers.
  unfold mbind, M_bind, bind, gets, when, modify, log, mret, M_ret, ret.
  destruct (FeatureGroup._multi_part_insert (feature_group w)) eqn:Hm;
    destruct (FeatureGroup._kafka_producer (feature_group w)) eqn:Hk;
    destruct (FeatureGroup.online_enabled (feature_group w)) eqn:Ho;
    cbn; rewrite ?Hm, ?Hk, ?Ho; cbn; rewrite ?Hm; cbn;
    intros [= <- <-]; cbn; (split; [done|]); (split; [done|]);
    first [ exists []; rewrite app_nil_r; by split_and!; [|left|]
          | exists [EvInitProducer]; by split_and!; [|right; left|]
          | exists [EvInitProducer;
                    EvCreateOnlineIngestion (default 0%nat num_entries)];
            rewrite <- app_assoc; by split_and!; [|right; right|] ].
Qed.

(** X7.  On a multi-part insert the publication takes no checkpoint and does
    not flush: it returns the empty checkpoint without a progress bar, and
    what it adds to the trace is the set-up of the producer (nothing when the
    producer of an earlier part is cached on the feature group) followed by
    produce attempts, polls and debug lines only.  So no topic metadata is
    fetched and the producer is never flushed. *)
Theorem multi_part_publication_takes_no_checkpoint
    (B : broker) (fuel : nat) (dataframe : DataFrame.t) (w w1 : world)
    (initial_check_point : string) :
  FeatureGroup._multi_part_insert (feature_group w) = true →
  publish B fuel dataframe w = Done initial_check_point w1 →
  initial_check_point = ""
  ∧ progress_bar w1 = None
  ∧ fetches w1 = fetches w
  ∧ ∃ setup rows,
      trace w1 = (trace w ++ setup ++ rows)%list
      ∧ (setup = []
         ∨ setup = [EvInitProducer]
         ∨ setup = [EvInitProducer;
                    EvCreateOnlineIngestion (DataFrame.n_rows dataframe)])
      ∧ (FeatureGroup._kafka_producer (feature_group w) = true → setup = [])
      ∧ Forall row_event rows.
Proof.
  intros Hmulti Hpub.
  split; [by rewrite (publish_checkpoint _ _ _ _ _ _ Hpub), Hmulti|].
  unfold publish in Hpub.
  apply bind_done in Hpub as ([[headers fws] writer] & wa & Hinit & Hpub).
  apply bind_done in Hpub as (fg & wb & Hfg & Hpub). injection Hfg as <- <-.
  apply bind_done in Hpub as (opts & wc & Hopts & Hpub).
  injection Hopts as <- <-.
  assert (Hma : FeatureGroup._multi_part_insert (feature_group wa) = true).
  { apply init_kafka_resources_result in Hinit
      as (_ & _ & _ & _ & _ & -> & _). exact Hmulti. }
  rewrite Hma in Hpub. cbn [negb] in Hpub.
  apply bind_done in Hpub as (cp & wd & Hcp & Hpub). injection Hcp as <- <-.
  apply bind_done in Hpub as (cb & we & Hcb & Hpub).
  injection Hcb as <- <-.
  apply bind_done in Hpub as ([] & wf & Hloop & Hpub).
  cbn in Hpub. injection Hpub as <- <-.
  set (we := set_progress_bar None wa) in *.
  pose proof (rows_loop B row_event ltac:(done) ltac:(done) ltac:(done)
                fuel (feature_group wa) headers fws writer true
                (DataFrame.rows dataframe) we) as Hrows.
  rewrite Hloop in Hrows. cbn in Hrows. destruct Hrows as (rows & Ht & Hrows).
  pose proof (keeps_loop B no_fetch_no_bar) as Hkeep.
  specialize (Hkeep ltac:(by intros ??) ltac:(by intros ??)
                ltac:(by intros ??)
                ltac:(intros ??? Hb; split; [done|by rewrite Hb])
                fuel (feature_group wa) headers fws writer true
                (DataFrame.rows dataframe) we).
  rewrite Hloop in Hkeep. cbn in Hkeep. destruct Hkeep as [Hf Hb].
  apply init_kafka_resources_trace in Hinit
    as (Hfa & _ & setup & Hta & Hsetup & Hcached).
  split; [by apply Hb|]. split; [by rewrite Hf|].
  exists setup, rows. split_and!.
  - rewrite Ht. subst we. cbn. by rewrite Hta, <- app_assoc.
  - exact Hsetup.
  - by apply Hcached.
  - exact Hrows.
Qed.

(** X8.  On a multi-part insert for which the offline materialization is asked
    for (the default), every part runs the materialization job once the rows
    are published, and the job gets no [-initialCheckPointString]: no
    checkpoint was taken, whatever [skip_offsets] and the earlier executions
    of the job are. *)
Theorem multi_part_job_runs_without_checkpoint
    (B : broker) (fuel : nat) (dataframe : DataFrame.t) (w w1 : world)
    (initial_check_point : string) :
  let fg := feature_group w in
  let options := write_options w in
  let job := FeatureGroup.materialization_job fg in
  publish B fuel dataframe w = Done initial_check_point w1 →
  FeatureGroup.external fg = false →
  FeatureGroup._multi_part_insert fg = true →
  truthy (_start_offline_materialization (Some options)) = true →
  ∃ w2,
    _write_dataframe_kafka B fuel dataframe w = Done (Some job) w2
    ∧ trace w2
      = (trace w1
         ++ EvJobRun job (Some (args_without job))
              (get options "wait_for_job" (PBool false))
         :: wait_events fg options)%list.
Proof.
  intros fg options job Hpub Hext Hmulti Hstart.
  pose proof (publish_checkpoint _ _ _ _ _ _ Hpub) as Hcp.
  fold fg in Hcp. rewrite Hmulti in Hcp. subst initial_check_point.
  pose proof (stable_publish B fuel dataframe w) as Hsame.
  rewrite Hpub in Hsame. cbn in Hsame.
  apply same_inputs_fields in Hsame
    as (Ho & Hx & Hm & Ht & Hi & Hon & Hj).
  rewrite (write_dataframe_kafka_after_publish _ _ _ _ _ _ Hpub).
  destruct (DeliverySpec.materialize_not_first B (feature_group w1) "" w1)
    as (w2 & Hrun & _ & Htrace).
  { by rewrite Hx. }
  { right. by rewrite Hm. }
  exists w2. rewrite Hrun, Htrace, Ho, Hj.
  fold options. rewrite Hstart. fold job.
  split; [done|].
  unfold wait_events. rewrite Hon. cbn [app].
  assert (Hsame : ∀ b : bool, (if b then "" else "") = "")
    by (by intros []).
  by rewrite Hsame.
Qed.

End RowLoopSpec.

(** ** The retry loop: what is produced, and when it stops *)

Module RetrySpec.
Import KafkaEngine PythonEngine Props KafkaEngineSpec PublishSpec MoreProps.

(** X1.  While the queue of the producer stays full and the polls serve no
    fatal delivery report, [kafka_produce] neither returns nor raises:
    whatever the loop budget of the embedding is, the loop is still running
    when the budget is used up.  The retry has no limit. *)
Theorem kafka_produce_never_gives_up
    (B : broker) (is_multi_part_insert : bool) (fuel : nat)
    (key encoded_row topic_name : string)
    (headers : list (string * string)) (debug_kafka : pyval) (w : world) :
  bar_matches is_multi_part_insert w →
  (∀ k, is_Some (buffer_full B (attempts w + k))) →
  (∀ k, Forall (λ r, ¬ fatal_report r) (reports B (polls w + k))) →
  kafka_produce B fuel key encoded_row topic_name headers
    (acked is_multi_part_insert) debug_kafka w = OutOfFuel.
Proof.
  revert w. induction fuel as [|fuel IH]; intros w Hbar Hfull Hquiet; [done|].
  destruct (Hfull 0%nat) as [e He]. rewrite Nat.add_0_r in He.
  rewrite (kafka_produce_refused _ _ _ _ _ _ _ _ _ e He).
  set (w1 := emit (EvProduce topic_name key encoded_row headers false)
               (set_attempts (S (attempts w)) w)).
  set (w2 := (if truthy debug_kafka
              then emit (EvPrint ("Caught: " +:+ e)) else id) w1).
  assert (Hw2 : attempts w2 = S (attempts w) ∧ polls w2 = polls w
                ∧ bar_matches is_multi_part_insert w2).
  { subst w2 w1. unfold bar_matches in *.
    destruct (truthy debug_kafka); cbn; tauto. }
  destruct Hw2 as (Ha & Hp & Hb).
  assert (Hq2 : Forall (λ r, ¬ fatal_report r) (reports B (polls w2))).
  { rewrite Hp. specialize (Hquiet 0%nat). by rewrite Nat.add_0_r in Hquiet. }
  destruct (poll_returns B is_multi_part_insert 1 w2 Hb Hq2)
    as (w3 & evs3 & Hrun3 & Ha3 & Hp3 & _ & _ & _ & Hb3 & _).
  rewrite Hrun3. apply IH; [done| |].
  - intros k. rewrite Ha3, Ha.
    replace (S (attempts w) + k)%nat with (attempts w + S k)%nat by lia.
    apply Hfull.
  - intros k. rewrite Hp3, Hp.
    replace (S (polls w) + k)%nat with (polls w + S k)%nat by lia.
    apply Hquiet.
Qed.

(** The callback raises [KafkaError] or, without a progress bar,
    [AttributeError]: never the [BufferError] that the retry loop
    catches. *)
Lemma acked_not_buffer_error multi err msg w e w' :
  acked multi err msg w = Raised e w' → ∀ m, e ≠ BufferError m.
Proof.
  unfold acked, bar_set_colour, bar_update.
  unfold mbind, M_bind, bind, gets, when, log, modify, mret, M_ret, ret,
    raise.
  destruct err as [[code err_str]|];
    repeat (match goal with
            | |- context [if ?c then _ else _] => destruct c
            | |- context [progress_bar ?x] => destruct (progress_bar x)
            end; cbn);
    intros [= <- <-]; done.
Qed.

Lemma serve_not_buffer_error multi rs :
  ∀ w e w', serve (acked multi) rs w = Raised e w' → ∀ m, e ≠ BufferError m.
Proof.
  unfold serve. induction rs as [|r rs IH]; intros w e w' Hrun; [done|].
  cbn [for_each] in Hrun. unfold mbind, M_bind, bind in Hrun.
  destruct (acked multi (dr_err r) (dr_msg r) w) as [[] w1|e1 w1|] eqn:Hack;
    [by eapply IH| |done].
  injection Hrun as <- <-. by eapply acked_not_buffer_error.
Qed.

Lemma poll_not_buffer_error B multi timeout w e w' :
  poll B (acked multi) timeout w = Raised e w' → ∀ m, e ≠ BufferError m.
Proof. unfold poll. apply serve_not_buffer_error. Qed.

Lemma accepted_none l :
  Forall (λ e, is_accepted e = false) l → accepted l = [].
Proof.
  unfold accepted. induction 1 as [|e l He _ IH]; [done|].
  rewrite filter_cons_False by congruence. exact IH.
Qed.

Lemma accepted_app l1 l2 :
  accepted (l1 ++ l2) = (accepted l1 ++ accepted l2)%list.
Proof. apply filter_app. Qed.

Lemma not_accepted_other e : is_produce e = false → is_accepted e = false.
Proof. by destruct e. Qed.

(** A call of [kafka_produce] that returns has had its message accepted
    exactly once. *)
Lemma kafka_produce_accepts_once B multi key row topic headers debug fuel :
  ∀ w w',
    kafka_produce B fuel key row topic headers (acked multi) debug w
      = Done tt w' →
    ∃ evs, trace w' = (trace w ++ evs)%list
           ∧ accepted evs = [EvProduce topic key row headers true].
Proof.
  induction fuel as [|fuel IH]; intros w w' Hrun; [done|].
  cbn [kafka_produce] in Hrun. unfold except_BufferError in Hrun.
  unfold mbind, M_bind, bind, produce in Hrun.
  destruct (buffer_full B (attempts w)) as [msg|] eqn:Hfull.
  - (* refused: the handler runs *)
    set (w1 := emit (EvProduce topic key row headers false)
                 (set_attempts (S (attempts w)) w)) in *.
    unfold when, log, modify, ret in Hrun.
    set (w2 := (if truthy debug
                then emit (EvPrint ("Caught: " +:+ msg)) else id) w1).
    assert (Hrun' :
      match poll B (acked multi) 1 w2 with
      | Done _ w3 =>
          kafka_produce B fuel key row topic headers (acked multi) debug w3
      | Raised e w3 => Raised e w3
      | OutOfFuel => OutOfFuel
      end = Done tt w').
    { subst w2. by destruct (truthy debug). }
    clear Hrun.
    pose proof (extends_poll B (λ e, is_accepted e = false)
                  not_accepted_other multi 1 w2) as Hpoll.
    destruct (poll B (acked multi) 1 w2) as [[] w3|e w3|]; [|done..].
    cbn in Hpoll. destruct Hpoll as (evs3 & Ht3 & He3).
    destruct (IH w3 w' Hrun') as (evs & Ht & Hacc).
    assert (Hw2 : ∃ pr, trace w2 = (trace w ++
                    EvProduce topic key row headers false :: pr)%list
                    ∧ Forall (λ e, is_accepted e = false) pr).
    { subst w2 w1. destruct (truthy debug); cbn;
        eexists; rewrite <- ?app_assoc; split; try reflexivity;
        repeat constructor. }
    destruct Hw2 as (pr & Ht2 & Hpr).
    exists (EvProduce topic key row headers false :: pr ++ evs3 ++ evs)%list.
    split.
    + rewrite Ht, Ht3, Ht2.
      repeat (rewrite <- app_assoc || rewrite <- app_comm_cons). done.
    + change (accepted (?e :: ?l)) with (accepted ([e] ++ l)).
      rewrite !accepted_app, Hacc.
      rewrite (accepted_none pr), (accepted_none evs3) by done. done.
  - (* accepted *)
    set (w1 := emit (EvProduce topic key row headers true)
                 (set_attempts (S (attempts w)) w)) in *.
    rewrite bool_decide_eq_true_2 in Hrun by done. fold w1 in Hrun.
    pose proof (extends_poll B (λ e, is_accepted e = false)
                  not_accepted_other multi 0 w1) as Hpoll.
    destruct (poll B (acked multi) 0 w1) as [[] w2|e w2|] eqn:Hp.
    + injection Hrun as <-. cbn in Hpoll.
      destruct Hpoll as (evs & Ht & He).
      exists (EvProduce topic key row headers true :: evs). split.
      * rewrite Ht. subst w1. cbn. by rewrite <- app_assoc.
      * change (accepted (?e :: ?l)) with (accepted ([e] ++ l)).
        rewrite accepted_app, (accepted_none evs) by done. done.
    + pose proof (poll_not_buffer_error _ _ _ _ _ _ Hp) as Hne.
      destruct e; try done. by destruct (Hne msg).
    + done.
Qed.

Lemma loop_accepts_each_row B multi fuel fg headers rows :
  ∀ w w',
    for_each rows
      (publish_row B fuel fg headers (get_writer_function B fg).1
         (get_writer_function B fg).2 (acked multi)) w = Done tt w' →
    ∃ evs, trace w' = (trace w ++ evs)%list
           ∧ Some <$> accepted evs = message_of B fg headers <$> rows.
Proof.
  induction rows as [|row rows IH]; intros w w' Hrun.
  - cbn in Hrun. injection Hrun as <-. exists []. by rewrite app_nil_r.
  - cbn [for_each] in Hrun.
    apply bind_done in Hrun as ([] & w1 & Hrow & Hrun).
    destruct (IH _ _ Hrun) as (evs & Ht & Hacc).
    unfold publish_row in Hrow. cbn [fmap list_fmap]. unfold message_of at 1.
    destruct (encode_row _ _ row) as [e|[encoded_row row']]; [done|].
    destruct (assemble_key _ row') as [e|key]; [done|].
    apply bind_done in Hrow as (opts & w2 & Hopts & Hrow).
    injection Hopts as <- <-.
    apply kafka_produce_accepts_once in Hrow as (evs1 & Ht1 & Hacc1).
    exists (evs1 ++ evs)%list. split.
    + by rewrite Ht, Ht1, app_assoc.
    + rewrite accepted_app, fmap_app, Hacc1, Hacc. done.
Qed.


Lemma for_each_app {A} (l1 l2 : list A) (body : A → M world unit) w :
  for_each (l1 ++ l2) body w = (for_each l1 body;; for_each l2 body) w.
Proof.
  revert w. induction l1 as [|x l1 IH]; intros w; [done|].
  cbn [app for_each]. unfold mbind, M_bind, bind.
  destruct (body x w) as [[] w1|e w1|]; [|done..]. apply IH.
Qed.

Lemma acked_fatal_with_bar code err_str msg w :
  bar_matches false w →
  fatal code →
  ∃ w', acked false (Some (code, err_str)) msg w
          = Raised (KafkaError code) w'
        ∧ attempts w' = attempts w
        ∧ ∃ b, progress_bar w' = Some b ∧ colour b = Some "RED".
Proof.
  intros [_ Hbar] Hf. destruct (Hbar eq_refl) as [b Hb].
  apply fatal_mem in Hf.
  unfold acked, bar_set_colour.
  unfold mbind, M_bind, bind, gets, when, log, modify, mret, M_ret, ret,
    raise.
  rewrite (bool_decide_eq_true_2 _ Hf).
  destruct (truthy _); cbn; rewrite Hb; eexists; (split; [reflexivity|]);
    cbn; eauto.
Qed.


End RetrySpec.

(** ** The resources of the producer, the checkpoint and the encoding *)

Module KafkaResourcesSpec.
Import KafkaEngine PythonEngine Props MoreProps.

(** X4.  On a multi-part insert the producer is set up once.  After a first
    call of [init_kafka_resources] a second call, for whatever number of
    entries, hands out the same headers and writers and changes nothing: no
    second producer is made and no second online ingestion is registered, so
    that the rows of the later parts travel under the ingestion id of the
    first part. *)
Theorem producer_is_set_up_once_per_multi_part_insert
    (B : broker) (num_entries later_entries : option nat) (w w1 : world)
    (resources : list (string * string)
                 * list (string * (pyval → string))
                 * (gmap string pyval → string)) :
  FeatureGroup._multi_part_insert (feature_group w) = true →
  init_kafka_resources B num_entries w = Done resources w1 →
  init_kafka_resources B later_entries w1 = Done resources w1.
Proof.
  unfold init_kafka_resources, _init_kafka_resources, get_headers.
  unfold mbind, M_bind, bind, gets, when, modify, log, mret, M_ret, ret.
  intros Hm.
  destruct (FeatureGroup._kafka_producer (feature_group w)) eqn:Hk;
    destruct (FeatureGroup.online_enabled (feature_group w)) eqn:Ho;
    cbn; rewrite ?Hm, ?Hk, ?Ho; cbn; rewrite ?Hm; cbn;
    intros [= <- <-]; cbn; rewrite ?Hm, ?Hk; cbn; reflexivity.
Qed.

Lemma string_app_assoc (a b c : string) : (a +:+ b) +:+ c = a +:+ b +:+ c.
Proof.
  induction a as [|x a IH]; [done|].
  change (String x ((a +:+ b) +:+ c) = String x (a +:+ b +:+ c)).
  by rewrite IH.
Qed.

Lemma string_app_nil_r (a : string) : a +:+ "" = a.
Proof.
  induction a as [|x a IH]; [done|].
  change (String x (a +:+ "") = String x a). by rewrite IH.
Qed.

Lemma offsets_of_concat high partitions :
  offsets_of high partitions
  = String.concat "" (partition_offset high <$> partitions).
Proof.
  unfold offsets_of.
  assert (H : ∀ acc,
    fold_left
      (λ offsets pm,
         offsets +:+ "," +:+ pretty (pm_id pm) +:+ ":"
           +:+ pretty (if high then pm_high pm else pm_low pm))
      partitions acc
    = acc +:+ String.concat "" (partition_offset high <$> partitions)).
  { induction partitions as [|pm l IH]; intros acc; cbn [fold_left].
    - cbn. by rewrite string_app_nil_r.
    - rewrite IH. cbn [fmap list_fmap]. fold (partition_offset high pm).
      rewrite string_app_assoc. f_equal.
      destruct l as [|pm' l']; cbn; [by rewrite string_app_nil_r|done]. }
  apply (H "").
Qed.

(** X5.  [kafka_get_offsets] always returns, after one fetch of the topic
    metadata.  For a topic of the metadata the checkpoint is the topic name
    followed by [,partition:offset] for every partition, in the order of the
    metadata, with the high or the low watermark as asked; for a topic that is
    not there it is the empty string.  So, for a topic with a name, the
    checkpoint is empty exactly when the topic does not exist, which is how
    [_write_dataframe_kafka] reads it. *)
Theorem kafka_get_offsets_checkpoint
    (B : broker) (topic_name : string) (feature_store_id : Z)
    (offline_write_options : gmap string pyval) (high : bool) (w : world) :
  ∃ checkpoint w',
    kafka_get_offsets B topic_name feature_store_id offline_write_options
      high w = Done checkpoint w'
    ∧ fetches w' = S (fetches w)
    ∧ trace w'
      = (trace w
         ++ [EvListTopics
               (get offline_write_options "kafka_timeout" (PInt 6))])%list
    ∧ checkpoint
      = match topics B (fetches w) !! topic_name with
        | Some partitions =>
            topic_name
              +:+ String.concat "" (partition_offset high <$> partitions)
        | None => ""
        end
    ∧ (topic_name ≠ "" →
       (checkpoint = "" ↔ topics B (fetches w) !! topic_name = None)).
Proof.
  unfold kafka_get_offsets.
  destruct (topics B (fetches w) !! topic_name) as [partitions|] eqn:Ht;
    eexists _, _; (split; [reflexivity|]); cbn;
    (split; [done|]); (split; [done|]).
  - split; [by rewrite offsets_of_concat|].
    intros Hname. split; [|done].
    intros Hcp. destruct topic_name; [done|discriminate Hcp].
  - done.
Qed.

Lemma encode_complex_features_spec fws :
  ∀ row row',
    encode_complex_features fws row = inr row' →
    dom row' = dom row
    ∧ (∀ k, k ∈ fws.*1 → ∃ bs, row' !! k = Some (PBytes bs))
    ∧ (∀ k, k ∉ fws.*1 → row' !! k = row !! k).
Proof.
  induction fws as [|[f wr] fws IH]; intros row row'.
  - cbn. intros [= <-]. split_and!; [done| |done].
    by intros k ?%elem_of_nil.
  - cbn [encode_complex_features].
    destruct (row !! f) as [v|] eqn:Hf; [|done].
    intros Hrun. apply IH in Hrun as (Hdom & Hbytes & Hother).
    split_and!.
    + rewrite Hdom. apply dom_insert_lookup_L. by eexists.
    + intros k. cbn. rewrite elem_of_cons. intros [->|Hk].
      * destruct (decide (f ∈ fws.*1)) as [Hin|Hnin]; [by apply Hbytes|].
        rewrite Hother by done. rewrite lookup_insert_eq. by eexists.
      * by apply Hbytes.
    + intros k. cbn. rewrite not_elem_of_cons. intros [Hne Hk].
      rewrite Hother by done. by rewrite lookup_insert_ne.
Qed.


End KafkaResourcesSpec.

(** ** Transformation functions on a dataframe *)

Module ApplySpec.
Import PythonEngineFrames MoreProps.

(** The fields of a dataframe that was just built. *)
Ltac fields :=
  cbn [DataFrame.n_rows DataFrame.kind DataFrame.cols with_cols].

Section other_columns.
(** The columns that a set of names leaves aside. *)
Variable names : list string.

Lemma aside_set_column name values cols :
  name ∈ names → aside names (set_column name values cols) = aside names cols.
Proof.
  intros Hin. unfold aside.
  induction cols as [|[n v] cols IH]; cbn [set_column].
  - by rewrite filter_cons_False by (cbn; tauto).
  - destruct (String.eqb_spec n name) as [->|Hne].
    + by rewrite !filter_cons_False by (cbn; tauto).
    + rewrite !filter_cons. cbn. by rewrite IH.
Qed.

Lemma aside_set_columns ns :
  ∀ values cols cols',
    (∀ n, n ∈ ns → n ∈ names) →
    set_columns ns values cols = inr cols' →
    aside names cols' = aside names cols.
Proof.
  induction ns as [|n ns IH]; intros [|v values] cols cols' Hsub Hset;
    try done.
  - by injection Hset as <-.
  - cbn [set_columns] in Hset.
    rewrite (IH _ _ _ ltac:(intros; apply Hsub; by right) Hset).
    apply aside_set_column, Hsub. by left.
Qed.

Lemma aside_pop_column name cols c rest :
  name ∈ names →
  pop_column name cols = Some (c, rest) →
  c.1 = name ∧ aside names rest = aside names cols.
Proof.
  intros Hin. unfold aside. revert c rest.
  induction cols as [|[n v] cols IH]; intros c rest Hpop; [done|].
  cbn [pop_column] in Hpop.
  destruct (String.eqb_spec n name) as [->|Hne].
  - injection Hpop as <- <-. split; [done|].
    by rewrite filter_cons_False by (cbn; tauto).
  - destruct (pop_column name cols) as [[c' rest']|]; [|done].
    injection Hpop as <- <-. destruct (IH _ _ eq_refl) as [Hc Hrest].
    split; [done|]. rewrite !filter_cons. cbn. by rewrite Hrest.
Qed.

Lemma aside_move_to_end name cols :
  name ∈ names → aside names (move_to_end name cols) = aside names cols.
Proof.
  intros Hin. unfold move_to_end.
  destruct (pop_column name cols) as [[c rest]|] eqn:Hpop; [|done].
  destruct (aside_pop_column _ _ _ _ Hin Hpop) as [Hc Hrest].
  unfold aside in *. rewrite filter_app, Hrest.
  rewrite filter_cons_False by (rewrite Hc; tauto).
  by rewrite filter_nil, app_nil_r.
Qed.

Lemma aside_python_udf hopsworks_udf dataframe result :
  (∀ n, n ∈ HopsworksUdf.output_column_names hopsworks_udf → n ∈ names) →
  _apply_python_udf hopsworks_udf dataframe = inr result →
  DataFrame.n_rows result = DataFrame.n_rows dataframe
  ∧ DataFrame.kind result = DataFrame.kind dataframe
  ∧ aside names (DataFrame.cols result)
    = aside names (DataFrame.cols dataframe).
Proof.
  intros Hsub. unfold _apply_python_udf.
  destruct (select _ _) as [e|inputs]; [done|].
  destruct (DataFrame.kind dataframe) eqn:Hkind.
  - case_bool_decide.
    + destruct (set_columns _ _ _) as [e|cols] eqn:Hset; [done|].
      intros [= <-]. fields. split_and!; [done..|].
      by eapply aside_set_columns.
    + destruct (HopsworksUdf.output_column_names hopsworks_udf)
        as [|name0 rest] eqn:Hnames; [done|].
      assert (Hin : name0 ∈ names) by (apply Hsub; by left).
      case_bool_decide; intros [= <-]; fields; (split_and!; [done..|]);
        rewrite ?aside_move_to_end by done; by apply aside_set_column.
  - destruct (set_columns _ _ _) as [e|cols] eqn:Hset; [done|].
    intros [= <-]. fields. split_and!; [done..|].
    by eapply aside_set_columns.
Qed.

Lemma aside_pandas_udf hopsworks_udf dataframe result :
  (∀ n, n ∈ HopsworksUdf.output_column_names hopsworks_udf → n ∈ names) →
  _apply_pandas_udf hopsworks_udf dataframe = inr result →
  DataFrame.n_rows result = DataFrame.n_rows dataframe
  ∧ DataFrame.kind result = DataFrame.kind dataframe
  ∧ aside names (DataFrame.cols result)
    = aside names (DataFrame.cols dataframe).
Proof.
  intros Hsub. unfold _apply_pandas_udf.
  destruct (select _ _) as [e|inputs]; [done|].
  case_bool_decide.
  - destruct (set_columns _ _ _) as [e|cols] eqn:Hset; [done|].
    intros [= <-]. fields. split_and!; [done..|].
    by eapply aside_set_columns.
  - destruct (HopsworksUdf.output_column_names hopsworks_udf)
      as [|name0 rest] eqn:Hnames; [done|].
    assert (Hin : name0 ∈ names) by (apply Hsub; by left).
    case_bool_decide; intros [= <-]; fields; (split_and!; [done..|]);
      rewrite ?aside_move_to_end by done; by apply aside_set_column.
Qed.

Lemma aside_apply_each tfs online :
  ∀ dataset dropped dataset' dropped',
    (∀ n, n ∈ all_outputs tfs → n ∈ names) →
    apply_each tfs online dataset dropped = inr (dataset', dropped') →
    DataFrame.n_rows dataset' = DataFrame.n_rows dataset
    ∧ DataFrame.kind dataset' = DataFrame.kind dataset
    ∧ aside names (DataFrame.cols dataset')
      = aside names (DataFrame.cols dataset)
    ∧ (∀ x, x ∈ dropped' ↔ x ∈ dropped ∨ x ∈ all_dropped tfs).
Proof.
  induction tfs as [|tf tfs IH];
    intros dataset dropped dataset' dropped' Hsub Hrun.
  - cbn in Hrun. injection Hrun as <- <-. split_and!; [done..|].
    intros x. unfold all_dropped. cbn. rewrite elem_of_nil. tauto.
  - cbn [apply_each] in Hrun.
    destruct (missing_features _ dataset); [|done].
    set (u := TransformationFunction.hopsworks_udf tf) in *.
    assert (Hu : ∀ n, n ∈ HopsworksUdf.output_column_names u → n ∈ names).
    { intros n Hn. apply Hsub. unfold all_outputs.
      rewrite list_elem_of_bind. exists tf. split; [done|by left]. }
    assert (Hrest : ∀ n, n ∈ all_outputs tfs → n ∈ names).
    { intros n Hn. apply Hsub. unfold all_outputs in *.
      rewrite list_elem_of_bind in *. destruct Hn as (tf' & ? & ?).
      exists tf'. split; [done|by right]. }
    set (dropped1 := match HopsworksUdf.dropped_features u with
                     | [] => dropped
                     | d => list_union dropped d
                     end) in *.
    assert (Hd1 : ∀ x, x ∈ dropped1
                       ↔ x ∈ dropped ∨ x ∈ HopsworksUdf.dropped_features u).
    { intros x. subst dropped1.
      destruct (HopsworksUdf.dropped_features u) as [|d ds] eqn:Hd.
      - rewrite elem_of_nil. tauto.
      - by rewrite list_elem_of_union. }
    destruct (match HopsworksUdf.get_current_execution_mode u online with
              | PANDAS => _apply_pandas_udf u dataset
              | PYTHON => _apply_python_udf u dataset
              end) as [e|dataset1] eqn:Hstep; [done|].
    assert (Hone : DataFrame.n_rows dataset1 = DataFrame.n_rows dataset
                   ∧ DataFrame.kind dataset1 = DataFrame.kind dataset
                   ∧ aside names (DataFrame.cols dataset1)
                     = aside names (DataFrame.cols dataset)).
    { destruct (HopsworksUdf.get_current_execution_mode u online);
        [by eapply aside_pandas_udf|by eapply aside_python_udf]. }
    destruct Hone as (Hn1 & Hk1 & Ha1).
    destruct (IH _ _ _ _ Hrest Hrun) as (Hn & Hk & Ha & Hd).
    split_and!; [congruence..|].
    intros x. rewrite Hd, Hd1. unfold all_dropped. cbn.
    fold u. rewrite elem_of_app. tauto.
Qed.

End other_columns.

(** X14.  A dataframe that [_apply_transformation_function] returns holds no
    column with the name of a dropped feature of any of the transformation
    functions, not even one that a transformation function has written: the
    columns are dropped after the last function is applied. *)
Theorem transformed_dataframe_has_no_dropped_column
    (transformation_functions : list TransformationFunction.t)
    (dataset result : DataFrame.t) (online_inference : bool) :
  _apply_transformation_function transformation_functions dataset
    online_inference = inr result →
  ∀ name, name ∈ DataFrame.columns result →
          name ∉ all_dropped transformation_functions.
Proof.
  unfold _apply_transformation_function.
  destruct (apply_each _ _ _ _) as [e|[dataset' dropped']] eqn:Hrun; [done|].
  apply (aside_apply_each (all_outputs transformation_functions)) in Hrun
    as (_ & _ & _ & Hd); [|done].
  unfold drop.
  destruct (filter _ dropped'); [|done].
  intros [= <-] name Hin Hdropped.
  unfold DataFrame.columns in Hin. cbn in Hin.
  apply list_elem_of_fmap in Hin as ([n v] & -> & Hc).
  apply list_elem_of_filter in Hc as [Hnot _]. apply Hnot. cbn.
  apply Hd. by right.
Qed.

(** X15.  The transformation functions leave alone what they do not name.  In
    a dataframe that [_apply_transformation_function] returns, the columns
    whose name is no output column of any transformation function are the
    columns of that kind of the input, less the dropped ones, with their
    values and in their order. *)
Theorem transformations_keep_the_other_columns
    (transformation_functions : list TransformationFunction.t)
    (dataset result : DataFrame.t) (online_inference : bool) :
  _apply_transformation_function transformation_functions dataset
    online_inference = inr result →
  filter (λ c, c.1 ∉ all_outputs transformation_functions)
    (DataFrame.cols result)
  = filter (λ c, (c.1 ∉ all_outputs transformation_functions)
                 ∧ (c.1 ∉ all_dropped transformation_functions))
      (DataFrame.cols dataset).
Proof.
  unfold _apply_transformation_function.
  destruct (apply_each _ _ _ _) as [e|[dataset' dropped']] eqn:Hrun; [done|].
  apply (aside_apply_each (all_outputs transformation_functions)) in Hrun
    as (_ & _ & Ha & Hd); [|done].
  unfold drop.
  destruct (filter _ dropped'); [|done].
  intros [= <-]. cbn [DataFrame.cols with_cols].
  unfold aside in Ha. cbn [DataFrame.cols] in Ha.
  set (Pout := λ c : string * list pyval,
                 c.1 ∉ all_outputs transformation_functions).
  set (Pdrop := λ c : string * list pyval, c.1 ∉ dropped').
  trans (filter Pdrop (filter Pout (DataFrame.cols dataset'))).
  { rewrite !list_filter_filter. apply list_filter_iff.
    intros c. tauto. }
  unfold Pout at 1. rewrite Ha, list_filter_filter.
  apply list_filter_iff. intros [n v]. unfold Pdrop, Pout. cbn.
  rewrite Hd, elem_of_nil. tauto.
Qed.

End ApplySpec.

(** ** [insert] and [save_dataframe]: after the validation *)

Module SaveSpec.
Import KafkaEngine PythonEngine PythonEngineFrames PythonEngineSave
  FeatureGroupEngine Props PublishSpec MoreProps.

(** X11.  The way through the ingestion job.  For a feature group that is
    neither external nor a stream feature group [save_dataframe] produces
    nothing to Kafka: it takes the entry [spark] out of the caller's write
    options, has the ingestion job configured, uploads the dataframe and runs
    the job, waiting for its end unless [wait_for_job] says otherwise (the
    default is to wait, whereas the run of the materialization job after a
    publication does not wait by default).  It returns the ingestion job. *)
Theorem legacy_save_runs_the_ingestion_job
    (B : broker) (fuel : nat) (dataframe : DataFrame.t)
    (operation storage : option string) (online_enabled : bool) (w : world) :
  let fg := feature_group w in
  let options := write_options w in
  FeatureGroup.external fg = false →
  FeatureGroup.stream fg = false →
  ∃ w',
    save_dataframe B fuel dataframe operation online_enabled storage w
      = Done (Some (ingestion_job B)) w'
    ∧ write_options w' = delete "spark" options
    ∧ feature_group w' = fg
    ∧ attempts w' = attempts w
    ∧ trace w'
      = (trace w
         ++ [EvSaveDataframe operation storage;
             EvPrint "Configuring ingestion job...";
             EvIngestionJob (get options "spark" PNone);
             EvPrint "Uploading Pandas dataframe...";
             EvUpload;
             EvJobRun (ingestion_job B) None
               (get options "wait_for_job" (PBool true))])%list.
Proof.
  intros fg options Hext Hstream.
  unfold save_dataframe, legacy_save_dataframe.
  unfold mbind, M_bind, bind, gets, when, log, modify, mret, M_ret, ret, pop.
  cbn [feature_group emit]. fold fg. rewrite Hstream, Hext. cbn [andb].
  cbn [write_options emit]. fold options.
  case_bool_decide as Hempty.
  - eexists. split; [reflexivity|].
    cbn [write_options emit set_write_options feature_group attempts trace].
    rewrite Hempty. unfold get. rewrite !lookup_empty, delete_empty.
    split_and!; try done.
    by repeat (rewrite <- app_assoc; cbn [app]).
  - eexists. split; [reflexivity|].
    cbn [write_options emit set_write_options feature_group attempts trace].
    rewrite MaterializationSpec.get_delete_ne by done.
    split_and!; try done.
    by repeat (rewrite <- app_assoc; cbn [app]).
Qed.

Section with_services.
Variable S : services.
Variable B : broker.

(** What [save_dataframe] adds to the trace starts with the record of
    the call. *)
Lemma save_dataframe_first_event fuel dataframe operation online storage w :
  match save_dataframe B fuel dataframe operation online storage w with
  | Done _ w' | Raised _ w' =>
      ∃ rest, trace w' = (trace w ++ EvSaveDataframe operation storage
                                       :: rest)%list
  | OutOfFuel => True
  end.
Proof.
  unfold save_dataframe.
  unfold mbind at 1, M_bind at 1, bind at 1, log at 1, modify.
  set (w1 := emit (EvSaveDataframe operation storage) w).
  unfold mbind at 1, M_bind at 1, bind at 1, gets. cbv beta.
  match goal with
  | |- match ?r with Done _ _ => _ | Raised _ _ => _ | OutOfFuel => _ end =>
      assert (Hrest : extends (λ _, True) w1 r); [|destruct r]
  end.
  { assert (Hkafka : extends (λ _, True) w1
                       (_write_dataframe_kafka B fuel dataframe w1)).
    { unfold _write_dataframe_kafka.
      apply extends_bind.
      { eapply extends_weaken; [|apply extends_publish]. done. }
      intros cp w2 _. apply extends_bind; [by apply extends_same_trace|].
      intros fg w3 _. by apply extends_materialize. }
    destruct (_ && _); [done|].
    destruct (FeatureGroup.external _); [by apply extends_raise|].
    destruct (FeatureGroup.stream _); [done|].
    - unfold legacy_save_dataframe.
      apply extends_bind; [by apply extends_same_trace|].
      intros opts w2 _.
      destruct (if bool_decide (opts = ∅) then _ else _) as [spark popped].
      apply extends_bind; [by apply extends_same_trace|]. intros _ w3 _.
      apply extends_bind; [by apply extends_emit|]. intros _ w4 _.
      apply extends_bind; [by apply extends_emit|]. intros _ w5 _.
      apply extends_bind; [by apply extends_emit|]. intros _ w6 _.
      apply extends_bind; [by apply extends_emit|]. intros _ w7 _.
      apply extends_bind; [by apply extends_same_trace|]. intros o w8 _.
      apply extends_bind; [by apply extends_emit|]. intros _ w9 _.
      apply extends_ret. }
  all: cbn in *; try done.
  all: destruct Hrest as (rest & Ht & _); exists rest;
    by rewrite Ht; subst w1; cbn; rewrite <- app_assoc.
Qed.

(** X12.  [insert] with the storage [online] into a feature group that is
    not online enabled raises [FeatureStoreException], once the schema and
    the validation have passed, and before anything is written: the world is
    the one the schema step left, so that, also with [overwrite], the
    content of the feature group is not deleted and [save_dataframe] is not
    called. *)
Theorem insert_refuses_online_storage_of_offline_group
    (fuel : nat) (feature_dataframe : DataFrame.t) (overwrite : bool)
    (operation : option string)
    (validation_options : option (gmap string pyval)) (transform : bool)
    (w w0 w1 : world) (transformed : DataFrame.t)
    (dataframe_features : list Feature.t) :
  let fg := feature_group w in
  let fg1 := feature_group w1 in
  insert_inputs S fg feature_dataframe validation_options transform w
    = Done (transformed, dataframe_features) w0 →
  (if negb (FeatureGroup.has_id fg)
   then save_feature_group_metadata S dataframe_features
   else _verify_schema_compatibility (FeatureGroup.features fg)
          dataframe_features) w0 = Done tt w1 →
  rejected (great_expectation_validate S fg1 transformed
              (default ∅ validation_options)) = false →
  FeatureGroup.online_enabled fg1 = false →
  insert S B fuel feature_dataframe overwrite operation (Some "online")
    validation_options transform w
  = Raised
      (FeatureStoreException
         "Online storage is not enabled for this feature group.") w1.
Proof.
  intros fg fg1 Hin Hstep Hge Honline.
  pose proof (InsertSpec.insert_inputs_done _ _ _ _ _ _ _ _ Hin) as ->.
  unfold insert.
  rewrite (InsertSpec.bind_done_eq _ _ w fg w) by done.
  fold fg. rewrite (InsertSpec.bind_done_eq _ _ _ _ _ Hin).
  rewrite (InsertSpec.bind_done_eq _ _ _ _ _ Hstep).
  rewrite (InsertSpec.bind_done_eq _ _ w1 fg1 w1) by done.
  fold fg1. rewrite Hge, Honline.
  rewrite bool_decide_eq_true_2 by done. done.
Qed.

(** X13.  [insert] with [overwrite] deletes the content of the feature group
    and then enters [save_dataframe] with the operation [bulk_insert],
    whatever operation the caller asked for.  Both happen after the schema
    step and the validation, in this order and once: what the call adds to
    the trace the schema step left starts with the deletion followed by the
    call of [save_dataframe]. *)
Theorem insert_overwrite_deletes_then_bulk_inserts
    (fuel : nat) (feature_dataframe : DataFrame.t)
    (operation storage : option string)
    (validation_options : option (gmap string pyval)) (transform : bool)
    (w w0 w1 : world) (transformed : DataFrame.t)
    (dataframe_features : list Feature.t) :
  let fg := feature_group w in
  let fg1 := feature_group w1 in
  insert_inputs S fg feature_dataframe validation_options transform w
    = Done (transformed, dataframe_features) w0 →
  (if negb (FeatureGroup.has_id fg)
   then save_feature_group_metadata S dataframe_features
   else _verify_schema_compatibility (FeatureGroup.features fg)
          dataframe_features) w0 = Done tt w1 →
  rejected (great_expectation_validate S fg1 transformed
              (default ∅ validation_options)) = false →
  FeatureGroup.online_enabled fg1 = true ∨ storage ≠ Some "online" →
  match
    insert S B fuel feature_dataframe true operation storage
      validation_options transform w
  with
  | Done _ w2 | Raised _ w2 =>
      ∃ rest,
        trace w2
        = (trace w1
           ++ EvDeleteContent
           :: EvSaveDataframe (Some "bulk_insert") storage :: rest)%list
  | OutOfFuel => True
  end.
Proof.
  intros fg fg1 Hin Hstep Hge Hstorage.
  pose proof (InsertSpec.insert_inputs_done _ _ _ _ _ _ _ _ Hin) as ->.
  unfold insert.
  rewrite (InsertSpec.bind_done_eq _ _ w fg w) by done.
  fold fg. rewrite (InsertSpec.bind_done_eq _ _ _ _ _ Hin).
  rewrite (InsertSpec.bind_done_eq _ _ _ _ _ Hstep).
  rewrite (InsertSpec.bind_done_eq _ _ w1 fg1 w1) by done.
  fold fg1. rewrite Hge.
  assert (negb (FeatureGroup.online_enabled fg1)
          && bool_decide (storage = Some "online") = false) as ->.
  { destruct Hstorage as [-> | Hne]; [done|].
    rewrite bool_decide_eq_false_2 by done. apply andb_false_r. }
  unfold mbind, M_bind, bind, mret, M_ret, ret, when, log, modify.
  pose proof (save_dataframe_first_event fuel transformed
                (Some "bulk_insert") (FeatureGroup.online_enabled fg1)
                storage (emit EvDeleteContent w1)) as Hfirst.
  destruct (save_dataframe _ _ _ _ _ _ _) as [job w2|e w2|]; [| |done];
    destruct Hfirst as (rest & Ht); exists rest;
    by rewrite Ht; cbn; rewrite <- app_assoc.
Qed.

End with_services.

End SaveSpec.

(** ** Reading the files of a training dataset *)

Module ReadSpec.
Import PyX PythonEngineRead ReadProps.

Lemma startswith_stem name :
  Str.startswith "_" (stem name) = Str.startswith "_" name.
Proof.
  unfold stem. destruct (Str.rfind "." name) as [i|]; [|done].
  case_bool_decide as Hi; [|done].
  destruct name as [|c name]; [cbn in Hi; lia|].
  destruct i as [|i]; [lia|]. done.
Qed.

(** X16.  A path is taken for a metadata file exactly when its last component
    (the last part between slashes that is neither empty nor a dot) begins
    with an underscore: the suffix that [stem] takes off plays no part, and
    neither do the directories on the way. *)
Theorem metadata_file_by_first_character (path : string) :
  _is_metadata_file path
  = match path_name path with
    | String c _ => Ascii.eqb c "_"
    | EmptyString => false
    end.
Proof.
  unfold _is_metadata_file. rewrite startswith_stem.
  destruct (path_name path) as [|c name]; [done|].
  cbn [Str.startswith]. rewrite andb_true_r. apply Ascii.eqb_sym.
Qed.

Section hopsfs.
Context {D : Type}.
Variable F : files D.
Variable location data_format dataframe_type : string.
Variable read_options : gmap string pyval.
Variable df_of : string → D.

Lemma read_page page :
  ∀ offset df_list s,
    (∀ path, path ∈ data_files page →
             read_file F data_format read_options dataframe_type path
             = inr (df_of path)) →
    fold_each page (read_inode F data_format read_options dataframe_type)
      (offset, df_list) s
    = Returned (offset + Z.of_nat (length page),
                (df_list ++ (df_of <$> data_files page))%list)
        (Session (listings s) (fetched s ++ data_files page)%list).
Proof.
  induction page as [|path page IH]; intros offset df_list s Hread.
  - cbn. rewrite Z.add_0_r, !app_nil_r. by destruct s.
  - cbn [fold_each]. unfold mbind, X_bind, xbind.
    unfold read_inode at 1. unfold data_files in *.
    destruct (_is_metadata_file path) eqn:Hmeta; cbn [negb].
    + rewrite filter_cons_False in * by (by rewrite Hmeta).
      cbn. rewrite IH by done. cbn. do 2 f_equal. lia.
    + rewrite filter_cons_True in * by done.
      unfold mbind, X_bind, xbind, update, attempt.
      rewrite (Hread path) by (by left). cbn.
      rewrite IH by (intros p Hp; apply Hread; by right).
      cbn. rewrite <- !app_assoc. cbn. do 2 f_equal. lia.
Qed.

Lemma pages_step (n : nat) :
  (1 ≤ n)%nat →
  ((n + 99) / 100 = 1 + (n - Nat.min 100 n + 99) / 100)%nat.
Proof.
  intros Hn.
  destruct (decide (n ≤ 100)%nat) as [Hle|Hgt].
  - rewrite Nat.min_r by lia. replace (n - n + 99)%nat with 99%nat by lia.
    rewrite (Nat.div_small 99 100) by lia.
    replace (n + 99)%nat with ((n - 1) + 1 * 100)%nat by lia.
    rewrite Nat.div_add by lia. rewrite Nat.div_small by lia. done.
  - rewrite Nat.min_l by lia.
    replace (n + 99)%nat with ((n - 100 + 99) + 1 * 100)%nat by lia.
    rewrite Nat.div_add by lia. lia.
Qed.

(** A server that holds the files [there] and answers every listing with
    their number and the page asked for. *)
Variable there : list string.
Hypothesis server : ∀ k offset,
  (0 ≤ offset)%Z →
  list_files F k location offset 100
  = (Z.of_nat (length there), take 100 (drop (Z.to_nat offset) there)).
Hypothesis readable : ∀ path,
  path ∈ data_files there →
  read_file F data_format read_options dataframe_type path
  = inr (df_of path).

Lemma data_files_app l1 l2 :
  data_files (l1 ++ l2) = (data_files l1 ++ data_files l2)%list.
Proof. apply filter_app. Qed.

Lemma data_files_sub l x :
  x ∈ data_files l → (∀ y, y ∈ l → y ∈ there) → x ∈ data_files there.
Proof.
  unfold data_files. rewrite !list_elem_of_filter.
  intros [Hd Hin] Hsub. split; [done|by apply Hsub].
Qed.

Lemma pages_from fuel :
  ∀ off df_list s,
    (off ≤ length there)%nat →
    (length there - off ≤ fuel)%nat →
    hopsfs_pages F fuel location data_format read_options dataframe_type
      (Z.of_nat off) (Z.of_nat (length there)) df_list s
    = Returned (df_list ++ (df_of <$> data_files (drop off there)))%list
        (Session (listings s + (length there - off + 99) / 100)
           (fetched s ++ data_files (drop off there))%list).
Proof.
  induction fuel as [|fuel IH]; intros off df_list s Hoff Hfuel;
    destruct (decide (off < length there)%nat) as [Hlt|Hge];
    [lia| |cbn [hopsfs_pages]|cbn [hopsfs_pages]].
  - cbn [hopsfs_pages]. rewrite (proj2 (Z.ltb_ge _ _)) by lia.
    rewrite drop_ge by lia.
    replace (length there - off + 99)%nat with 99%nat by lia.
    rewrite (Nat.div_small 99 100) by lia.
    unfold data_files. rewrite filter_nil. cbn [fmap list_fmap].
    rewrite Nat.add_0_r, !app_nil_r. by destruct s.
  - rewrite (proj2 (Z.ltb_lt _ _)) by lia.
    unfold mbind at 1, X_bind at 1, xbind at 1, read_state.
    unfold mbind at 1, X_bind at 1, xbind at 1, update.
    rewrite server by lia. rewrite Nat2Z.id.
    set (page := take 100 (drop off there)).
    assert (Hlen : length page = Nat.min 100 (length there - off)).
    { unfold page. by rewrite length_take, length_drop. }
    assert (Hsub : ∀ y, y ∈ page → y ∈ there).
    { intros y Hy. by eapply subseteq_drop, subseteq_take. }
    assert (Hdrop : drop off there
                    = (page ++ drop (off + length page) there)%list).
    { rewrite <- (take_drop 100 (drop off there)) at 1.
      fold page. f_equal. rewrite drop_drop, Hlen.
      destruct (decide (100 ≤ length there - off)%nat).
      - by rewrite Nat.min_l by lia.
      - rewrite Nat.min_r by lia. by rewrite !drop_ge by lia. }
    clearbody page.
    unfold mbind at 1, X_bind at 1, xbind at 1.
    rewrite read_page
      by (intros path Hp; apply readable; by eapply data_files_sub).
    replace (Z.of_nat off + Z.of_nat (length page))%Z
      with (Z.of_nat (off + length page)) by lia.
    rewrite IH by lia. cbn [listings fetched count_listing].
    rewrite Hdrop, data_files_app, fmap_app.
    rewrite <- !app_assoc. f_equal. f_equal.
    rewrite (pages_step (length there - off)) by lia.
    replace (length there - (off + length page))%nat
      with (length there - off - Nat.min 100 (length there - off))%nat
      by lia.
    lia.
  - rewrite (proj2 (Z.ltb_ge _ _)) by lia.
    rewrite drop_ge by lia.
    replace (length there - off + 99)%nat with 99%nat by lia.
    rewrite (Nat.div_small 99 100) by lia.
    unfold data_files. rewrite filter_nil. cbn [fmap list_fmap].
    rewrite Nat.add_0_r, !app_nil_r. by destruct s.
Qed.

Lemma pages_from_start (fuel : nat) (total_count : Z) (df_list : list D)
    (s : session) :
  (0 < total_count)%Z →
  (length there < fuel)%nat →
  hopsfs_pages F fuel location data_format read_options dataframe_type
    0 total_count df_list s
  = Returned (df_list ++ (df_of <$> data_files there))%list
      (Session (listings s + Nat.max 1 ((length there + 99) / 100))
         (fetched s ++ data_files there)%list).
Proof.
  intros Hcount Hfuel.
  destruct fuel as [|fuel]; [lia|].
  cbn [hopsfs_pages]. rewrite (proj2 (Z.ltb_lt _ _)) by lia.
  unfold mbind at 1, X_bind at 1, xbind at 1, read_state.
  unfold mbind at 1, X_bind at 1, xbind at 1, update.
  rewrite server by lia. change (Z.to_nat 0) with 0%nat. rewrite drop_0.
  set (page := take 100 there).
  assert (Hlen : length page = Nat.min 100 (length there)).
  { unfold page. by rewrite length_take. }
  assert (Hsub : ∀ y, y ∈ page → y ∈ there).
  { intros y Hy. by eapply subseteq_take. }
  assert (Hthere : there = (page ++ drop (length page) there)%list).
  { rewrite <- (take_drop 100 there) at 1. fold page. f_equal.
    rewrite Hlen. destruct (decide (100 ≤ length there)%nat).
    - by rewrite Nat.min_l by lia.
    - rewrite Nat.min_r by lia. by rewrite !drop_ge by lia. }
  clearbody page.
  unfold mbind at 1, X_bind at 1, xbind at 1.
  rewrite read_page
    by (intros path Hp; apply readable; by eapply data_files_sub).
  replace (0 + Z.of_nat (length page))%Z with (Z.of_nat (length page))
    by lia.
  rewrite pages_from by lia. cbn [listings fetched count_listing app].
  assert (Hfiles : data_files there
                   = (data_files page
                      ++ data_files (drop (length page) there))%list).
  { rewrite <- data_files_app. by rewrite <- Hthere. }
  rewrite Hfiles, fmap_app.
  rewrite <- !app_assoc. f_equal. f_equal.
  destruct (decide (length there = 0)%nat) as [H0|Hpos].
  - rewrite Hlen, H0. cbn. lia.
  - rewrite (pages_step (length there)) by lia. rewrite Hlen. lia.
Qed.

(** X17.  [_read_hopsfs_remote] against a server that answers every
    listing with the number of the files of the location and the page
    asked for: for every loop budget above the number of files it returns
    the dataframes of the data files, one for every file that is no
    metadata file, in the order of the server, and it has fetched each of
    these files once, page by page of a hundred (one listing when there is
    no file at all). *)
Theorem hopsfs_reads_every_data_file_once (fuel : nat) (s : session) :
  (length there < fuel)%nat →
  _read_hopsfs_remote F fuel location data_format (Some read_options)
    dataframe_type s
  = Returned (df_of <$> data_files there)
      (Session (listings s + Nat.max 1 ((length there + 99) / 100))
         (fetched s ++ data_files there)%list).
Proof.
  intros Hfuel. unfold _read_hopsfs_remote. cbn [default].
  by rewrite pages_from_start by (done || lia).
Qed.

(** X19.  Reading a location that holds no data file fails.  With the same
    server, when every file of the location is a metadata file (or there is
    none), [read] through the HopsFS connector raises after the listing:
    [pd.concat] refuses the empty list with a [ValueError], and for polars
    the first element of the empty list is asked for, an [IndexError] (a
    [ModuleNotFoundError] without polars). *)
Theorem read_of_a_location_without_data_files_raises
    {V L : Type} (C : conversions D V L) (fuel : nat) (bucket : string)
    (s : session) :
  (length there < fuel)%nat →
  data_files there = [] →
  data_format ≠ "" →
  ∃ s',
    read F C fuel HOPSFS bucket data_format (Some read_options) location
      dataframe_type s
    = Failed
        (if String.eqb (Str.lower dataframe_type) "polars"
         then if HAS_POLARS F
              then IndexError "list index out of range"
              else ModuleNotFoundError (polars_not_installed_message F)
         else Py (ValueError "No objects to concatenate")) s'
    ∧ fetched s' = fetched s.
Proof.
  intros Hfuel Hnone Hformat. unfold read.
  destruct (String.eqb_spec data_format ""); [done|].
  unfold _read_hopsfs. cbn [default].
  unfold mbind, X_bind, xbind, _read_hopsfs_remote. cbn [default].
  rewrite pages_from_start by (done || lia). rewrite Hnone.
  cbn [fmap list_fmap app]. rewrite app_nil_r.
  exists (Session (listings s + Nat.max 1 ((length there + 99) / 100))
            (fetched s)).
  split; [|reflexivity].
  destruct (String.eqb (Str.lower dataframe_type) "polars");
    [destruct (HAS_POLARS F)|]; reflexivity.
Qed.

End hopsfs.

Section hopsfs_empty_pages.
Context {D : Type}.
Variable F : files D.
Variable location data_format dataframe_type : string.
Variable read_options : gmap string pyval.

Lemma pages_never_end (total : Z) :
  0 < total →
  (∀ k, list_files F k location 0 100 = (total, [])) →
  ∀ fuel total_count df_list s,
    0 < total_count →
    hopsfs_pages F fuel location data_format read_options dataframe_type
      0 total_count df_list s
    = Exhausted.
Proof.
  intros Htotal Hserver.
  induction fuel as [|fuel IH]; intros total_count df_list s Hcount;
    cbn [hopsfs_pages];
    (destruct (Z.ltb_spec 0 total_count); [|lia]); [done|].
  unfold mbind, X_bind, xbind, read_state, update. cbn.
  rewrite Hserver. cbn. by apply IH.
Qed.

(** X18.  The loop of [_read_hopsfs_remote] ends only when the offset
    reaches the number of files that the server reports, and the offset
    moves by the files that are listed.  Against a server that reports files
    for the location but lists none of them, the loop does not end: whatever
    the loop budget, the call is cut off, with nothing returned and nothing
    raised. *)
Theorem hopsfs_listing_without_progress_never_ends
    (total : Z) (fuel : nat) (s : session) :
  0 < total →
  (∀ k, list_files F k location 0 100 = (total, [])) →
  _read_hopsfs_remote F fuel location data_format (Some read_options)
    dataframe_type s
  = Exhausted.
Proof.
  intros Htotal Hserver. unfold _read_hopsfs_remote.
  by apply (pages_never_end total).
Qed.

End hopsfs_empty_pages.

Section s3.
Context {D : Type}.
Variable F : files D.
Variable bucket location data_format dataframe_type : string.
Variable df_of : string → D.

Lemma read_objects objects :
  ∀ df_list s,
    (∀ obj, obj ∈ data_objects objects →
       (if String.eqb (Str.lower dataframe_type) "polars"
        then _read_polars F data_format
               (StreamingBody (get_object_body F bucket (Key obj)))
        else _read_pandas F data_format
               (StreamingBody (get_object_body F bucket (Key obj))))
       = inr (df_of (Key obj))) →
    fold_each objects (read_object F bucket data_format dataframe_type)
      df_list s
    = Returned (df_list ++ (df_of <$> (Key <$> data_objects objects)))%list
        (Session (listings s)
           (fetched s ++ (Key <$> data_objects objects))%list).
Proof.
  induction objects as [|obj objects IH]; intros df_list s Hread.
  - cbn. rewrite !app_nil_r. by destruct s.
  - cbn [fold_each]. unfold mbind, X_bind, xbind.
    unfold read_object at 1. unfold data_objects in *.
    destruct (_is_metadata_file (Key obj)) eqn:Hmeta; cbn [negb andb].
    + rewrite filter_cons_False in * by (rewrite Hmeta; by intros [? _]).
      cbn. by rewrite IH.
    + destruct (Z.ltb_spec 0 (Size obj)) as [Hsize|Hsize].
      * rewrite filter_cons_True in * by done.
        unfold mbind, X_bind, xbind, update.
        specialize (Hread obj (ltac:(by left)) ) as Hobj.
        destruct (String.eqb (Str.lower dataframe_type) "polars");
          rewrite Hobj; cbn;
          (rewrite IH by (intros o Ho; apply Hread; by right));
          cbn; by rewrite <- !app_assoc.
      * rewrite filter_cons_False in * by (intros [_ ?]; lia).
        cbn. by rewrite IH.
Qed.

(** X20.  [_read_s3] lists the bucket once when the response holds no true
    entry [is_truncated].  It then returns the dataframes of the objects of
    this one listing that are no metadata file and not empty, in the order
    of the listing, having fetched each of them once; and it raises
    [KeyError] for a response without [Contents], as for a prefix without
    objects, having fetched nothing. *)
Theorem s3_reads_the_listing_that_is_not_truncated
    (fuel : nat) (s : session) :
  let response :=
    list_objects_v2 F (listings s) bucket (key_prefix location) None in
  (0 < fuel)%nat →
  truthy (default (PBool false) (is_truncated response)) = false →
  (∀ objects obj,
     Contents response = Some objects → obj ∈ data_objects objects →
     (if String.eqb (Str.lower dataframe_type) "polars"
      then _read_polars F data_format
             (StreamingBody (get_object_body F bucket (Key obj)))
      else _read_pandas F data_format
             (StreamingBody (get_object_body F bucket (Key obj))))
     = inr (df_of (Key obj))) →
  _read_s3 F fuel bucket location data_format dataframe_type s
  = match Contents response with
    | Some objects =>
        Returned (df_of <$> (Key <$> data_objects objects))
          (Session (S (listings s))
             (fetched s ++ (Key <$> data_objects objects))%list)
    | None =>
        Failed (Py (KeyError "Contents"))
          (Session (S (listings s)) (fetched s))
    end.
Proof.
  intros response Hfuel Hlast Hread.
  destruct fuel as [|fuel]; [lia|].
  unfold _read_s3. cbn [s3_pages is_truncated default truthy].
  unfold mbind, X_bind, xbind, read_state, update. cbn.
  fold response.
  destruct (Contents response) as [objects|] eqn:Hc; [|done].
  rewrite read_objects by (intros obj Hobj; by apply (Hread objects)).
  cbn. destruct fuel; cbn; by rewrite Hlast.
Qed.

End s3.

End ReadSpec.

(** * The further properties at concrete inputs *)

Module ConcreteMore.
Import KafkaEngine PythonEngine PythonEngineFrames PythonEngineSave
  FeatureGroupEngine Props MoreProps Examples PyX PythonEngineRead
  ReadProps MoreExamples.

(** The premises of a statement, which hold by computation, are split off
    first; what stays is the conclusion of the theorem. *)
Ltac premises := repeat (split; [solve [assumption | lia]|]).

Lemma external_feature_group_returns_none_witness :
  let B := broker_of 0 0 [] in
  let w := world_of (fg (Some 7) false true Examples.features []) ∅ in
  ∃ cp w1,
    publish B 5 three_rows w = Done cp w1
    ∧ FeatureGroup.external (feature_group w) = true
    ∧ _write_dataframe_kafka B 5 three_rows w = Done None w1.
Proof.
  intros B w.
  assert (Hpub : ∃ cp w1, publish B 5 three_rows w = Done cp w1)
    by (eexists _, _; vm_compute; reflexivity).
  destruct Hpub as (cp & w1 & Hpub). exists cp, w1.
  assert (H2 : FeatureGroup.external (feature_group w) = true)
    by reflexivity.
  premises.
  exact (DeliverySpec.external_feature_group_returns_none B 5 three_rows
           w w1 cp Hpub H2).
Defined.

Lemma declined_materialization_runs_no_job_witness :
  let B := broker_of 0 0 [] in
  let w := world_of (fg (Some 7) false false Examples.features [])
             {[ "start_offline_materialization" := PBool false ]} in
  ∃ w1,
    publish B 5 three_rows w = Done "119_7_fg_1_onlinefs,0:5" w1
    ∧ FeatureGroup.external (feature_group w) = false
    ∧ truthy (_start_offline_materialization (Some (write_options w)))
      = false
    ∧ ∃ w2,
        _write_dataframe_kafka B 5 three_rows w = Done (Some job) w2
        ∧ trace w2 = trace w1.
Proof.
  intros B w.
  assert (Hpub : ∃ w1, publish B 5 three_rows w
                       = Done "119_7_fg_1_onlinefs,0:5" w1)
    by (eexists; vm_compute; reflexivity).
  destruct Hpub as [w1 Hpub]. exists w1.
  assert (H2 : FeatureGroup.external (feature_group w) = false)
    by reflexivity.
  assert (H3 : "119_7_fg_1_onlinefs,0:5" ≠ ""
               ∨ FeatureGroup._multi_part_insert (feature_group w) = true)
    by (by left).
  assert (H4 : truthy (_start_offline_materialization
                         (Some (write_options w))) = false) by reflexivity.
  premises.
  destruct (DeliverySpec.declined_materialization_runs_no_job B 5 three_rows
              w w1 _ Hpub H2 H3 H4) as (w2 & Hrun & Htrace & _).
  exists w2. split; [exact Hrun|].
  rewrite Htrace. apply app_nil_r.
Defined.

Lemma multi_part_publication_takes_no_checkpoint_witness :
  let B := broker_of 0 0 [] in
  let w := world_of (fg (Some 7) true false Examples.features []) ∅ in
  FeatureGroup._multi_part_insert (feature_group w) = true
  ∧ ∃ w1,
      publish B 5 three_rows w = Done "" w1
      ∧ progress_bar w1 = None
      ∧ fetches w1 = fetches w.
Proof.
  intros B w.
  assert (H1 : FeatureGroup._multi_part_insert (feature_group w) = true)
    by reflexivity.
  assert (Hpub : ∃ cp w1, publish B 5 three_rows w = Done cp w1)
    by (eexists _, _; vm_compute; reflexivity).
  destruct Hpub as (cp & w1 & Hpub).
  destruct (RowLoopSpec.multi_part_publication_takes_no_checkpoint B 5
              three_rows w w1 cp H1 Hpub) as (-> & Hbar & Hfetch & _).
  split; [done|]. by exists w1.
Defined.

Lemma multi_part_job_runs_without_checkpoint_witness :
  let B := broker_of 0 0 [42] in
  let w := world_of (fg (Some 7) true false Examples.features []) ∅ in
  ∃ cp w1,
    publish B 5 three_rows w = Done cp w1
    ∧ FeatureGroup.external (feature_group w) = false
    ∧ FeatureGroup._multi_part_insert (feature_group w) = true
    ∧ truthy (_start_offline_materialization (Some (write_options w)))
      = true
    ∧ ∃ w2,
        _write_dataframe_kafka B 5 three_rows w = Done (Some job) w2
        ∧ trace w2
          = (trace w1
             ++ [EvJobRun job (Some "-op offline_fg_materialization")
                   (PBool false)])%list.
Proof.
  intros B w.
  assert (Hpub : ∃ cp w1, publish B 5 three_rows w = Done cp w1)
    by (eexists _, _; vm_compute; reflexivity).
  destruct Hpub as (cp & w1 & Hpub). exists cp, w1.
  assert (H2 : FeatureGroup.external (feature_group w) = false)
    by reflexivity.
  assert (H3 : FeatureGroup._multi_part_insert (feature_group w) = true)
    by reflexivity.
  assert (H4 : truthy (_start_offline_materialization
                         (Some (write_options w))) = true) by reflexivity.
  premises.
  destruct (RowLoopSpec.multi_part_job_runs_without_checkpoint B 5
              three_rows w w1 cp Hpub H2 H3 H4) as (w2 & Hrun & Htrace).
  exists w2. split; [exact Hrun|]. exact Htrace.
Defined.

Lemma kafka_produce_never_gives_up_witness :
  let B := full_broker in
  let w := set_progress_bar (Some (Tqdm 3 0 None false))
             (world_of (fg (Some 7) false false Examples.features []) ∅) in
  bar_matches false w
  ∧ (∀ k, is_Some (buffer_full B (attempts w + k)))
  ∧ (∀ k, Forall (λ r, ¬ fatal_report r) (reports B (polls w + k)))
  ∧ kafka_produce B 1000 "1" "row" "119_7_fg_1_onlinefs" [] (acked false)
      (PBool false) w = OutOfFuel.
Proof.
  intros B w.
  assert (H1 : bar_matches false w) by (split; [done|by eexists]).
  assert (H2 : ∀ k, is_Some (buffer_full B (attempts w + k)))
    by (intros k; by eexists).
  assert (H3 : ∀ k, Forall (λ r, ¬ fatal_report r) (reports B (polls w + k)))
    by (intros k; constructor).
  split_and!; [exact H1|exact H2|exact H3|].
  exact (RetrySpec.kafka_produce_never_gives_up B false 1000 "1" "row"
           "119_7_fg_1_onlinefs" [] (PBool false) w H1 H2 H3).
Defined.



Lemma producer_is_set_up_once_per_multi_part_insert_witness :
  let B := broker_of 0 0 [] in
  let w := world_of (fg (Some 7) true false Examples.features []) ∅ in
  FeatureGroup._multi_part_insert (feature_group w) = true
  ∧ ∃ resources w1,
      init_kafka_resources B (Some 3%nat) w = Done resources w1
      ∧ init_kafka_resources B (Some 8%nat) w1 = Done resources w1.
Proof.
  intros B w.
  assert (H1 : FeatureGroup._multi_part_insert (feature_group w) = true)
    by reflexivity.
  assert (Hinit : ∃ resources w1,
            init_kafka_resources B (Some 3%nat) w = Done resources w1)
    by (eexists _, _; reflexivity).
  destruct Hinit as (resources & w1 & Hinit).
  split; [done|]. exists resources, w1. split; [done|].
  exact (KafkaResourcesSpec.producer_is_set_up_once_per_multi_part_insert B
           (Some 3%nat) (Some 8%nat) w w1 resources H1 Hinit).
Defined.


Lemma transformed_dataframe_has_no_dropped_column_witness :
  ∃ result,
    _apply_transformation_function [overwrite_x] x_and_y false = inr result
    ∧ ("x" ∉ DataFrame.columns result).
Proof.
  assert (Hrun : ∃ result,
            _apply_transformation_function [overwrite_x] x_and_y false
            = inr result) by (eexists; vm_compute; reflexivity).
  destruct Hrun as [result Hrun]. exists result. split; [done|].
  intros Hx.
  apply (ApplySpec.transformed_dataframe_has_no_dropped_column
           [overwrite_x] x_and_y result false Hrun "x" Hx).
  cbn. by left.
Defined.

Lemma transformations_keep_the_other_columns_witness :
  ∃ result,
    _apply_transformation_function
      [TransformationFunction.mk (z_and_x PANDAS) ON_DEMAND] x_and_y false
    = inr result
    ∧ filter (λ c, c.1 ∉ ["z"; "x"]) (DataFrame.cols result)
      = [("y", [PInt 10; PInt 20])].
Proof.
  assert (Hrun : ∃ result,
            _apply_transformation_function
              [TransformationFunction.mk (z_and_x PANDAS) ON_DEMAND]
              x_and_y false = inr result)
    by (eexists; vm_compute; reflexivity).
  destruct Hrun as [result Hrun]. exists result. split; [done|].
  pose proof (ApplySpec.transformations_keep_the_other_columns
                [TransformationFunction.mk (z_and_x PANDAS) ON_DEMAND]
                x_and_y result false Hrun) as Hkeep.
  etrans; [exact Hkeep|]. by vm_compute.
Defined.

Lemma legacy_save_runs_the_ingestion_job_witness :
  let B := broker_of 0 0 [] in
  let w := world_of legacy_fg {[ "wait_for_job" := PBool false ]} in
  FeatureGroup.external (feature_group w) = false
  ∧ FeatureGroup.stream (feature_group w) = false
  ∧ ∃ w',
      save_dataframe B 5 three_rows (Some "upsert") true None w
      = Done (Some (ingestion_job B)) w'
      ∧ attempts w' = 0%nat.
Proof.
  intros B w.
  assert (H1 : FeatureGroup.external (feature_group w) = false)
    by reflexivity.
  assert (H2 : FeatureGroup.stream (feature_group w) = false)
    by reflexivity.
  premises.
  destruct (SaveSpec.legacy_save_runs_the_ingestion_job B 5 three_rows
              (Some "upsert") None true w H1 H2)
    as (w' & Hrun & _ & _ & Hattempts & _).
  by exists w'.
Defined.

Lemma insert_refuses_online_storage_of_offline_group_witness :
  let S := services_of None in
  let B := broker_of 0 0 [] in
  let w := world_of offline_fg ∅ in
  let inferred :=
    [Feature.new "id" (Some "bigint") false;
     Feature.new "name" (Some "bigint") false] in
  insert_inputs S (feature_group w) three_rows (Some ∅) true w
    = Done (three_rows, inferred) w
  ∧ _verify_schema_compatibility (FeatureGroup.features (feature_group w))
      inferred w = Done tt w
  ∧ FeatureGroup.online_enabled (feature_group w) = false
  ∧ insert S B 5 three_rows true None (Some "online") (Some ∅) true w
    = Raised
        (FeatureStoreException
           "Online storage is not enabled for this feature group.") w.
Proof.
  intros S B w inferred.
  assert (H1 : insert_inputs S (feature_group w) three_rows (Some ∅) true w
               = Done (three_rows, inferred) w) by reflexivity.
  assert (H2 : (if negb (FeatureGroup.has_id (feature_group w))
                then save_feature_group_metadata S inferred
                else _verify_schema_compatibility
                       (FeatureGroup.features (feature_group w)) inferred) w
               = Done tt w) by (vm_compute; reflexivity).
  assert (H3 : rejected (great_expectation_validate S (feature_group w)
                           three_rows (default ∅ (Some ∅))) = false)
    by reflexivity.
  assert (H4 : FeatureGroup.online_enabled (feature_group w) = false)
    by reflexivity.
  premises.
  exact (SaveSpec.insert_refuses_online_storage_of_offline_group S B 5
           three_rows true None (Some ∅) true w w w three_rows inferred
           H1 H2 H3 H4).
Defined.

Lemma insert_overwrite_deletes_then_bulk_inserts_witness :
  let S := services_of None in
  let B := broker_of 0 0 [] in
  let w := world_of (fg (Some 7) false false declared_bigint []) ∅ in
  let inferred :=
    [Feature.new "id" (Some "bigint") false;
     Feature.new "name" (Some "bigint") false] in
  insert_inputs S (feature_group w) three_rows (Some ∅) true w
    = Done (three_rows, inferred) w
  ∧ ∃ result w2 rest,
      insert S B 5 three_rows true (Some "upsert") None (Some ∅) true w
      = Done result w2
      ∧ trace w2
        = (trace w
           ++ EvDeleteContent
           :: EvSaveDataframe (Some "bulk_insert") None :: rest)%list.
Proof.
  intros S B w inferred.
  assert (H1 : insert_inputs S (feature_group w) three_rows (Some ∅) true w
               = Done (three_rows, inferred) w) by reflexivity.
  assert (H2 : (if negb (FeatureGroup.has_id (feature_group w))
                then save_feature_group_metadata S inferred
                else _verify_schema_compatibility
                       (FeatureGroup.features (feature_group w)) inferred) w
               = Done tt w) by (vm_compute; reflexivity).
  assert (H3 : rejected (great_expectation_validate S (feature_group w)
                           three_rows (default ∅ (Some ∅))) = false)
    by reflexivity.
  assert (H4 : FeatureGroup.online_enabled (feature_group w) = true
               ∨ (None : option string) ≠ Some "online") by (by left).
  split; [done|].
  pose proof (SaveSpec.insert_overwrite_deletes_then_bulk_inserts S B 5
                three_rows (Some "upsert") None (Some ∅) true w w w
                three_rows inferred H1 H2 H3 H4) as Hrun.
  assert (Hdone : ∃ result w2,
            insert S B 5 three_rows true (Some "upsert") None (Some ∅) true w
            = Done result w2) by (eexists _, _; vm_compute; reflexivity).
  destruct Hdone as (result & w2 & Hdone). rewrite Hdone in Hrun.
  destruct Hrun as [rest Hrest]. by exists result, w2, rest.
Defined.

Lemma hopsfs_reads_every_data_file_once_witness :
  let F := files_of (paged td_1) in
  let s := Session 0 [] in
  (∀ (k : nat) (offset : Z), (0 ≤ offset)%Z →
     list_files F k "/Projects/p/td_1" offset 100
     = (Z.of_nat (length td_1), take 100 (skipn (Z.to_nat offset) td_1)))
  ∧ (3 < 5)%nat
  ∧ _read_hopsfs_remote F 5 "/Projects/p/td_1" "csv" (Some ∅) "default" s
    = Returned
        ["content of /Projects/p/td_1/part-0.csv";
         "content of /Projects/p/td_1/part-1.csv"]
        (Session 1
           ["/Projects/p/td_1/part-0.csv"; "/Projects/p/td_1/part-1.csv"]).
Proof.
  intros F s.
  assert (H1 : ∀ (k : nat) (offset : Z), (0 ≤ offset)%Z →
            list_files F k "/Projects/p/td_1" offset 100
            = (Z.of_nat (length td_1),
               take 100 (skipn (Z.to_nat offset) td_1)))
    by (intros k offset _; reflexivity).
  assert (H2 : ∀ path, path ∈ data_files td_1 →
            read_file F "csv" ∅ "default" path
            = inr ("content of " +:+ path))
    by (intros path _; reflexivity).
  assert (H3 : (length td_1 < 5)%nat) by (cbn; lia).
  split_and!; [done|lia|].
  exact (ReadSpec.hopsfs_reads_every_data_file_once F "/Projects/p/td_1"
           "csv" "default" ∅ (λ path, "content of " +:+ path) td_1 H1 H2
           5%nat s H3).
Defined.

Lemma read_of_a_location_without_data_files_raises_witness :
  let F := files_of (paged ["/Projects/p/td_2/_SUCCESS"]) in
  let s := Session 0 [] in
  data_files ["/Projects/p/td_2/_SUCCESS"] = []
  ∧ ∃ s',
      read F conversions_of 5 HOPSFS "" "csv" (Some ∅) "/Projects/p/td_2"
        "default" s
      = Failed (Py (ValueError "No objects to concatenate")) s'.
Proof.
  intros F s.
  assert (H1 : ∀ (k : nat) (offset : Z), (0 ≤ offset)%Z →
            list_files F k "/Projects/p/td_2" offset 100
            = (Z.of_nat (length ["/Projects/p/td_2/_SUCCESS"]),
               take 100 (skipn (Z.to_nat offset)
                           ["/Projects/p/td_2/_SUCCESS"])))
    by (intros k offset _; reflexivity).
  assert (H2 : ∀ path, path ∈ data_files ["/Projects/p/td_2/_SUCCESS"] →
            read_file F "csv" ∅ "default" path
            = inr ("content of " +:+ path))
    by (intros path _; reflexivity).
  assert (H3 : (length ["/Projects/p/td_2/_SUCCESS"] < 5)%nat) by (cbn; lia).
  assert (H4 : data_files ["/Projects/p/td_2/_SUCCESS"] = [])
    by reflexivity.
  assert (H5 : "csv" ≠ "") by done.
  split; [done|].
  destruct (ReadSpec.read_of_a_location_without_data_files_raises F
              "/Projects/p/td_2" "csv" "default" ∅
              (λ path, "content of " +:+ path)
              ["/Projects/p/td_2/_SUCCESS"] H1 H2 conversions_of 5%nat ""
              s H3 H4 H5) as (s' & Hrun & _).
  by exists s'.
Defined.

Lemma s3_reads_the_listing_that_is_not_truncated_witness :
  let F := files_of (paged []) in
  let s := Session 0 [] in
  (0 < 5)%nat
  ∧ is_truncated (list_objects_v2 F 0 "bucket" "td_1" None) = None
  ∧ _read_s3 F 5 "bucket" "s3://bucket/td_1" "csv" "default" s
    = Returned
        ["content of td_1/part-0.csv"; "content of td_1/part-2.csv"]
        (Session 1 ["td_1/part-0.csv"; "td_1/part-2.csv"]).
Proof.
  intros F s.
  assert (H1 : (0 < 5)%nat) by lia.
  assert (H2 : truthy (default (PBool false)
                 (is_truncated
                    (list_objects_v2 F (listings s) "bucket"
                       (key_prefix "s3://bucket/td_1") None))) = false)
    by reflexivity.
  assert (H3 : ∀ objects obj,
            Contents (list_objects_v2 F (listings s) "bucket"
                        (key_prefix "s3://bucket/td_1") None)
            = Some objects →
            obj ∈ data_objects objects →
            (if String.eqb (Str.lower "default") "polars"
             then _read_polars F "csv"
                    (StreamingBody (get_object_body F "bucket" (Key obj)))
             else _read_pandas F "csv"
                    (StreamingBody (get_object_body F "bucket" (Key obj))))
            = inr ("content of " +:+ Key obj))
    by (intros objects obj _ _; reflexivity).
  split_and!; [lia|reflexivity|].
  exact (ReadSpec.s3_reads_the_listing_that_is_not_truncated F "bucket"
           "s3://bucket/td_1" "csv" "default"
           (λ key, "content of " +:+ key) 5%nat s H1 H2 H3).
Defined.

Lemma hopsfs_listing_without_progress_never_ends_witness :
  let F := files_of unlisted in
  (0 < 5)%Z
  ∧ (∀ k, list_files F k "/Projects/p/td_1" 0 100 = (5%Z, []))
  ∧ _read_hopsfs_remote F 1000 "/Projects/p/td_1" "csv" (Some ∅) "default"
      (Session 0 [])
    = Exhausted.
Proof.
  intros F.
  assert (H1 : (0 < 5)%Z) by lia.
  assert (H2 : ∀ k, list_files F k "/Projects/p/td_1" 0 100 = (5, []))
    by (intros k; reflexivity).
  split_and!; [lia|done|].
  exact (ReadSpec.hopsfs_listing_without_progress_never_ends F
           "/Projects/p/td_1" "csv" "default" ∅ 5 1000%nat (Session 0 [])
           H1 H2).
Defined.

End ConcreteMore.
